(** * ingestion.trips: the monthly-window fetch / normalize / filter / aggregate asset

    A shallow embedding of [pipeline/assets/ingestion/trips.py] and the
    properties of its window enumerator, schema normalizer, window filter,
    resource fetcher and aggregator.

    The first part is the embedding: dates, the generator [_month_starts],
    the part of pandas the asset uses (tables with ordered, possibly repeated
    column labels), the world of environment, server, clock and output in
    which [materialize] runs, and sample data. The second part is the
    lemmas and the theorems. *)

From Stdlib Require Import ZArith Lia List Bool String Ascii DecimalString Sorted.
From Stdlib Require Import DecimalPos DecimalZ.
From stdpp Require Import base option strings gmap.
Import ListNotations.

Local Open Scope string_scope.
Local Open Scope Z_scope.

(** ** Exceptions and results *)

(** The exceptions the asset and the library calls it makes can end with.
    [OutOfFuel] is no exception of the program: it marks a run of
    [_month_starts] that was cut off, and [month_starts_finishes] shows that
    there is none. *)
Inductive exn : Type :=
| ValueError
| RuntimeError
| TypeError
| InvalidIndexError
| JSONError
| ConnectionError
| ParquetError
| KeyError
| OutOfFuel.

Inductive result (A : Type) : Type :=
| Ok (a : A)
| Raise (e : exn).
Arguments Ok {A} a.
Arguments Raise {A} e.

(** ** [datetime.date] *)

Module Date.

Record date : Type := mkdate { year : Z; month : Z; day : Z }.

Definition MINYEAR : Z := 1.
Definition MAXYEAR : Z := 9999.

Definition is_leap (y : Z) : bool :=
  (y mod 4 =? 0) && (negb (y mod 100 =? 0) || (y mod 400 =? 0)).

Definition days_in_month (y m : Z) : Z :=
  if m =? 2 then (if is_leap y then 29 else 28)
  else if (m =? 4) || (m =? 6) || (m =? 9) || (m =? 11) then 30
  else 31.

(** The range check of the [date(year, month, day)] constructor. *)
Definition check_date_fields (y m d : Z) : bool :=
  (MINYEAR <=? y) && (y <=? MAXYEAR) && (1 <=? m) && (m <=? 12)
  && (1 <=? d) && (d <=? days_in_month y m).

(** [date(y, m, d)]: [None] stands for the constructor's [ValueError]. *)
Definition new (y m d : Z) : option date :=
  if check_date_fields y m d then Some (mkdate y m d) else None.

(** The values a [date] object can hold. *)
Definition valid (d : date) : Prop :=
  check_date_fields (year d) (month d) (day d) = true.

(** Dates compare as their (year, month, day) triples. *)
Definition ltb (a b : date) : bool :=
  (year a <? year b)
  || ((year a =? year b)
      && ((month a <? month b)
          || ((month a =? month b) && (day a <? day b)))).

Definition eqb (a b : date) : bool :=
  (year a =? year b) && (month a =? month b) && (day a =? day b).

Definition leb (a b : date) : bool := ltb a b || eqb a b.

(** [a >= b] *)
Definition geb (a b : date) : bool := leb b a.

Definition lt (a b : date) : Prop :=
  year a < year b
  \/ (year a = year b
      /\ (month a < month b \/ (month a = month b /\ day a < day b))).

Definition le (a b : date) : Prop :=
  lt a b \/ (year a = year b /\ month a = month b /\ day a = day b).

(** Proleptic Gregorian ordinal, [date.toordinal()]: 0001-01-01 is day 1. *)
Definition days_before_year (y : Z) : Z :=
  let p := y - 1 in p * 365 + p / 4 - p / 100 + p / 400.

Fixpoint days_before_month_aux (y : Z) (n : nat) : Z :=
  match n with
  | O => 0
  | S k => days_before_month_aux y k + days_in_month y (Z.of_nat (S k))
  end.

Definition days_before_month (y m : Z) : Z :=
  days_before_month_aux y (Z.to_nat (m - 1)).

Definition toordinal (d : date) : Z :=
  days_before_year (year d) + days_before_month (year d) (month d) + day d.

(** The first day of the month [d] lies in. *)
Definition first_of_month (d : date) : date := mkdate (year d) (month d) 1.

(** A month-start is a date whose day is 1. *)
Definition is_month_start (d : date) : Prop := valid d /\ day d = 1.

(** The month after the one [d] lies in, as a (year, month, 1) triple. *)
Definition next_month (d : date) : date :=
  if 12 <? month d + 1 then mkdate (year d + 1) 1 1
  else mkdate (year d) (month d + 1) 1.

End Date.
Import Date.

(** ** The Window Enumerator, [_month_starts] *)

(** How a run of a generator ended: exhausted (the [break]), by an
  exception, or not yet (the fuel given to the run was used up). *)
Inductive finish : Type :=
| Exhausted
| Raised (e : exn)
| Unfinished.

Record gen_run (A : Type) : Type :=
mkrun { yielded : list A; finished : finish }.
Arguments mkrun {A} yielded finished.
Arguments yielded {A} g.
Arguments finished {A} g.

(** One turn of the generator body. *)
Inductive gen_step (S A : Type) : Type :=
| Yield (a : A) (s : S)
| Break
| Throw (e : exn).
Arguments Yield {S A} a s.
Arguments Break {S A}.
Arguments Throw {S A} e.

(** The local variables [year] and [month] of [_month_starts]. *)
Record ms_state : Type := mkms { ms_year : Z; ms_month : Z }.

(** The body of the [while True] loop, from the top of one iteration to the
  top of the next. *)
Definition month_starts_step (end_ : date) (s : ms_state) : gen_step ms_state date :=
match Date.new (ms_year s) (ms_month s) 1 with
| None => Throw ValueError
| Some current =>
    if Date.geb current end_ then Break
    else
      let month := ms_month s + 1 in
      if 12 <? month then Yield current (mkms (ms_year s + 1) 1)
      else Yield current (mkms (ms_year s) month)
end.

Fixpoint month_starts_run (fuel : nat) (end_ : date) (s : ms_state) : gen_run date :=
match fuel with
| O => mkrun [] Unfinished
| S fuel' =>
    match month_starts_step end_ s with
    | Yield d s' =>
        let r := month_starts_run fuel' end_ s' in
        mkrun (d :: yielded r) (finished r)
    | Break => mkrun [] Exhausted
    | Throw e => mkrun [] (Raised e)
    end
end.

(** Months are numbered [12 * year + (month - 1)]. *)
Definition month_index (y m : Z) : Z := 12 * y + (m - 1).

(** Iterations that are enough from state [s]: one per month up to the month
  of [end_], and one more for the [break] or the [ValueError]. *)
Definition month_starts_fuel (end_ : date) (s : ms_state) : nat :=
S (Z.to_nat (month_index (year end_) (month end_)
             - month_index (ms_year s) (ms_month s) + 1)).

Definition _month_starts (start end_ : date) : gen_run date :=
let s := mkms (year start) (month start) in
month_starts_run (month_starts_fuel end_ s) end_ s.

(** Neighbours in the sequence are successive months. *)
Fixpoint successive_months (l : list date) : Prop :=
match l with
| a :: (b :: _) as tl => b = next_month a /\ successive_months tl
| _ => True
end.

(** The loop invariant on [year] and [month]. *)
Definition ms_ok (s : ms_state) : Prop :=
1 <= ms_year s /\ 1 <= ms_month s <= 12.

(** The candidate [date(year, month, 1)] of a state. *)
Definition ms_date (s : ms_state) : date := mkdate (ms_year s) (ms_month s) 1.

Definition ms_index (s : ms_state) : Z := month_index (ms_year s) (ms_month s).

(** ** Strings *)

(** Column names are modelled as byte strings. On a label of ASCII
    characters [str.lower()] moves the letters A-Z to a-z and nothing else,
    which is what [lower] does; the case pairs of Unicode beyond them are
    left out, and the statements that depend on them are made of labels of
    ASCII characters ([ascii_label]). *)
Definition lower_ascii (a : ascii) : ascii :=
  let n := N_of_ascii a in
  if ((65 <=? n) && (n <=? 90))%N then ascii_of_N (n + 32) else a.

Fixpoint lower (s : string) : string :=
  match s with
  | EmptyString => EmptyString
  | String a s' => String (lower_ascii a) (lower s')
  end.

(** A label all of whose characters are below 128. *)
Definition ascii_label (s : string) : Prop :=
  List.Forall (fun a => (N_of_ascii a < 128)%N) (list_ascii_of_string s).

(** [str(n)] for an integer. *)
Definition str_of_int (n : Z) : string := NilZero.string_of_int (Z.to_int n).

(** The format [{n:02d}]: zero-padded to two characters. *)
Definition format_02d (n : Z) : string :=
  let s := str_of_int n in
  if (String.length s <? 2)%nat then "0" ++ s else s.

(** ** Tables: the part of [pandas.DataFrame] the asset uses *)

(** A timestamp: an instant, counted in nanoseconds since
    1970-01-01T00:00, and a time zone. Without an instant it is NaT; without
    a time zone it is tz-naive, and its instant is read off the wall clock,
    while the instant of a tz-aware one is read off the clock of UTC. The
    range limits of pandas timestamps are left out. *)
Record timestamp : Type := mkts { instant : option Z; tz : option string }.

Definition EPOCH_ORDINAL : Z := 719163.
Definition NANOS_PER_DAY : Z := 86400 * 1000000000.

(** Midnight of a day, in nanoseconds. *)
Definition nanos_of_date (d : date) : Z :=
  (toordinal d - EPOCH_ORDINAL) * NANOS_PER_DAY.

(** A tz-naive timestamp. *)
Definition tz_naive (n : Z) : timestamp := mkts (Some n) None.

(** [pd.Timestamp(d)] for a date: midnight of that day, tz-naive. *)
Definition Timestamp_of_date (d : date) : timestamp := tz_naive (nanos_of_date d).

(** A cell. [VNull] is the missing value of a column that is no datetime
    column (None, NaN); the missing value of a datetime column, NaT, is a
    timestamp; a float that is not NaN is [m * 2 ^ e]. *)
Inductive value : Type :=
| VNull
| VInt (n : Z)
| VFloat (m e : Z)
| VStr (s : string)
| VTimestamp (t : timestamp).

(** A row: its index label and one cell per column. *)
Record row : Type := mkrow { label : Z; cells : list value }.

(** Column labels are kept in order and may repeat. *)
Record DataFrame : Type := mkdf { columns : list string; rows : list row }.

(** Every row has one cell per column. *)
Definition well_formed (df : DataFrame) : Prop :=
  Forall (fun r => length (cells r) = length (columns df)) (rows df).

(** [pd.DataFrame()] *)
Definition empty_frame : DataFrame := mkdf [] [].

(** [pd.DataFrame(columns=cols)] *)
Definition frame_of_columns (cols : list string) : DataFrame := mkdf cols [].

(** [df.empty]: an axis of length 0. *)
Definition empty (df : DataFrame) : bool :=
  match columns df, rows df with
  | [], _ => true
  | _, [] => true
  | _, _ => false
  end.

(** [c in df.columns] *)
Definition has_column (df : DataFrame) (c : string) : bool :=
  existsb (String.eqb c) (columns df).

(** How often a label occurs among the columns. *)
Definition count_column (df : DataFrame) (c : string) : nat :=
  length (List.filter (String.eqb c) (columns df)).

(** [df.rename(columns=m)]: labels that are keys of [m] are replaced. *)
Definition rename (m : gmap string string) (df : DataFrame) : DataFrame :=
  mkdf (List.map (fun c => default c (m !! c)) (columns df)) (rows df).

(** The dict [{c: c.lower() for c in df.columns}]; a key met again is
    overwritten. *)
Definition lower_map (cols : list string) : gmap string string :=
  fold_left (fun m c => <[c := lower c]> m) cols ∅.

(** What [df[c]] is: a Series when one column has the label, a frame of the
    columns with that label when several have. *)
Inductive selection : Type :=
| Series (vals : list value)
| Frame (cols : list (list value)).

(** The positions of the label [c]. *)
Fixpoint positions_from (i : nat) (cols : list string) (c : string) : list nat :=
  match cols with
  | [] => []
  | x :: cols' =>
      if String.eqb x c then i :: positions_from (S i) cols' c
      else positions_from (S i) cols' c
  end.

Definition positions (df : DataFrame) (c : string) : list nat :=
  positions_from 0 (columns df) c.

Definition cell_at (i : nat) (r : row) : value := nth i (cells r) VNull.

Definition column_at (df : DataFrame) (i : nat) : list value :=
  List.map (cell_at i) (rows df).

(** [df[c]] *)
Definition getitem (df : DataFrame) (c : string) : result selection :=
  match positions df c with
  | [] => Raise KeyError
  | [i] => Ok (Series (column_at df i))
  | ps => Ok (Frame (List.map (column_at df) ps))
  end.

(** The cells of a row after the cells under label [c] are set to [v]. *)
Fixpoint set_cells (cols : list string) (c : string) (v : value)
    (cs : list value) : list value :=
  match cols, cs with
  | x :: cols', old :: cs' =>
      (if String.eqb x c then v else old) :: set_cells cols' c v cs'
  | _, _ => cs
  end.

(** The cells of a row, filled up to [n] cells with missing ones. A row of
    a table has one cell per column ([well_formed]), and nothing is filled
    in. *)
Definition fill (n : nat) (cs : list value) : list value :=
  cs ++ repeat VNull (n - length cs).

Definition set_in_row (df : DataFrame) (c : string) (r : row) (v : value) : row :=
  if has_column df c then mkrow (label r) (set_cells (columns df) c v (cells r))
  else mkrow (label r) (fill (length (columns df)) (cells r) ++ [v]).

Definition columns_with (df : DataFrame) (c : string) : list string :=
  if has_column df c then columns df else columns df ++ [c].

(** [df[c] = vals] for a Series of the frame's own index: every column
    labelled [c] takes the values, and a new last column does when there is
    none. *)
Definition setitem (df : DataFrame) (c : string) (vals : list value) : DataFrame :=
  mkdf (columns_with df c) (zip_with (set_in_row df c) (rows df) vals).

(** [df[c] = v] for a scalar, spread over all rows. *)
Definition setitem_scalar (df : DataFrame) (c : string) (v : value) : DataFrame :=
  mkdf (columns_with df c) (List.map (fun r => set_in_row df c r v) (rows df)).

(** [df.loc[mask]]: the rows whose mask bit is set, labels kept. *)
Definition loc_mask (df : DataFrame) (mask : list bool) : DataFrame :=
  mkdf (columns df) (List.map fst (List.filter snd (zip (rows df) mask))).

(** ** The library functions the asset calls and does not define *)

Class Library : Type := {
  (** [date.fromisoformat]; [None] is its [ValueError]. *)
  fromisoformat : string -> option date;
  (** [json.loads(raw).get("taxi_types")] read as the sequence the [for]
      loop walks: [Ok None] when the key is absent. *)
  json_taxi_types : string -> result (option (list string));
  (** [pd.read_parquet(io.BytesIO(content))] *)
  read_parquet : string -> result DataFrame;
  (** [pd.to_datetime(column, errors="coerce")] on a column that is not
      one of timestamps already. It parses the column as a whole: the
      exception it raises, if it raises ([ValueError] on mixed UTC offsets,
      for one); the time zone of the column it returns; and the instant it
      reads a cell of the column as, [None] for NaT. *)
  to_datetime_error : list value -> option exn;
  to_datetime_tz : list value -> option string;
  to_datetime_instant : list value -> value -> option Z;
  (** [pd.concat] brings the cells of a column to one dtype: the cell it
      makes of a cell of the stacked column (an integer beside a float or
      a missing value comes back as a float, for one). *)
  concat_cast : list value -> value -> value
}.

(** The dates [fromisoformat] returns are dates, and the tables
    [read_parquet] returns have one cell per column in every row. *)
Class LibraryOk (L : Library) : Prop := {
  fromisoformat_valid : forall s d, fromisoformat s = Some d -> valid d;
  read_parquet_well_formed : forall s df, read_parquet s = Ok df -> well_formed df
}.

#[global] Instance result_ret : MRet result := fun _ a => Ok a.
#[global] Instance result_bind : MBind result :=
  fun _ _ f r => match r with Ok a => f a | Raise e => Raise e end.

(** The time zones of the timestamps of a column. *)
Definition zones (vals : list value) : list (option string) :=
  flat_map (fun v => match v with VTimestamp t => [tz t] | _ => [] end) vals.

(** The time zone of a column whose cells are timestamps of one time zone
    or missing: it is a datetime column already, or is made one as it is. *)
Definition datetime_tz (vals : list value) : option (option string) :=
  if forallb (fun v => match v with VNull | VTimestamp _ => true | _ => false end) vals
  then
    match zones vals with
    | [] => Some None
    | z :: zs => if forallb (fun z' => bool_decide (z' = z)) zs then Some z else None
    end
  else None.

(** The cell [pd.to_datetime] makes of a cell of the column [vals], when it
    does not raise: a timestamp stays in a column of timestamps, and a
    missing value there becomes NaT; any other column is parsed. *)
Definition coerce_cell `{Library} (vals : list value) (v : value) : value :=
  match datetime_tz vals with
  | Some z => match v with
              | VTimestamp t => VTimestamp t
              | _ => VTimestamp (mkts None z)
              end
  | None => VTimestamp (mkts (to_datetime_instant vals v) (to_datetime_tz vals))
  end.

(** The exception [pd.to_datetime] raises on the column [vals], if any. *)
Definition to_datetime_raises `{Library} (vals : list value) : option exn :=
  match datetime_tz vals with
  | Some _ => None
  | None => to_datetime_error vals
  end.

(** [pd.to_datetime(sel, errors="coerce")]. A frame is assembled from
    columns named year, month and day, and one whose labels repeat is
    refused. *)
Definition to_datetime `{Library} (sel : selection) : result (list value) :=
  match sel with
  | Series vals =>
      match to_datetime_raises vals with
      | Some e => Raise e
      | None => Ok (List.map (coerce_cell vals) vals)
      end
  | Frame _ => Raise ValueError
  end.

(** ** The Schema Normalizer, [_standardize_schema] *)

Definition add_rename (df : DataFrame) (src dst : string)
    (rename_map : gmap string string) : gmap string string :=
  if has_column df src then <[src := dst]> rename_map else rename_map.

(** [if c in df.columns: df[c] = pd.to_datetime(df[c], errors="coerce")] *)
Definition ensure_datetime `{Library} (df : DataFrame) (c : string) : result DataFrame :=
  if has_column df c then
    sel ← getitem df c;
    vals ← to_datetime sel;
    mret (setitem df c vals)
  else mret df.

Definition _standardize_schema `{Library} (df : DataFrame) (taxi_type : string)
    : result DataFrame :=
  if empty df then mret df
  else
    let df := rename (lower_map (columns df)) df in
    let rename_map : gmap string string := ∅ in
    let rename_map := add_rename df "tpep_pickup_datetime" "pickup_datetime" rename_map in
    let rename_map := add_rename df "lpep_pickup_datetime" "pickup_datetime" rename_map in
    let rename_map := add_rename df "tpep_dropoff_datetime" "dropoff_datetime" rename_map in
    let rename_map := add_rename df "lpep_dropoff_datetime" "dropoff_datetime" rename_map in
    let rename_map := add_rename df "pulocationid" "pickup_location_id" rename_map in
    let rename_map := add_rename df "dolocationid" "dropoff_location_id" rename_map in
    let df := rename rename_map df in
    df ← ensure_datetime df "pickup_datetime";
    df ← ensure_datetime df "dropoff_datetime";
    mret (setitem_scalar df "taxi_type" (VStr taxi_type)).

(** ** The Window Filter, lines 165-170 of [materialize] *)

(** A comparison of one cell of a column with a timestamp. A tz-aware
    column cannot be compared with a tz-naive timestamp, nor a tz-naive one
    with a tz-aware timestamp, nor can a cell that is no datetime; NaT
    compares false. *)
Definition compare_cell (cmp : Z -> Z -> bool) (ts : timestamp)
    (v : value) : result bool :=
  match v with
  | VTimestamp t =>
      match tz t, tz ts with
      | None, None | Some _, Some _ =>
          match instant t, instant ts with
          | Some a, Some b => Ok (cmp a b)
          | _, _ => Ok false
          end
      | _, _ => Raise TypeError
      end
  | _ => Raise TypeError
  end.

Fixpoint compare_cells (cmp : Z -> Z -> bool) (ts : timestamp)
    (vals : list value) : result (list bool) :=
  match vals with
  | [] => Ok []
  | v :: vals' =>
      b ← compare_cell cmp ts v;
      bs ← compare_cells cmp ts vals';
      mret (b :: bs)
  end.

(** [sel >= ts] and [sel < ts] as a row mask. The comparison of a frame is
    a frame, which [df.loc] refuses as a key. *)
Definition compare_selection (cmp : Z -> Z -> bool)
    (sel : selection) (ts : timestamp) : result (list bool) :=
  match sel with
  | Series vals => compare_cells cmp ts vals
  | Frame _ => Raise ValueError
  end.

Definition window_filter (df : DataFrame) (start_date end_date : date)
    : result DataFrame :=
  if has_column df "pickup_datetime" then
    sel ← getitem df "pickup_datetime";
    not_before ← compare_selection Z.geb sel (Timestamp_of_date start_date);
    before ← compare_selection Z.ltb sel (Timestamp_of_date end_date);
    mret (loc_mask df (zip_with andb not_before before))
  else mret df.

(** ** [pd.concat(frames, ignore_index=True)] *)

Fixpoint union_columns (acc : list string) (cols : list string) : list string :=
  match cols with
  | [] => acc
  | c :: cols' =>
      if existsb (String.eqb c) acc then union_columns acc cols'
      else union_columns (acc ++ [c]) cols'
  end.

(** The cell of a row under label [c], missing when the frame has no such
    column. *)
Definition lookup_cell (df : DataFrame) (r : row) (c : string) : value :=
  match positions df c with
  | i :: _ => cell_at i r
  | [] => VNull
  end.

Definition reindex_row (df : DataFrame) (cols : list string) (r : row) : list value :=
  List.map (lookup_cell df r) cols.

Definition unique_columns (df : DataFrame) : bool :=
  forallb (fun c => (count_column df c =? 1)%nat) (columns df).

Definition same_columns (cols : list string) (df : DataFrame) : bool :=
  bool_decide (columns df = cols).

(** Fresh labels 0, 1, 2, ... *)
Definition relabel (cs : list (list value)) : list row :=
  imap (fun i c => mkrow (Z.of_nat i) c) cs.

(** The stacked cells after each column is brought to one dtype. *)
Definition unify_dtypes `{Library} (cs : list (list value)) : list (list value) :=
  List.map
    (fun r => imap (fun j v => concat_cast (List.map (fun r' => nth j r' VNull) cs) v) r)
    cs.

(** Frames with the same labels are stacked; otherwise the labels are
    united in order of first appearance and the cells a frame lacks are
    missing, which needs labels that do not repeat within a frame. *)
Definition concat `{Library} (frames : list DataFrame) : result DataFrame :=
  match frames with
  | [] => Raise ValueError
  | f :: _ =>
      if forallb (same_columns (columns f)) frames then
        Ok (mkdf (columns f)
              (relabel (unify_dtypes
                 (List.concat (List.map (fun g => List.map cells (rows g)) frames)))))
      else if forallb unique_columns frames then
        let cols := fold_left (fun acc g => union_columns acc (columns g)) frames [] in
        Ok (mkdf cols
              (relabel (unify_dtypes
                 (List.concat
                    (List.map (fun g => List.map (reindex_row g cols) (rows g)) frames)))))
      else Raise InvalidIndexError
  end.

(** ** The world the asset runs in *)

(** What [requests.get] meets: no response (the call raises), or a response
    with a status code and a body. *)
Inductive http_reply : Type :=
| NoReply (e : exn)
| Reply (status_code : Z) (content : string).

Record world : Type := mkworld {
  (** [os.environ] *)
  environ : gmap string string;
  (** the reply to a GET of a URL *)
  server : string -> http_reply;
  (** the successive readings of the UTC clock, and how many were taken *)
  clock : nat -> timestamp;
  ticks : nat;
  (** the lines printed so far *)
  stdout : list string;
  (** the URLs requested so far *)
  requested : list string
}.

(** Computations that read and change the world and may raise. *)
Definition M (A : Type) : Type := world -> result A * world.

#[global] Instance M_ret : MRet M := fun _ a w => (Ok a, w).
#[global] Instance M_bind : MBind M :=
  fun _ _ f m w =>
    match m w with
    | (Ok a, w') => f a w'
    | (Raise e, w') => (Raise e, w')
    end.

Definition raise {A : Type} (e : exn) : M A := fun w => (Raise e, w).

Definition lift {A : Type} (r : result A) : M A := fun w => (r, w).

(** The world after more lines were printed, after more URLs were
    requested, and after one more reading of the clock. *)
Definition printed (w : world) (lines : list string) : world :=
  mkworld (environ w) (server w) (clock w) (ticks w)
    (stdout w ++ lines) (requested w).

Definition sent (w : world) (urls : list string) : world :=
  mkworld (environ w) (server w) (clock w) (ticks w)
    (stdout w) (requested w ++ urls).

Definition ticked (w : world) : world :=
  mkworld (environ w) (server w) (clock w) (S (ticks w))
    (stdout w) (requested w).

(** [os.environ.get(k)] *)
Definition environ_get (k : string) : M (option string) :=
  fun w => (Ok (environ w !! k), w).

(** [print(line)] *)
Definition print (line : string) : M unit :=
  fun w => (Ok tt, printed w [line]).

(** [requests.get(url, stream=True, timeout=60)] *)
Definition requests_get (url : string) : M (Z * string) :=
  fun w =>
    let w' := sent w [url] in
    match server w url with
    | NoReply e => (Raise e, w')
    | Reply status_code content => (Ok (status_code, content), w')
    end.

(** [pd.Timestamp.utcnow()] *)
Definition utcnow : M timestamp :=
  fun w => (Ok (clock w (ticks w)), ticked w).

(** ** The Resource Fetcher, [_load_parquet_from_url] *)

Definition BASE_URL : string := "https://d37ci6vzurychx.cloudfront.net/trip-data".

Definition skip_line (url : string) (status_code : Z) : string :=
  "Skipping URL " ++ url ++ " (status=" ++ str_of_int status_code ++ ")".

Definition _load_parquet_from_url `{Library} (url : string) : M DataFrame :=
  resp ← requests_get url;
  let '(status_code, content) := resp in
  if negb (status_code =? 200) then
    _ ← print (skip_line url status_code);
    mret empty_frame
  else lift (read_parquet content).

(** ** The Aggregator, [materialize] *)

Definition _parse_date `{Library} (value : string) : M date :=
  match fromisoformat value with
  | Some d => mret d
  | None => raise ValueError
  end.

(** [not s] for the value of [os.environ.get]: unset or empty. *)
Definition falsy (s : option string) : bool :=
  match s with
  | None => true
  | Some s => bool_decide (s = "")
  end.

Definition month_url (taxi_type : string) (month_start : date) : string :=
  BASE_URL ++ "/" ++ taxi_type ++ "_tripdata_"
    ++ str_of_int (year month_start) ++ "-" ++ format_02d (month month_start)
    ++ ".parquet".

Definition fetch_line (url : string) : string := "Fetching " ++ url.

Definition CANONICAL_COLUMNS : list string :=
  [ "taxi_type"; "pickup_datetime"; "dropoff_datetime"; "pickup_location_id";
    "dropoff_location_id"; "passenger_count"; "trip_distance"; "fare_amount";
    "total_amount"; "payment_type"; "extracted_at" ].

(** The body of the inner loop: [frames] after one (subtype, month). *)
Definition month_body `{Library} (start_date end_date : date) (taxi_type : string)
    (frames : list DataFrame) (month_start : date) : M (list DataFrame) :=
  let url := month_url taxi_type month_start in
  _ ← print (fetch_line url);
  df ← _load_parquet_from_url url;
  if empty df then mret frames
  else
    df ← lift (_standardize_schema df taxi_type);
    df ← lift (window_filter df start_date end_date);
    if empty df then mret frames
    else
      now ← utcnow;
      let df := setitem_scalar df "extracted_at" (VTimestamp now) in
      mret (frames ++ [df])%list.

(** A [for] loop over a list, threading the accumulator. *)
Fixpoint for_each {A B : Type} (body : B -> A -> M B) (l : list A) (acc : B) : M B :=
  match l with
  | [] => mret acc
  | a :: l' => acc' ← body acc a; for_each body l' acc'
  end.

(** A [for] loop over a generator: the body runs for what is yielded, and
    the loop ends the way the generator does. *)
Definition for_gen {A B : Type} (body : B -> A -> M B) (g : gen_run A) (acc : B) : M B :=
  acc' ← for_each body (yielded g) acc;
  match finished g with
  | Exhausted => mret acc'
  | Raised e => raise e
  | Unfinished => raise OutOfFuel
  end.

(** The inner loop, for one subtype. *)
Definition type_body `{Library} (start_date end_date : date)
    (frames : list DataFrame) (taxi_type : string) : M (list DataFrame) :=
  for_gen (month_body start_date end_date taxi_type)
    (_month_starts start_date end_date) frames.

(** The two nested loops. *)
Definition collect `{Library} (start_date end_date : date)
    (taxi_types : list string) : M (list DataFrame) :=
  for_each (type_body start_date end_date) taxi_types [].

(** The end of [materialize], from [if not frames]. *)
Definition assemble `{Library} (frames : list DataFrame) : M DataFrame :=
  match frames with
  | [] => mret (frame_of_columns CANONICAL_COLUMNS)
  | _ => lift (concat frames)
  end.

Definition materialize `{Library} : M DataFrame :=
  start_date_str ← environ_get "BRUIN_START_DATE";
  end_date_str ← environ_get "BRUIN_END_DATE";
  if falsy start_date_str || falsy end_date_str then raise RuntimeError
  else
    start_date ← _parse_date (default "" start_date_str);
    end_date ← _parse_date (default "" end_date_str);
    vars_raw ← environ_get "BRUIN_VARS";
    vars ← lift (json_taxi_types (default "{}" vars_raw));
    let taxi_types := default ["yellow"] vars in
    frames ← collect start_date end_date taxi_types;
    assemble frames.

(** ** Names after normalization *)

(** What the second [rename] of [_standardize_schema] makes of a lower-case
    label. *)
Definition canonical_name (c : string) : string :=
  if String.eqb c "tpep_pickup_datetime" then "pickup_datetime"
  else if String.eqb c "lpep_pickup_datetime" then "pickup_datetime"
  else if String.eqb c "tpep_dropoff_datetime" then "dropoff_datetime"
  else if String.eqb c "lpep_dropoff_datetime" then "dropoff_datetime"
  else if String.eqb c "pulocationid" then "pickup_location_id"
  else if String.eqb c "dolocationid" then "dropoff_location_id"
  else c.

(** The label a source column has after both renames. *)
Definition normalized_name (c : string) : string := canonical_name (lower c).

(** How many source columns end under the label [c]. *)
Definition count_normalized (df : DataFrame) (c : string) : nat :=
  length (List.filter (fun x => String.eqb (normalized_name x) c) (columns df)).

(** The frame after the two renames. *)
Definition renamed (df : DataFrame) : DataFrame :=
  mkdf (List.map normalized_name (columns df)) (rows df).

(** The frame after the column labelled [c], at position [i], is made a
    datetime column. *)
Definition coerce_column `{Library} (df : DataFrame) (c : string) (i : nat) : DataFrame :=
  mkdf (columns df)
    (List.map (fun r => mkrow (label r)
                          (set_cells (columns df) c
                             (coerce_cell (column_at df i) (cell_at i r)) (cells r)))
       (rows df)).

(** [pd.to_datetime] does not raise on the column of [df] that ends under
    the label [c]. *)
Definition readable `{Library} (df : DataFrame) (c : string) : Prop :=
  forall i, nth_error (List.map normalized_name (columns df)) i = Some c ->
            to_datetime_raises (column_at df i) = None.

(** Row [r'] is row [r] with the cells under the labels [exempt] possibly
    changed: same index label, same cells under every other label of [cols]. *)
Definition row_kept (cols : list string) (exempt : list string) (r r' : row) : Prop :=
  label r' = label r
  /\ forall j x, nth_error cols j = Some x -> ~ In x exempt ->
                 cell_at j r' = cell_at j r.

(** A cell of a datetime column: a timestamp, NaT being one, or missing. *)
Definition is_datetime_cell (v : value) : Prop :=
  v = VNull \/ exists t, v = VTimestamp t.

(** A normalized table, as far as the Window Filter looks at it: at most one
    column is labelled [pickup_datetime], and it is a datetime column. *)
Definition normalized (df : DataFrame) : Prop :=
  (count_column df "pickup_datetime" <= 1)%nat
  /\ forall i r, In i (positions df "pickup_datetime") -> In r (rows df) ->
                 is_datetime_cell (cell_at i r).

(** The [pickup_datetime] column of [df] is a tz-naive datetime column:
    its cells are timestamps without a time zone, NaT among them. *)
Definition tz_naive_pickup (df : DataFrame) : Prop :=
  forall i r, In i (positions df "pickup_datetime") -> In r (rows df) ->
              exists t, cell_at i r = VTimestamp t /\ tz t = None.

(** The predicate of the Window Filter on the cell at position [i]. *)
Definition in_window (i : nat) (start_date end_date : date) (r : row) : bool :=
  match cell_at i r with
  | VTimestamp t =>
      match instant t with
      | Some n => (nanos_of_date start_date <=? n) && (n <? nanos_of_date end_date)
      | None => false
      end
  | _ => false
  end.

(** The bit a comparison with the tz-naive timestamp of [b] gives for a cell
    that can be compared with it. *)
Definition mask_of (cmp : Z -> Z -> bool) (b : Z) (v : value) : bool :=
  match v with
  | VTimestamp t => match instant t with Some a => cmp a b | None => false end
  | _ => false
  end.

(** What the filter keeps of a table, when it returns. *)
Definition kept (df : DataFrame) (start_date end_date : date) : DataFrame :=
  match positions df "pickup_datetime" with
  | [] => df
  | i :: _ => mkdf (columns df)
                (List.filter (in_window i start_date end_date) (rows df))
  end.

(** All rows of [f] carry [now] under the label [extracted_at]. *)
Definition stamped_at (now : timestamp) (f : DataFrame) : Prop :=
  has_column f "extracted_at" = true
  /\ forall i r, In i (positions f "extracted_at") -> In r (rows f) ->
                 cell_at i r = VTimestamp now.

(** The accumulated tables: the k-th one is not empty and carries the
    reading [t0 + k] of the clock, and the clock was read once for each. *)
Definition stamps_in_order (clk : nat -> timestamp) (t0 : nat)
    (frames : list DataFrame) (w : world) : Prop :=
  clock w = clk
  /\ ticks w = (t0 + length frames)%nat
  /\ forall k f, nth_error frames k = Some f ->
                 empty f = false /\ stamped_at (clk (t0 + k)%nat) f.

(** ** A sample library and sample tables *)

Module Sample.

Definition digit (a : ascii) : option Z :=
  let n := N_of_ascii a in
  if ((48 <=? n) && (n <=? 57))%N then Some (Z.of_N n - 48) else None.

Definition number (ds : list ascii) : option Z :=
  fold_left (fun acc a => n ← acc; d ← digit a; Some (10 * n + d)) ds (Some 0).

(** The form YYYY-MM-DD of [date.fromisoformat]. *)
Definition iso_date (s : string) : option date :=
  match list_ascii_of_string s with
  | [y1; y2; y3; y4; sep1; m1; m2; sep2; d1; d2] =>
      if Ascii.eqb sep1 "-" && Ascii.eqb sep2 "-" then
        y ← number [y1; y2; y3; y4];
        m ← number [m1; m2];
        d ← number [d1; d2];
        Date.new y m d
      else None
  | _ => None
  end.

(** A parser that reads the instant of a timestamp and an integer as
    nanoseconds, into a tz-naive column, and that raises on a column with
    timestamps of several time zones. *)
Definition instant_of (vals : list value) (v : value) : option Z :=
  match v with
  | VTimestamp t => instant t
  | VInt n => Some n
  | _ => None
  end.

Definition mixed_zones (vals : list value) : option exn :=
  match zones vals with
  | z :: zs => if forallb (fun z' => bool_decide (z' = z)) zs then None
               else Some ValueError
  | [] => None
  end.

(** A cast that makes an integer a float in a column that has a float or a
    missing value. *)
Definition cast (vals : list value) (v : value) : value :=
  match v with
  | VInt n =>
      if existsb (fun x => match x with VNull | VFloat _ _ => true | _ => false end) vals
      then VFloat n 0 else v
  | _ => v
  end.

(** One o'clock on a day of January and of February 2023, in nanoseconds. *)
Definition jan (day_ : Z) : Z := nanos_of_date (mkdate 2023 1 day_) + 3600000000000.

Definition feb (day_ : Z) : Z := nanos_of_date (mkdate 2023 2 day_) + 3600000000000.

(** A cell with a tz-naive timestamp, and NaT. *)
Definition moment (n : Z) : value := VTimestamp (tz_naive n).

Definition NaT : value := VTimestamp (mkts None None).

(** A yellow file: a trip in the month, one with an unreadable pickup time,
    and one of the month after. *)
Definition yellow_january : DataFrame :=
  mkdf [ "VendorID"; "tpep_pickup_datetime"; "tpep_dropoff_datetime";
         "PULocationID"; "DOLocationID"; "fare_amount" ]
    [ mkrow 0 [ VInt 1; moment (jan 5); moment (jan 5 + 600000000000);
                VInt 142; VInt 236; VFloat 37 (-2) ];
      mkrow 1 [ VInt 2; VStr "n/a"; VNull; VInt 7; VInt 8; VFloat 5 1 ];
      mkrow 2 [ VInt 2; moment (feb 1); moment (feb 1 + 600000000000);
                VInt 48; VInt 50; VFloat 29 0 ] ].

(** What the yellow file of January is normalized to. *)
Definition yellow_january_normalized : DataFrame :=
  mkdf [ "vendorid"; "pickup_datetime"; "dropoff_datetime";
         "pickup_location_id"; "dropoff_location_id"; "fare_amount"; "taxi_type" ]
    [ mkrow 0 [ VInt 1; moment (jan 5); moment (jan 5 + 600000000000);
                VInt 142; VInt 236; VFloat 37 (-2); VStr "yellow" ];
      mkrow 1 [ VInt 2; NaT; NaT; VInt 7; VInt 8; VFloat 5 1; VStr "yellow" ];
      mkrow 2 [ VInt 2; moment (feb 1); moment (feb 1 + 600000000000);
                VInt 48; VInt 50; VFloat 29 0; VStr "yellow" ] ].

Definition yellow_february : DataFrame :=
  mkdf [ "VendorID"; "tpep_pickup_datetime"; "tpep_dropoff_datetime";
         "PULocationID"; "DOLocationID"; "fare_amount" ]
    [ mkrow 0 [ VInt 1; moment (feb 3); moment (feb 3 + 600000000000);
                VInt 10; VInt 11; VFloat 3 2 ] ].

(** A table that has a raw pickup column beside a canonical one. *)
Definition clashing : DataFrame :=
  mkdf [ "tpep_pickup_datetime"; "pickup_datetime" ]
    [ mkrow 0 [ moment (jan 5); moment (jan 6) ] ].

(** A file whose pickup times are tz-aware, and what it is normalized to. *)
Definition utc_january : DataFrame :=
  mkdf [ "tpep_pickup_datetime"; "fare_amount" ]
    [ mkrow 0 [ VTimestamp (mkts (Some (jan 5)) (Some "UTC")); VFloat 37 (-2) ] ].

Definition utc_january_normalized : DataFrame :=
  mkdf [ "pickup_datetime"; "fare_amount"; "taxi_type" ]
    [ mkrow 0 [ VTimestamp (mkts (Some (jan 5)) (Some "UTC")); VFloat 37 (-2);
                VStr "yellow" ] ].

(** A file whose pickup times are of two time zones. *)
Definition mixed_offsets : DataFrame :=
  mkdf [ "tpep_pickup_datetime"; "fare_amount" ]
    [ mkrow 0 [ VTimestamp (mkts (Some (jan 5)) (Some "UTC")); VFloat 37 (-2) ];
      mkrow 1 [ VTimestamp (mkts (Some (jan 6)) (Some "Europe/Paris")); VFloat 5 1 ] ].



Definition parquet (content : string) : result DataFrame :=
  if String.eqb content "yellow-2023-01" then Ok yellow_january
  else if String.eqb content "yellow-2023-02" then Ok yellow_february
  else Raise ParquetError.

Definition quote : string := String (ascii_of_nat 34) EmptyString.

(** The text of a JSON object whose list of taxi types is yellow, green. *)
Definition two_types : string :=
  "{" ++ quote ++ "taxi_types" ++ quote ++ ": [" ++ quote ++ "yellow" ++ quote
  ++ ", " ++ quote ++ "green" ++ quote ++ "]}".

Definition taxi_types (raw : string) : result (option (list string)) :=
  if String.eqb raw "{}" then Ok None
  else if String.eqb raw two_types then Ok (Some ["yellow"; "green"])
  else Raise JSONError.

#[global] Instance library : Library := {|
  fromisoformat := iso_date;
  json_taxi_types := taxi_types;
  read_parquet := parquet;
  to_datetime_error := mixed_zones;
  to_datetime_tz := fun _ => None;
  to_datetime_instant := instant_of;
  concat_cast := cast
|}.

(** A server that has the yellow files of January and February 2023. *)
Definition server (url : string) : http_reply :=
  if String.eqb url (month_url "yellow" (mkdate 2023 1 1)) then Reply 200 "yellow-2023-01"
  else if String.eqb url (month_url "yellow" (mkdate 2023 2 1)) then Reply 200 "yellow-2023-02"
  else Reply 404 "".

(** A server that has the yellow file of January 2023 only. *)
Definition january_server (url : string) : http_reply :=
  if String.eqb url (month_url "yellow" (mkdate 2023 1 1)) then Reply 200 "yellow-2023-01"
  else Reply 404 "".

(** A server that has no file. *)
Definition bare_server (url : string) : http_reply := Reply 404 "".

(** A clock that is read once a second from 2024-06-01T00:00 UTC. *)
Definition clock (n : nat) : timestamp :=
  mkts (Some (nanos_of_date (mkdate 2024 6 1) + Z.of_nat n * 1000000000)) (Some "UTC").

(** The two tables a run over January and February 2023 accumulates from
    [server]. *)
Definition january_stamped : DataFrame :=
  mkdf [ "vendorid"; "pickup_datetime"; "dropoff_datetime"; "pickup_location_id";
         "dropoff_location_id"; "fare_amount"; "taxi_type"; "extracted_at" ]
    [ mkrow 0 [ VInt 1; moment (jan 5); moment (jan 5 + 600000000000);
                VInt 142; VInt 236; VFloat 37 (-2); VStr "yellow";
                VTimestamp (clock 0) ];
      mkrow 2 [ VInt 2; moment (feb 1); moment (feb 1 + 600000000000);
                VInt 48; VInt 50; VFloat 29 0; VStr "yellow";
                VTimestamp (clock 0) ] ].

Definition february_stamped : DataFrame :=
  mkdf [ "vendorid"; "pickup_datetime"; "dropoff_datetime"; "pickup_location_id";
         "dropoff_location_id"; "fare_amount"; "taxi_type"; "extracted_at" ]
    [ mkrow 0 [ VInt 1; moment (feb 3); moment (feb 3 + 600000000000);
                VInt 10; VInt 11; VFloat 3 2; VStr "yellow";
                VTimestamp (clock 1) ] ].

(** What a run over January and February 2023 returns from
    [january_server]. *)
Definition january_only : DataFrame :=
  mkdf [ "vendorid"; "pickup_datetime"; "dropoff_datetime"; "pickup_location_id";
         "dropoff_location_id"; "fare_amount"; "taxi_type"; "extracted_at" ]
    [ mkrow 0 [ VInt 1; moment (jan 5); moment (jan 5 + 600000000000);
                VInt 142; VInt 236; VFloat 37 (-2); VStr "yellow";
                VTimestamp (clock 0) ];
      mkrow 1 [ VInt 2; moment (feb 1); moment (feb 1 + 600000000000);
                VInt 48; VInt 50; VFloat 29 0; VStr "yellow";
                VTimestamp (clock 0) ] ].

(** What a run over January and February 2023 returns from [server]. *)
Definition two_months : DataFrame :=
  mkdf [ "vendorid"; "pickup_datetime"; "dropoff_datetime"; "pickup_location_id";
         "dropoff_location_id"; "fare_amount"; "taxi_type"; "extracted_at" ]
    [ mkrow 0 [ VInt 1; moment (jan 5); moment (jan 5 + 600000000000);
                VInt 142; VInt 236; VFloat 37 (-2); VStr "yellow";
                VTimestamp (clock 0) ];
      mkrow 1 [ VInt 2; moment (feb 1); moment (feb 1 + 600000000000);
                VInt 48; VInt 50; VFloat 29 0; VStr "yellow";
                VTimestamp (clock 0) ];
      mkrow 2 [ VInt 1; moment (feb 3); moment (feb 3 + 600000000000);
                VInt 10; VInt 11; VFloat 3 2; VStr "yellow";
                VTimestamp (clock 1) ] ].

Definition world_of (env : gmap string string) (srv : string -> http_reply) : world :=
  mkworld env srv clock 0 [] [].

Definition window_env (start_date end_date : string) : gmap string string :=
  <["BRUIN_START_DATE" := start_date]> (<["BRUIN_END_DATE" := end_date]> ∅).

End Sample.

(** ** Definitions for the further properties *)

(** A string without a minus sign. *)
Fixpoint no_dash (s : string) : Prop :=
  match s with
  | EmptyString => True
  | String a s' => a <> "-"%char /\ no_dash s'
  end.

(** The URLs a run is to request: for each subtype in turn, the months of the
    window in their order. *)
Definition planned_urls (start_date end_date : date) (taxi_types : list string)
    : list string :=
  flat_map (fun taxi_type =>
              List.map (month_url taxi_type)
                (yielded (_month_starts start_date end_date)))
    taxi_types.

(** The lines one turn of the inner loop prints for a URL: the fetch line,
    and the skip line when the reply has a status other than 200. *)
Definition month_log (srv : string -> http_reply) (url : string) : list string :=
  fetch_line url
  :: match srv url with
     | Reply status_code _ =>
         if negb (status_code =? 200) then [skip_line url status_code] else []
     | NoReply _ => []
     end.

(** Every row of [f] has [v] under the label [c], and [f] has that label. *)
Definition column_is (c : string) (v : value) (f : DataFrame) : Prop :=
  has_column f c = true
  /\ forall i r, In i (positions f c) -> In r (rows f) -> cell_at i r = v.

(** The cells of [f] under the label [c] are timestamps or NaT. *)
Definition datetime_column (c : string) (f : DataFrame) : Prop :=
  forall i r, In i (positions f c) -> In r (rows f) -> is_datetime_cell (cell_at i r).

(** The table [f] has one column labelled [pickup_datetime], and every row
    has a tz-naive timestamp of the window under it. *)
Definition rows_in_window (start_date end_date : date) (f : DataFrame) : Prop :=
  exists i, positions f "pickup_datetime" = [i]
            /\ forall r, In r (rows f) ->
                  exists n, cell_at i r = VTimestamp (tz_naive n)
                            /\ nanos_of_date start_date <= n < nanos_of_date end_date.
(** ** Facts about dates *)

Section DateFacts.

Lemma days_in_month_bounds y m : 28 <= days_in_month y m <= 31.
Proof.
  unfold days_in_month.
  destruct (m =? 2); [destruct (is_leap y); lia|].
  destruct ((m =? 4) || (m =? 6) || (m =? 9) || (m =? 11)); lia.
Qed.

Lemma valid_bounds d :
  valid d ->
  1 <= year d <= 9999 /\ 1 <= month d <= 12 /\ 1 <= day d <= 31.
Proof.
  unfold valid, check_date_fields, MINYEAR, MAXYEAR.
  rewrite !andb_true_iff, !Z.leb_le.
  pose proof (days_in_month_bounds (year d) (month d)). lia.
Qed.

Lemma check_first y m :
  check_date_fields y m 1 = true <-> 1 <= y <= 9999 /\ 1 <= m <= 12.
Proof.
  unfold check_date_fields, MINYEAR, MAXYEAR.
  rewrite !andb_true_iff, !Z.leb_le.
  pose proof (days_in_month_bounds y m). lia.
Qed.

Lemma ltb_lt a b : Date.ltb a b = true <-> Date.lt a b.
Proof.
  unfold Date.ltb, Date.lt.
  rewrite !orb_true_iff, !andb_true_iff, !orb_true_iff, !andb_true_iff,
    !Z.ltb_lt, !Z.eqb_eq.
  tauto.
Qed.

Lemma leb_le a b : Date.leb a b = true <-> Date.le a b.
Proof.
  unfold Date.leb, Date.le, Date.eqb.
  rewrite orb_true_iff, ltb_lt, !andb_true_iff, !Z.eqb_eq. tauto.
Qed.

Lemma geb_le a b : Date.geb a b = true <-> Date.le b a.
Proof. unfold Date.geb. apply leb_le. Qed.

Lemma geb_false_lt a b : Date.geb a b = false <-> Date.lt a b.
Proof.
  rewrite <- not_true_iff_false, geb_le.
  unfold Date.le, Date.lt. lia.
Qed.

Lemma le_eq a b : Date.le a b <-> Date.lt a b \/ a = b.
Proof.
  unfold Date.le. destruct a, b; simpl. split.
  - intros [H | (-> & -> & ->)]; auto.
  - intros [H | H]; [auto | injection H; auto].
Qed.

Lemma lt_irrefl a : ~ Date.lt a a.
Proof. unfold Date.lt. lia. Qed.

Lemma lt_trans a b c : Date.lt a b -> Date.lt b c -> Date.lt a c.
Proof. unfold Date.lt. lia. Qed.

End DateFacts.

(** ** The runs of [_month_starts] *)

Section MonthStarts.

Variable end_ : date.
Hypothesis end_valid : valid end_.

Lemma month_starts_step_cases s :
  ms_ok s ->
  (9999 < ms_year s /\ month_starts_step end_ s = Throw ValueError)
  \/ (valid (ms_date s) /\ Date.le end_ (ms_date s)
      /\ month_starts_step end_ s = Break)
  \/ (valid (ms_date s) /\ Date.lt (ms_date s) end_
      /\ exists s', month_starts_step end_ s = Yield (ms_date s) s'
                    /\ ms_ok s' /\ ms_date s' = next_month (ms_date s)
                    /\ ms_index s' = ms_index s + 1).
Proof.
  intros [Hy Hm]. unfold month_starts_step, Date.new.
  destruct (check_date_fields (ms_year s) (ms_month s) 1) eqn:Hc.
  - apply check_first in Hc as Hc'. right.
    fold (ms_date s).
    destruct (Date.geb (ms_date s) end_) eqn:Hg.
    + left. apply geb_le in Hg. auto.
    + right. apply geb_false_lt in Hg. split; [exact Hc|]. split; [exact Hg|].
      unfold next_month, ms_date, ms_index, month_index, ms_ok; simpl.
      destruct (12 <? ms_month s + 1) eqn:Hlt.
      * apply Z.ltb_lt in Hlt. eexists; split; [reflexivity|].
        simpl. repeat split; lia.
      * apply Z.ltb_ge in Hlt. eexists; split; [reflexivity|].
        simpl. repeat split; lia.
  - left. split; [|reflexivity].
    destruct (Z_lt_dec 9999 (ms_year s)) as [|Hn]; [assumption|].
    assert (check_date_fields (ms_year s) (ms_month s) 1 = true) as Hc'
      by (apply check_first; lia).
    congruence.
Qed.

(** More fuel does not change a finished run. *)
Lemma month_starts_run_more fuel : forall s k,
  finished (month_starts_run fuel end_ s) <> Unfinished ->
  month_starts_run (fuel + k) end_ s = month_starts_run fuel end_ s.
Proof.
  induction fuel as [|fuel IH]; intros s k Hf; simpl in *; [congruence|].
  destruct (month_starts_step end_ s) as [d s'| |e]; simpl in *; try reflexivity.
  rewrite IH by assumption. reflexivity.
Qed.

(** With [month_starts_fuel] iterations the loop has ended. *)
Lemma month_starts_run_finishes fuel : forall s,
  ms_ok s ->
  (month_starts_fuel end_ s <= fuel)%nat ->
  finished (month_starts_run fuel end_ s) <> Unfinished.
Proof.
  pose proof (valid_bounds _ end_valid) as He.
  induction fuel as [|fuel IH]; intros s Hs Hfuel.
  - unfold month_starts_fuel in Hfuel. lia.
  - simpl.
    destruct (month_starts_step_cases s Hs)
      as [[_ ->] | [(_ & _ & ->) | (_ & Hlt & s' & -> & Hs' & _ & Hidx)]];
      simpl; try discriminate.
    apply IH; [assumption|].
    unfold month_starts_fuel in *. fold (ms_index s) in Hfuel. fold (ms_index s').
    assert (ms_index s <= month_index (year end_) (month end_)).
    { unfold ms_index, month_index, Date.lt, ms_date in *. simpl in *.
      unfold ms_ok in Hs. lia. }
    lia.
Qed.

(** What a finished run has yielded: the month-starts from the candidate of
    the state up to [end_], [end_] excluded. *)
Lemma month_starts_run_elements fuel : forall s,
  ms_ok s ->
  finished (month_starts_run fuel end_ s) <> Unfinished ->
  forall d, In d (yielded (month_starts_run fuel end_ s))
            <-> is_month_start d /\ Date.le (ms_date s) d /\ Date.lt d end_.
Proof.
  induction fuel as [|fuel IH]; intros s Hs Hfin d; simpl in *; [congruence|].
  destruct (month_starts_step_cases s Hs)
    as [[Hy Hst] | [(Hv & Hle & Hst) | (Hv & Hlt & s' & Hst & Hs' & Hnext & _)]];
    rewrite Hst in *; simpl in *.
  - split; [tauto|]. intros ((Hd & _) & Hle & _).
    apply valid_bounds in Hd. unfold Date.le, Date.lt, ms_date in Hle.
    simpl in Hle. lia.
  - split; [tauto|]. intros (_ & H1 & H2).
    unfold Date.le, Date.lt in *. lia.
  - rewrite (IH s' Hs' Hfin d). rewrite Hnext.
    unfold is_month_start.
    split.
    + intros [<- | (Hd & Hle & Hlt')].
      * repeat split; auto. unfold Date.le. tauto.
      * split; [assumption|]. split; [|assumption].
        unfold next_month, Date.le, Date.lt, ms_date in *. simpl in *.
        destruct (12 <? ms_month s + 1) eqn:E;
          [apply Z.ltb_lt in E | apply Z.ltb_ge in E]; simpl in *; lia.
    + intros ((Hd & Hday) & Hle & Hlt').
      destruct (Date.eqb (ms_date s) d) eqn:E.
      * left. unfold Date.eqb in E. rewrite !andb_true_iff, !Z.eqb_eq in E.
        destruct d; simpl in *. unfold ms_date. f_equal; lia.
      * right. split; [tauto|]. split; [|assumption].
        pose proof (valid_bounds _ Hd) as Hb.
        apply not_true_iff_false in E.
        unfold Date.eqb in E. rewrite !andb_true_iff, !Z.eqb_eq in E.
        unfold ms_ok in Hs.
        unfold next_month, Date.le, Date.lt, ms_date in *. simpl in *.
        destruct (12 <? ms_month s + 1) eqn:E';
          [apply Z.ltb_lt in E' | apply Z.ltb_ge in E']; simpl in *; lia.
Qed.

(** The yielded dates go up, month after month, from the candidate of the
    state. *)
Lemma month_starts_run_head fuel s :
  match yielded (month_starts_run fuel end_ s) with
  | [] => True
  | d :: _ => d = ms_date s
  end.
Proof.
  destruct fuel as [|fuel]; simpl; [exact I|].
  unfold month_starts_step, Date.new. fold (ms_date s).
  destruct (check_date_fields _ _ _); simpl; [|exact I].
  destruct (Date.geb _ _); simpl; [exact I|].
  destruct (12 <? _); reflexivity.
Qed.

Lemma month_starts_run_successive fuel : forall s,
  ms_ok s ->
  successive_months (yielded (month_starts_run fuel end_ s)).
Proof.
  induction fuel as [|fuel IH]; intros s Hs; simpl; [exact I|].
  destruct (month_starts_step_cases s Hs)
    as [[_ ->] | [(_ & _ & ->) | (_ & _ & s' & -> & Hs' & Hnext & _)]];
    simpl; try exact I.
  specialize (IH s' Hs').
  pose proof (month_starts_run_head fuel s') as Hhead.
  destruct (yielded (month_starts_run fuel end_ s')) as [|b tl]; [exact I|].
  split; [congruence | exact IH].
Qed.

End MonthStarts.

Lemma next_month_lt d : Date.lt d (next_month d) \/ 12 < month d.
Proof.
unfold next_month, Date.lt.
destruct (12 <? month d + 1) eqn:E;
  [apply Z.ltb_lt in E | apply Z.ltb_ge in E]; simpl; lia.
Qed.

Lemma successive_months_sorted (l : list date) :
  Forall (fun d => month d <= 12) l ->
  successive_months l ->
  StronglySorted Date.lt l.
Proof.
  induction l as [|a [|b tl] IH]; intros Hm Hs.
  - constructor.
  - constructor; constructor.
  - destruct Hs as [Hb Hs]. inversion Hm as [|? ? Ha Hm']; subst.
    specialize (IH Hm' Hs).
    assert (Date.lt a (next_month a)) as Hab
      by (destruct (next_month_lt a) as [|]; [assumption | lia]).
    constructor; [exact IH|].
    constructor; [exact Hab|].
    inversion IH as [|? ? _ Hall]; subst.
    eapply List.Forall_impl; [|exact Hall].
    intros c Hc. eapply lt_trans; eassumption.
Qed.

Lemma sorted_lt_NoDup (l : list date) : StronglySorted Date.lt l -> List.NoDup l.
Proof.
  induction 1 as [|a l Hs IH Hall]; constructor; [|exact IH].
  intros Hin. rewrite List.Forall_forall in Hall.
  exact (lt_irrefl a (Hall a Hin)).
Qed.

Lemma start_state_ok (start : date) :
  valid start -> ms_ok (mkms (year start) (month start)).
Proof. intros Hv. apply valid_bounds in Hv. unfold ms_ok. simpl. lia. Qed.

Lemma month_starts_finishes (start end_ : date) :
  valid start -> valid end_ ->
  finished (_month_starts start end_) <> Unfinished.
Proof.
  intros Hs He. unfold _month_starts.
  apply month_starts_run_finishes; auto using start_state_ok.
Qed.

(** The generator ends by its [break] when [end_] is no later than the first
    of December 9999 ... *)
Lemma month_starts_run_exhausted (end_ : date) fuel : forall s,
  valid end_ -> ms_ok s ->
  Date.le end_ (mkdate 9999 12 1) ->
  finished (month_starts_run fuel end_ s) <> Unfinished ->
  ms_index s <= month_index 9999 12 ->
  finished (month_starts_run fuel end_ s) = Exhausted.
Proof.
  induction fuel as [|fuel IH]; intros s He Hs Hle Hfin Hidx; simpl in *; [congruence|].
  destruct (month_starts_step_cases end_ s Hs)
    as [[Hy Hst] | [(_ & _ & Hst) | (_ & Hlt & s' & Hst & Hs' & _ & Hidx')]];
    rewrite Hst in *; simpl in *.
  - unfold ms_index, month_index, ms_ok in *. lia.
  - reflexivity.
  - apply IH; auto.
    unfold ms_index, month_index, ms_ok, ms_date, Date.le, Date.lt in *.
    simpl in *. lia.
Qed.

Lemma month_starts_exhausted (start end_ : date) :
  valid start -> valid end_ ->
  Date.le end_ (mkdate 9999 12 1) ->
  finished (_month_starts start end_) = Exhausted.
Proof.
  intros Hs He Hle. unfold _month_starts.
  apply month_starts_run_exhausted; auto using start_state_ok.
  - apply month_starts_run_finishes; auto using start_state_ok.
  - apply valid_bounds in Hs. unfold ms_index, month_index. simpl. lia.
Qed.

(** ... and by the [ValueError] of [date(10000, 1, 1)] after its last yield
    when [end_] is later. *)
Lemma month_starts_run_raised (end_ : date) fuel : forall s,
  valid end_ -> ms_ok s ->
  Date.lt (mkdate 9999 12 1) end_ ->
  finished (month_starts_run fuel end_ s) <> Unfinished ->
  finished (month_starts_run fuel end_ s) = Raised ValueError.
Proof.
  induction fuel as [|fuel IH]; intros s He Hs Hlt Hfin; simpl in *; [congruence|].
  destruct (month_starts_step_cases end_ s Hs)
    as [[Hy Hst] | [(Hv & Hle & Hst) | (_ & _ & s' & Hst & Hs' & _ & _)]];
    rewrite Hst in *; simpl in *.
  - reflexivity.
  - apply valid_bounds in Hv. apply valid_bounds in He.
    unfold ms_date, Date.le, Date.lt in *. simpl in *. lia.
  - apply IH; auto.
Qed.

Lemma month_starts_raised (start end_ : date) :
  valid start -> valid end_ ->
  Date.lt (mkdate 9999 12 1) end_ ->
  finished (_month_starts start end_) = Raised ValueError.
Proof.
  intros Hs He Hlt. unfold _month_starts.
  apply month_starts_run_raised; auto using start_state_ok.
  apply month_starts_run_finishes; auto using start_state_ok.
Qed.

(** With [start] and [end_] the same day [d], the generator yields nothing
    when [d] is a month-start, and the first of [d]'s month otherwise. *)
Lemma month_starts_same_day (d : date) :
  valid d ->
  yielded (_month_starts d d)
  = if day d =? 1 then [] else [first_of_month d].
Proof.
  intros Hv. pose proof (valid_bounds _ Hv) as Hb.
  pose proof (start_state_ok d Hv) as Hok.
  unfold _month_starts, month_starts_fuel. simpl ms_year. simpl ms_month.
  replace (month_index (year d) (month d) - month_index (year d) (month d) + 1)
    with 1 by lia.
  change (Z.to_nat 1) with 1%nat.
  destruct (month_starts_step_cases d _ Hok)
    as [[Hy _] | [(_ & Hle & Hst) | (_ & Hlt & s' & Hst & Hs' & Hnext & _)]].
  - simpl in Hy. lia.
  - simpl. rewrite Hst. simpl.
    unfold Date.le, Date.lt, ms_date in Hle. simpl in Hle.
    destruct (day d =? 1) eqn:E; [reflexivity|]. apply Z.eqb_neq in E. lia.
  - simpl. rewrite Hst.
    destruct (month_starts_step_cases d s' Hs')
      as [[_ Hst'] | [(_ & _ & Hst') | (_ & Hlt' & _)]]; rewrite ?Hst'; simpl.
    + unfold Date.lt, ms_date in Hlt. simpl in Hlt.
      destruct (day d =? 1) eqn:E; [apply Z.eqb_eq in E; lia | reflexivity].
    + unfold Date.lt, ms_date in Hlt. simpl in Hlt.
      destruct (day d =? 1) eqn:E; [apply Z.eqb_eq in E; lia | reflexivity].
    + exfalso. rewrite Hnext in Hlt'.
      unfold next_month, Date.lt, ms_date in *. simpl in *.
      destruct (12 <? month d + 1) eqn:E;
        [apply Z.ltb_lt in E | apply Z.ltb_ge in E]; simpl in *; lia.
Qed.

(** ** The claims on the Window Enumerator *)

(** C1: for dates [start < end_], [_month_starts] yields exactly the
    month-starts [m] with first-of-[start]'s-month <= [m] < [end_], in
    strictly increasing order, without duplicates and without gaps (each
    one is the month after the one before it); its loop ends, and by the
    [break] when [end_] is no later than 9999-12-01; for 2023-01-01 and
    2023-03-01 it yields 2023-01-01, 2023-02-01 and is exhausted. *)
Theorem month_starts_enumerates_window :
  (forall start end_ : date,
      valid start -> valid end_ -> Date.lt start end_ ->
      let out := yielded (_month_starts start end_) in
      (forall m, In m out
                 <-> is_month_start m
                     /\ Date.le (first_of_month start) m /\ Date.lt m end_)
      /\ StronglySorted Date.lt out
      /\ List.NoDup out
      /\ successive_months out
      /\ finished (_month_starts start end_) <> Unfinished
      /\ (Date.le end_ (mkdate 9999 12 1) ->
          finished (_month_starts start end_) = Exhausted))
  /\ _month_starts (mkdate 2023 1 1) (mkdate 2023 3 1)
     = mkrun [mkdate 2023 1 1; mkdate 2023 2 1] Exhausted.
Proof.
  split; [|reflexivity].
  intros start end_ Hs He Hlt out.
  pose proof (month_starts_finishes start end_ Hs He) as Hfin.
  assert (forall m, In m out
                    <-> is_month_start m
                        /\ Date.le (first_of_month start) m /\ Date.lt m end_) as Hin.
  { intros m. subst out. unfold _month_starts in *.
    apply month_starts_run_elements; auto using start_state_ok. }
  assert (successive_months out) as Hsucc.
  { subst out. unfold _month_starts.
    apply month_starts_run_successive; auto using start_state_ok. }
  assert (StronglySorted Date.lt out) as Hsorted.
  { apply successive_months_sorted; [|exact Hsucc].
    apply List.Forall_forall. intros m Hm. apply Hin in Hm as ((Hv & _) & _).
    apply valid_bounds in Hv. lia. }
  repeat split; auto using sorted_lt_NoDup, month_starts_exhausted;
    apply Hin; assumption.
Qed.

Lemma month_starts_enumerates_window_witness :
  valid (mkdate 2023 1 15) /\ valid (mkdate 2023 3 10)
  /\ Date.lt (mkdate 2023 1 15) (mkdate 2023 3 10)
  /\ (In (mkdate 2023 2 1) (yielded (_month_starts (mkdate 2023 1 15) (mkdate 2023 3 10)))
      <-> is_month_start (mkdate 2023 2 1)
          /\ Date.le (first_of_month (mkdate 2023 1 15)) (mkdate 2023 2 1)
          /\ Date.lt (mkdate 2023 2 1) (mkdate 2023 3 10)).
Proof.
  assert (valid (mkdate 2023 1 15)) as Hs by reflexivity.
  assert (valid (mkdate 2023 3 10)) as He by reflexivity.
  assert (Date.lt (mkdate 2023 1 15) (mkdate 2023 3 10)) as Hlt
    by (unfold Date.lt; simpl; lia).
  split; [exact Hs | split; [exact He | split; [exact Hlt |]]].
  apply (proj1 (proj1 month_starts_enumerates_window _ _ Hs He Hlt)).
Defined.

(** C2, at a day that is not the first of its month: with [start] and [end_]
    both 2023-01-15 the generator yields 2023-01-01. *)
Theorem month_starts_same_day_mid_month :
  _month_starts (mkdate 2023 1 15) (mkdate 2023 1 15)
  = mkrun [mkdate 2023 1 1] Exhausted.
Proof. reflexivity. Qed.

(** C10: for all dates [start] and [end_], in either order, the loop of
    [_month_starts] ends: from some number of iterations on the run is the
    same and is finished, so the sequence is finite; and when the first day
    of [start]'s month is on or after [end_], nothing is yielded and the
    generator is exhausted without an exception. *)
Theorem month_starts_terminates (start end_ : date) :
  valid start -> valid end_ ->
  (exists n : nat, forall fuel : nat, (n <= fuel)%nat ->
      month_starts_run fuel end_ (mkms (year start) (month start))
      = _month_starts start end_)
  /\ finished (_month_starts start end_) <> Unfinished
  /\ (Date.le end_ (first_of_month start) ->
      _month_starts start end_ = mkrun [] Exhausted).
Proof.
  intros Hs He.
  pose proof (month_starts_finishes start end_ Hs He) as Hfin.
  split; [|split; [exact Hfin|]].
  - exists (month_starts_fuel end_ (mkms (year start) (month start))).
    intros fuel Hle. unfold _month_starts in *.
    replace fuel
      with (month_starts_fuel end_ (mkms (year start) (month start))
            + (fuel - month_starts_fuel end_ (mkms (year start) (month start))))%nat
      by lia.
    apply month_starts_run_more. exact Hfin.
  - intros Hle. unfold _month_starts, month_starts_fuel. simpl.
    unfold month_starts_step, Date.new. simpl.
    pose proof (valid_bounds _ Hs) as Hb.
    assert (check_date_fields (year start) (month start) 1 = true) as ->
      by (apply check_first; lia).
    apply geb_le in Hle. unfold first_of_month in Hle. rewrite Hle. reflexivity.
Qed.

Lemma month_starts_terminates_witness :
  valid (mkdate 2023 5 15) /\ valid (mkdate 2023 1 15)
  /\ finished (_month_starts (mkdate 2023 5 15) (mkdate 2023 1 15)) <> Unfinished
  /\ (Date.le (mkdate 2023 1 15) (first_of_month (mkdate 2023 5 15)) ->
      _month_starts (mkdate 2023 5 15) (mkdate 2023 1 15) = mkrun [] Exhausted).
Proof.
  assert (valid (mkdate 2023 5 15)) as Hs by reflexivity.
  assert (valid (mkdate 2023 1 15)) as He by reflexivity.
  split; [exact Hs | split; [exact He |]].
  apply (proj2 (month_starts_terminates _ _ Hs He)).
Defined.

(** ** Facts about labels *)

Lemma lower_ascii_idem (a : ascii) : lower_ascii (lower_ascii a) = lower_ascii a.
Proof. destruct a as [[] [] [] [] [] [] [] []]; reflexivity. Qed.

Lemma lower_idem (s : string) : lower (lower s) = lower s.
Proof.
  induction s as [|a s IH]; simpl; [reflexivity|].
  rewrite lower_ascii_idem, IH. reflexivity.
Qed.

Lemma has_column_In (df : DataFrame) (c : string) :
  has_column df c = true <-> In c (columns df).
Proof.
  unfold has_column. rewrite existsb_exists. split.
  - intros (x & Hin & Heq). apply String.eqb_eq in Heq. congruence.
  - intros Hin. exists c. split; [assumption | apply String.eqb_refl].
Qed.

Lemma has_column_false (df : DataFrame) (c : string) :
  has_column df c = false <-> ~ In c (columns df).
Proof. rewrite <- has_column_In. destruct (has_column df c); split; congruence. Qed.

Lemma positions_from_length (cols : list string) (c : string) : forall i,
  length (positions_from i cols c) = length (List.filter (String.eqb c) cols).
Proof.
  induction cols as [|x cols IH]; intros i; simpl; [reflexivity|].
  rewrite (String.eqb_sym c x).
  destruct (String.eqb x c); simpl; rewrite IH; reflexivity.
Qed.

Lemma positions_length (df : DataFrame) (c : string) :
  length (positions df c) = count_column df c.
Proof. apply positions_from_length. Qed.

Lemma positions_from_spec (cols : list string) (c : string) : forall i j,
  In j (positions_from i cols c)
  <-> (i <= j)%nat /\ nth_error cols (j - i) = Some c.
Proof.
  induction cols as [|x cols IH]; intros i j; simpl.
  - split; [tauto|]. intros [_ H]. destruct (j - i)%nat; discriminate.
  - destruct (String.eqb_spec x c) as [->|Hne]; simpl; rewrite IH.
    + split.
      * intros [<- | [Hle Hnth]].
        -- split; [lia|]. replace (i - i)%nat with 0%nat by lia. reflexivity.
        -- split; [lia|]. replace (j - i)%nat with (S (j - S i)) by lia. exact Hnth.
      * intros [Hle Hnth]. destruct (Nat.eq_dec i j) as [|Hij]; [left; assumption|].
        right. split; [lia|].
        replace (j - i)%nat with (S (j - S i)) in Hnth by lia. exact Hnth.
    + split.
      * intros [Hle Hnth]. split; [lia|].
        replace (j - i)%nat with (S (j - S i)) by lia. exact Hnth.
      * intros [Hle Hnth]. destruct (Nat.eq_dec i j) as [<-|Hij].
        -- replace (i - i)%nat with 0%nat in Hnth by lia. simpl in Hnth. congruence.
        -- split; [lia|].
           replace (j - i)%nat with (S (j - S i)) in Hnth by lia. exact Hnth.
Qed.

Lemma positions_spec (df : DataFrame) (c : string) (j : nat) :
  In j (positions df c) <-> nth_error (columns df) j = Some c.
Proof.
  unfold positions. rewrite positions_from_spec.
  replace (j - 0)%nat with j by lia. split; [tauto | intros; split; [lia | assumption]].
Qed.

Lemma count_column_has (df : DataFrame) (c : string) :
  has_column df c = true <-> (1 <= count_column df c)%nat.
Proof.
  unfold has_column, count_column.
  induction (columns df) as [|x cols IH]; simpl; [split; [discriminate | lia]|].
  destruct (String.eqb c x); simpl; [split; [lia | reflexivity] | exact IH].
Qed.

(** ** The two renames *)

Lemma lower_map_fold (cols : list string) : forall (m : gmap string string) (c : string),
  fold_left (fun m c => <[c := lower c]> m) cols m !! c
  = if existsb (String.eqb c) cols then Some (lower c) else m !! c.
Proof.
  induction cols as [|x cols IH]; intros m c; simpl; [reflexivity|].
  rewrite IH.
  destruct (existsb (String.eqb c) cols); [rewrite orb_true_r; reflexivity|].
  rewrite orb_false_r.
  destruct (String.eqb_spec c x) as [->|Hne].
  - apply lookup_insert_eq.
  - apply lookup_insert_ne. congruence.
Qed.

Lemma rename_lower_columns (df : DataFrame) :
  columns (rename (lower_map (columns df)) df) = List.map lower (columns df).
Proof.
  unfold rename, lower_map. simpl.
  apply map_ext_in. intros c Hin. rewrite lower_map_fold.
  assert (existsb (String.eqb c) (columns df) = true) as ->
    by (apply (has_column_In df c); assumption).
  reflexivity.
Qed.

Lemma add_rename_lookup (df : DataFrame) (src dst c : string) (m : gmap string string) :
  add_rename df src dst m !! c
  = if String.eqb c src && has_column df src then Some dst else m !! c.
Proof.
  unfold add_rename.
  destruct (has_column df src); [|rewrite andb_false_r; reflexivity].
  rewrite andb_true_r.
  destruct (String.eqb_spec c src) as [->|Hne].
  - apply lookup_insert_eq.
  - apply lookup_insert_ne. congruence.
Qed.

(** The map built by the six tests renames a label of the frame to its
    canonical name. *)
Lemma rename_map_lookup (df : DataFrame) (c : string) :
  In c (columns df) ->
  default c
    (add_rename df "dolocationid" "dropoff_location_id"
       (add_rename df "pulocationid" "pickup_location_id"
          (add_rename df "lpep_dropoff_datetime" "dropoff_datetime"
             (add_rename df "tpep_dropoff_datetime" "dropoff_datetime"
                (add_rename df "lpep_pickup_datetime" "pickup_datetime"
                   (add_rename df "tpep_pickup_datetime" "pickup_datetime" ∅)))))
     !! c)
  = canonical_name c.
Proof.
  intros Hin. apply has_column_In in Hin.
  rewrite !add_rename_lookup. unfold canonical_name.
  repeat match goal with
  | |- context [String.eqb c ?k] =>
      destruct (String.eqb_spec c k) as [->|?];
      [ rewrite ?Hin; reflexivity | simpl andb; cbv iota ]
  end.
  rewrite lookup_empty. reflexivity.
Qed.

Section Normalizer.

Context `{L : Library}.

Lemma standardize_unfold (df : DataFrame) (taxi_type : string) :
  _standardize_schema df taxi_type
  = if empty df then Ok df
    else
      df1 ← ensure_datetime (renamed df) "pickup_datetime";
      df2 ← ensure_datetime df1 "dropoff_datetime";
      mret (setitem_scalar df2 "taxi_type" (VStr taxi_type)).
Proof.
  unfold _standardize_schema. destruct (empty df); [reflexivity|].
  cbv zeta.
  set (df1 := rename (lower_map (columns df)) df).
  match goal with
  | |- context [rename ?m df1] => assert (rename m df1 = renamed df) as ->
  end; [|reflexivity].
  unfold rename at 1, renamed. f_equal.
  transitivity (List.map canonical_name (columns df1)).
  - apply map_ext_in. intros c Hin. apply rename_map_lookup. exact Hin.
  - subst df1. rewrite rename_lower_columns, map_map. reflexivity.
Qed.

Lemma zip_with_set_in_row (df : DataFrame) (c : string) (f : row -> value) (rs : list row) :
  zip_with (set_in_row df c) rs (List.map f rs)
  = List.map (fun r => set_in_row df c r (f r)) rs.
Proof. induction rs as [|r rs IH]; simpl; [reflexivity | rewrite IH; reflexivity]. Qed.

(** The ways [ensure_datetime] goes: no column of that label; one, which
    [pd.to_datetime] converts or raises on; or several. *)
Lemma ensure_datetime_cases (df : DataFrame) (c : string) :
  (has_column df c = false /\ ensure_datetime df c = Ok df)
  \/ (exists i, positions df c = [i] /\ count_column df c = 1%nat
                /\ ensure_datetime df c
                   = match to_datetime_raises (column_at df i) with
                     | Some e => Raise e
                     | None => Ok (coerce_column df c i)
                     end)
  \/ ((2 <= count_column df c)%nat /\ ensure_datetime df c = Raise ValueError).
Proof.
  unfold ensure_datetime. destruct (has_column df c) eqn:Hc; [|left; auto].
  right. pose proof (positions_length df c) as Hlen.
  apply count_column_has in Hc as Hcount.
  unfold getitem.
  destruct (positions df c) as [|i [|j ps]] eqn:Hp; simpl in Hlen.
  - lia.
  - left. exists i. split; [reflexivity|]. split; [lia|].
    cbn. destruct (to_datetime_raises (column_at df i)); [reflexivity|].
    cbn. unfold setitem, coerce_column, columns_with. rewrite Hc. f_equal. f_equal.
    unfold column_at at 2. rewrite map_map.
    rewrite (zip_with_set_in_row df c
               (fun r => coerce_cell (column_at df i) (cell_at i r))).
    apply map_ext. intros r. unfold set_in_row. rewrite Hc. reflexivity.
  - right. split; [lia | reflexivity].
Qed.

(** What [ensure_datetime] returns, when it returns. *)
Lemma ensure_datetime_ok (df out : DataFrame) (c : string) :
  ensure_datetime df c = Ok out ->
  (has_column df c = false /\ out = df)
  \/ (exists i, positions df c = [i] /\ count_column df c = 1%nat
                /\ to_datetime_raises (column_at df i) = None
                /\ out = coerce_column df c i).
Proof.
  intros Hout.
  destruct (ensure_datetime_cases df c)
    as [[Hc Heq] | [(i & Hp & Hone & Heq) | [_ Heq]]]; rewrite Heq in Hout.
  - injection Hout as <-. left. auto.
  - destruct (to_datetime_raises (column_at df i)) eqn:Hr; [discriminate|].
    injection Hout as <-. right. exists i. auto.
  - discriminate.
Qed.

Lemma fill_well_formed (n : nat) (cs : list value) : length cs = n -> fill n cs = cs.
Proof.
  intros <-. unfold fill. rewrite Nat.sub_diag. simpl. apply app_nil_r.
Qed.


Lemma Forall2_map_self {A : Type} (P : A -> A -> Prop) (g : A -> A) (l : list A) :
  (forall a, In a l -> P a (g a)) -> Forall2 P l (List.map g l).
Proof.
  induction l as [|a l IH]; intros H; simpl; constructor.
  - apply H. left. reflexivity.
  - apply IH. intros b Hb. apply H. right. exact Hb.
Qed.

Lemma set_cells_length (cols : list string) (c : string) (v : value) : forall cs,
  length (set_cells cols c v cs) = length cs.
Proof.
  induction cols as [|x cols IH]; intros [|old cs]; simpl; try reflexivity.
  rewrite IH. reflexivity.
Qed.

Lemma set_cells_other (cols : list string) (c : string) (v : value) :
  forall cs j x,
    nth_error cols j = Some x -> x <> c ->
    nth j (set_cells cols c v cs) VNull = nth j cs VNull.
Proof.
  induction cols as [|y cols IH]; intros [|old cs] j x Hj Hx; simpl; try reflexivity.
  destruct j as [|j]; simpl in *.
  - injection Hj as ->. destruct (String.eqb_spec x c); [contradiction | reflexivity].
  - eapply IH; eassumption.
Qed.

Lemma set_cells_at (cols : list string) (c : string) (v : value) :
  forall cs j,
    nth_error cols j = Some c -> (j < length cs)%nat ->
    nth j (set_cells cols c v cs) VNull = v.
Proof.
  induction cols as [|y cols IH]; intros [|old cs] j Hj Hlen; simpl in *;
    try lia; try (destruct j; discriminate).
  destruct j as [|j]; simpl in *.
  - injection Hj as ->. rewrite String.eqb_refl. reflexivity.
  - apply IH; [assumption | lia].
Qed.

Lemma coerce_column_kept (df : DataFrame) (c : string) (i : nat) :
  Forall2 (row_kept (columns df) [c]) (rows df) (rows (coerce_column df c i)).
Proof.
  unfold coerce_column. simpl. apply Forall2_map_self. intros r _.
  split; [reflexivity|]. intros j x Hj Hx. unfold cell_at. simpl.
  eapply set_cells_other; [eassumption|]. intros ->. apply Hx. left. reflexivity.
Qed.

Lemma coerce_column_well_formed (df : DataFrame) (c : string) (i : nat) :
  well_formed df -> well_formed (coerce_column df c i).
Proof.
  unfold well_formed, coerce_column. simpl. intros Hwf.
  apply List.Forall_forall. intros r' Hin. apply in_map_iff in Hin as (r & <- & Hr).
  simpl. rewrite set_cells_length.
  rewrite List.Forall_forall in Hwf. auto.
Qed.

Lemma ensure_datetime_kept (df out : DataFrame) (c : string) :
  ensure_datetime df c = Ok out ->
  columns out = columns df
  /\ (well_formed df -> well_formed out)
  /\ Forall2 (row_kept (columns df) [c]) (rows df) (rows out).
Proof.
  intros Heq.
  destruct (ensure_datetime_ok df out c Heq) as [[_ ->] | (i & _ & _ & _ & ->)].
  - repeat split; auto.
    replace (rows df) with (List.map (fun r => r) (rows df)) at 2 by apply map_id.
    apply Forall2_map_self. intros r _. split; reflexivity.
  - repeat split; auto using coerce_column_kept, coerce_column_well_formed.
Qed.

Lemma fill_nth (n j : nat) (cs : list value) (v : value) :
  (j < n)%nat -> nth j (fill n cs ++ [v]) VNull = nth j cs VNull.
Proof.
  intros Hj. unfold fill. rewrite app_nth1 by (rewrite length_app, repeat_length; lia).
  destruct (Nat.lt_ge_cases j (length cs)) as [Hlt | Hge].
  - apply app_nth1. exact Hlt.
  - rewrite app_nth2 by exact Hge. rewrite nth_repeat.
    symmetry. apply nth_overflow. exact Hge.
Qed.

Lemma setitem_scalar_kept_any (df : DataFrame) (c : string) (v : value) :
  Forall2 (row_kept (columns df) [c]) (rows df) (rows (setitem_scalar df c v)).
Proof.
  unfold setitem_scalar. simpl. apply Forall2_map_self. intros r Hr.
  unfold set_in_row. destruct (has_column df c); split; try reflexivity;
    intros j x Hj Hx; unfold cell_at; simpl.
  - eapply set_cells_other; [eassumption|]. intros ->. apply Hx. left. reflexivity.
  - apply fill_nth. apply (proj1 (nth_error_Some (columns df) j)). congruence.
Qed.

Lemma setitem_scalar_kept (df : DataFrame) (c : string) (v : value) :
  well_formed df ->
  Forall2 (row_kept (columns df) [c]) (rows df) (rows (setitem_scalar df c v)).
Proof. intros _. apply setitem_scalar_kept_any. Qed.

(** A column whose label is not exempt is kept as it is. *)
Lemma row_kept_column (cols ex : list string) (rs rs' : list row) (j : nat) (x : string) :
  Forall2 (row_kept cols ex) rs rs' ->
  nth_error cols j = Some x -> ~ In x ex ->
  List.map (cell_at j) rs' = List.map (cell_at j) rs.
Proof.
  intros Hk Hj Hx. induction Hk as [|r r' rs rs' [_ Hr] _ IH]; simpl; [reflexivity|].
  rewrite IH, (Hr j x Hj Hx). reflexivity.
Qed.


(** The labels of the normalized frame: the source labels under their
    normalized names, and [taxi_type] last when no source label becomes it. *)
Lemma standardize_columns (df out : DataFrame) (taxi_type : string) :
  empty df = false ->
  _standardize_schema df taxi_type = Ok out ->
  columns out = columns_with (renamed df) "taxi_type".
Proof.
  intros He. rewrite standardize_unfold, He.
  destruct (ensure_datetime (renamed df) "pickup_datetime") as [df1|] eqn:H1;
    [|discriminate]. cbn.
  destruct (ensure_datetime df1 "dropoff_datetime") as [df2|] eqn:H2;
    [|discriminate]. cbn.
  intros Heq. injection Heq as <-.
  apply ensure_datetime_kept in H1 as (Hc1 & _).
  apply ensure_datetime_kept in H2 as (Hc2 & _).
  unfold setitem_scalar, columns_with, has_column. simpl.
  rewrite Hc2, Hc1. reflexivity.
Qed.


Lemma count_renamed (df : DataFrame) (c : string) :
  count_column (renamed df) c = count_normalized df c.
Proof.
  unfold count_column, count_normalized, renamed. simpl.
  induction (columns df) as [|x cols IH]; simpl; [reflexivity|].
  rewrite (String.eqb_sym c). destruct (String.eqb (normalized_name x) c); simpl; lia.
Qed.

Lemma ensure_datetime_returns (df : DataFrame) (c : string) :
  (count_column df c <= 1)%nat ->
  (forall i, nth_error (columns df) i = Some c ->
             to_datetime_raises (column_at df i) = None) ->
  exists out, ensure_datetime df c = Ok out.
Proof.
  intros Hle Hread.
  destruct (ensure_datetime_cases df c) as [[_ ->] | [(i & Hp & _ & ->) | [Hge _]]];
    [eauto | | lia].
  rewrite Hread; [eauto|].
  apply positions_spec. rewrite Hp. left. reflexivity.
Qed.

Lemma ensure_datetime_raises (df : DataFrame) (c : string) :
  (2 <= count_column df c)%nat -> ensure_datetime df c = Raise ValueError.
Proof.
  intros Hge.
  destruct (ensure_datetime_cases df c) as [[Hc _] | [(i & _ & Hone & _) | [_ ->]]];
    [| lia | reflexivity].
  apply not_true_iff_false in Hc. rewrite count_column_has in Hc. lia.
Qed.

(** Two source columns that normalize to [pickup_datetime] make the
    normalizer raise. *)
Lemma standardize_clash_raises (df : DataFrame) (taxi_type : string) :
  empty df = false ->
  (2 <= count_normalized df "pickup_datetime")%nat ->
  _standardize_schema df taxi_type = Raise ValueError.
Proof.
  intros He Hge. rewrite standardize_unfold, He.
  rewrite ensure_datetime_raises by (rewrite count_renamed; exact Hge).
  reflexivity.
Qed.

(** The normalizer returns when no two columns end under one of the two
    datetime labels and [pd.to_datetime] raises on neither column. *)
Lemma standardize_returns (df : DataFrame) (taxi_type : string) :
  (count_normalized df "pickup_datetime" <= 1)%nat ->
  (count_normalized df "dropoff_datetime" <= 1)%nat ->
  readable df "pickup_datetime" ->
  readable df "dropoff_datetime" ->
  exists out, _standardize_schema df taxi_type = Ok out.
Proof.
  intros Hp Hd Hrp Hrd. rewrite standardize_unfold.
  destruct (empty df); [eauto|].
  destruct (ensure_datetime_returns (renamed df) "pickup_datetime") as [df1 H1];
    [rewrite count_renamed; exact Hp | exact Hrp |].
  rewrite H1. cbn.
  apply ensure_datetime_kept in H1 as (Hc1 & _ & Hk1).
  destruct (ensure_datetime_returns df1 "dropoff_datetime") as [df2 H2].
  { unfold count_column. rewrite Hc1. fold (count_column (renamed df) "dropoff_datetime").
    rewrite count_renamed. exact Hd. }
  { intros j Hj. rewrite Hc1 in Hj. unfold column_at.
    rewrite (row_kept_column _ _ _ _ j "dropoff_datetime" Hk1 Hj).
    - exact (Hrd j Hj).
    - simpl. intros [Heq | []]. discriminate. }
  rewrite H2. cbn. eauto.
Qed.

(** The normalizer raises what [pd.to_datetime] raises on the one column
    under [pickup_datetime]. *)
Lemma standardize_unreadable_raises (df : DataFrame) (taxi_type : string) (i : nat)
    (e : exn) :
  empty df = false ->
  count_normalized df "pickup_datetime" = 1%nat ->
  nth_error (List.map normalized_name (columns df)) i = Some "pickup_datetime" ->
  to_datetime_raises (column_at df i) = Some e ->
  _standardize_schema df taxi_type = Raise e.
Proof.
  intros He Hone Hi Hr. rewrite standardize_unfold, He.
  destruct (ensure_datetime_cases (renamed df) "pickup_datetime")
    as [[Hc _] | [(i' & Hp & _ & ->) | [Hge _]]].
  - apply not_true_iff_false in Hc. rewrite count_column_has, count_renamed in Hc. lia.
  - assert (i' = i) as ->.
    { assert (In i (positions (renamed df) "pickup_datetime")) as Hin
        by (apply positions_spec; exact Hi).
      rewrite Hp in Hin. destruct Hin as [<- | []]. reflexivity. }
    change (column_at (renamed df) i) with (column_at df i). rewrite Hr. reflexivity.
  - rewrite count_renamed in Hge. lia.
Qed.

End Normalizer.




Lemma columns_with_In (df : DataFrame) (c x : string) :
  In x (columns_with df c) <-> In x (columns df) \/ x = c.
Proof.
  unfold columns_with. destruct (has_column df c) eqn:Hc.
  - apply has_column_In in Hc. split; [tauto|].
    intros [Hin | Heq]; [assumption | subst x; assumption].
  - rewrite in_app_iff. simpl. intuition auto.
Qed.

Lemma columns_with_count (df : DataFrame) (c x : string) :
  x <> c ->
  length (List.filter (String.eqb x) (columns_with df c)) = count_column df x.
Proof.
  intros Hne. unfold columns_with, count_column.
  destruct (has_column df c); [reflexivity|].
  rewrite List.filter_app, length_app. simpl.
  destruct (String.eqb_spec x c); [contradiction | simpl; lia].
Qed.

(** ** The claims on the Schema Normalizer *)




(** One pickup column, on which [pd.to_datetime] raises: the normalizer
    raises with it. *)
Example standardize_mixed_offsets :
  count_normalized Sample.mixed_offsets "pickup_datetime" = 1%nat
  /\ _standardize_schema Sample.mixed_offsets "yellow" = Raise ValueError.
Proof. split; reflexivity. Qed.




(** ** The Window Filter *)

Lemma Forall2_In_r {A : Type} (P : A -> A -> Prop) (l1 l2 : list A) (b : A) :
  Forall2 P l1 l2 -> In b l2 -> exists a, In a l1 /\ P a b.
Proof.
  induction 1 as [|a b' l1 l2 Hab _ IH]; simpl; [tauto|].
  intros [<- | Hin]; [eauto|].
  destruct (IH Hin) as (a' & Ha' & HP). eauto.
Qed.

Lemma setitem_scalar_well_formed (df : DataFrame) (c : string) (v : value) :
  well_formed df -> well_formed (setitem_scalar df c v).
Proof.
  unfold well_formed, setitem_scalar, columns_with, set_in_row. simpl. intros Hwf.
  apply List.Forall_forall. intros r' Hin. apply in_map_iff in Hin as (r & <- & Hr).
  rewrite List.Forall_forall in Hwf. specialize (Hwf r Hr).
  destruct (has_column df c); simpl.
  - rewrite set_cells_length. exact Hwf.
  - rewrite fill_well_formed by exact Hwf. rewrite !length_app. simpl. lia.
Qed.

Lemma coerce_cell_timestamp `{L : Library} (vals : list value) (v : value) :
  exists t, coerce_cell vals v = VTimestamp t.
Proof. unfold coerce_cell. destruct (datetime_tz vals); [destruct v|]; eauto. Qed.

Lemma coerce_cell_datetime `{L : Library} (vals : list value) (v : value) :
  is_datetime_cell (coerce_cell vals v).
Proof. right. apply coerce_cell_timestamp. Qed.

(** A column that [ensure_datetime] finds is a datetime column afterwards. *)
Lemma ensure_datetime_cells `{L : Library} (df out : DataFrame) (c : string) :
  well_formed df ->
  ensure_datetime df c = Ok out ->
  forall i r, In i (positions df c) -> In r (rows out) -> is_datetime_cell (cell_at i r).
Proof.
  intros Hwf Hout i r Hi Hr.
  destruct (ensure_datetime_ok df out c Hout) as [[Hc _] | (i' & Hp & _ & _ & ->)].
  - apply positions_spec, nth_error_In, has_column_In in Hi. congruence.
  - unfold coerce_column in Hr. simpl in Hr.
    apply in_map_iff in Hr as (r0 & <- & Hr0).
    unfold cell_at at 1. simpl.
    rewrite set_cells_at.
    + apply coerce_cell_datetime.
    + apply positions_spec. exact Hi.
    + unfold well_formed in Hwf. rewrite List.Forall_forall in Hwf.
      rewrite (Hwf r0 Hr0). apply (proj1 (nth_error_Some (columns df) i)).
      apply positions_spec in Hi. congruence.
Qed.

(** What [_standardize_schema] returns for a table that is not empty is a
    normalized table. *)
Lemma standardize_normalized `{L : Library} (df out : DataFrame) (taxi_type : string) :
  well_formed df ->
  empty df = false ->
  _standardize_schema df taxi_type = Ok out ->
  normalized out /\ well_formed out.
Proof.
  intros Hwf He Hout.
  pose proof (standardize_columns df out taxi_type He Hout) as Hcols.
  rewrite standardize_unfold, He in Hout.
  destruct (ensure_datetime (renamed df) "pickup_datetime") as [df1|] eqn:H1;
    [|discriminate]. cbn in Hout.
  destruct (ensure_datetime df1 "dropoff_datetime") as [df2|] eqn:H2;
    [|discriminate]. cbn in Hout. injection Hout as <-.
  assert (well_formed (renamed df)) as Hwf0.
  { unfold well_formed, renamed in *. simpl. rewrite length_map. exact Hwf. }
  pose proof (ensure_datetime_cells _ _ _ Hwf0 H1) as Hcells.
  assert (count_column (renamed df) "pickup_datetime" <= 1)%nat as Hcount.
  { destruct (ensure_datetime_ok _ _ _ H1) as [[Hc _] | (i' & _ & Hone & _)]; [|lia].
    apply not_true_iff_false in Hc. rewrite count_column_has in Hc. lia. }
  apply ensure_datetime_kept in H1 as (Hc1 & Hw1 & _).
  apply ensure_datetime_kept in H2 as (Hc2 & Hw2 & Hk2).
  pose proof (setitem_scalar_kept df2 "taxi_type" (VStr taxi_type) (Hw2 (Hw1 Hwf0))) as Hk3.
  split; [|apply setitem_scalar_well_formed; auto].
  split.
  - unfold count_column at 1. rewrite Hcols.
    rewrite columns_with_count by discriminate. exact Hcount.
  - intros i r Hi Hr.
    assert (nth_error (columns (renamed df)) i = Some "pickup_datetime") as Hi0.
    { apply positions_spec in Hi. rewrite Hcols in Hi.
      unfold columns_with in Hi. destruct (has_column (renamed df) "taxi_type");
        [exact Hi|].
      rewrite nth_error_app in Hi.
      destruct (i <? length (columns (renamed df)))%nat; [exact Hi|].
      destruct (i - length (columns (renamed df)))%nat as [|[|k]];
        simpl in Hi; discriminate. }
    destruct (Forall2_In_r _ _ _ _ Hk3 Hr) as (r2 & Hr2 & _ & Hk).
    destruct (Forall2_In_r _ _ _ _ Hk2 Hr2) as (r1 & Hr1 & _ & Hk').
    rewrite (Hk i "pickup_datetime"), (Hk' i "pickup_datetime").
    + apply Hcells; [apply positions_spec; exact Hi0 | exact Hr1].
    + rewrite Hc1. exact Hi0.
    + simpl. intros [Heq | []]. discriminate.
    + rewrite Hc2, Hc1. exact Hi0.
    + simpl. intros [Heq | []]. discriminate.
Qed.

(** A column of tz-naive timestamps can be compared with a tz-naive
    timestamp. *)
Lemma compare_cells_naive (cmp : Z -> Z -> bool) (b : Z)
    (f : row -> value) (rs : list row) :
  (forall r, In r rs -> exists t, f r = VTimestamp t /\ tz t = None) ->
  compare_cells cmp (tz_naive b) (List.map f rs)
  = Ok (List.map (fun r => mask_of cmp b (f r)) rs).
Proof.
  induction rs as [|r rs IH]; intros Hdt; simpl; [reflexivity|].
  rewrite IH by (intros; apply Hdt; right; assumption).
  destruct (Hdt r (or_introl eq_refl)) as (t & -> & Htz).
  simpl. rewrite Htz. destruct (instant t); reflexivity.
Qed.

(** And no other column can. *)
Lemma compare_cells_ok (cmp : Z -> Z -> bool) (b : Z)
    (f : row -> value) (rs : list row) (mask : list bool) :
  compare_cells cmp (tz_naive b) (List.map f rs) = Ok mask ->
  forall r, In r rs -> exists t, f r = VTimestamp t /\ tz t = None.
Proof.
  revert mask. induction rs as [|r rs IH]; intros mask Hok r' Hr'; [destruct Hr'|].
  simpl in Hok.
  destruct (compare_cell cmp (tz_naive b) (f r)) as [x|] eqn:Hcell; [|discriminate].
  destruct (compare_cells cmp (tz_naive b) (List.map f rs)) as [bs|] eqn:Hrest;
    [|discriminate].
  destruct Hr' as [<- | Hr']; [|exact (IH bs eq_refl r' Hr')].
  unfold compare_cell in Hcell. destruct (f r) as [| | | |t]; try discriminate.
  exists t. split; [reflexivity|]. simpl in Hcell.
  destruct (tz t); [discriminate | reflexivity].
Qed.

Lemma loc_mask_filter (df : DataFrame) (h : row -> bool) :
  loc_mask df (List.map h (rows df)) = mkdf (columns df) (List.filter h (rows df)).
Proof.
  unfold loc_mask. f_equal.
  induction (rows df) as [|r rs IH]; simpl; [reflexivity|].
  destruct (h r); simpl; rewrite IH; reflexivity.
Qed.

Lemma zip_with_map_same {A B C D : Type} (op : B -> C -> D) (f : A -> B) (g : A -> C)
    (l : list A) :
  zip_with op (List.map f l) (List.map g l) = List.map (fun a => op (f a) (g a)) l.
Proof. induction l as [|a l IH]; simpl; [reflexivity | rewrite IH; reflexivity]. Qed.

(** On a table with at most one [pickup_datetime] column, a tz-naive one,
    the filter keeps the rows of the window. *)
Lemma window_filter_naive (df : DataFrame) (start_date end_date : date) :
  (count_column df "pickup_datetime" <= 1)%nat ->
  tz_naive_pickup df ->
  window_filter df start_date end_date = Ok (kept df start_date end_date).
Proof.
  intros Hcount Hcells. unfold window_filter, kept, getitem.
  pose proof (positions_length df "pickup_datetime") as Hlen.
  destruct (has_column df "pickup_datetime") eqn:Hc.
  - apply count_column_has in Hc.
    destruct (positions df "pickup_datetime") as [|i [|j ps]] eqn:Hp;
      simpl in Hlen; try lia.
    cbn. unfold column_at, Timestamp_of_date.
    rewrite !compare_cells_naive
      by (intros r Hr; apply Hcells; [rewrite Hp; left; reflexivity | exact Hr]).
    cbn. rewrite zip_with_map_same, loc_mask_filter. f_equal. f_equal.
    apply filter_ext. intros r. unfold in_window, mask_of.
    destruct (cell_at i r) as [| | | |t]; try reflexivity.
    destruct (instant t); [|reflexivity].
    rewrite Z.geb_leb. reflexivity.
  - apply not_true_iff_false in Hc. rewrite count_column_has in Hc.
    destruct (positions df "pickup_datetime"); [reflexivity | simpl in Hlen; lia].
Qed.

(** The filter returns on no other table. *)
Lemma window_filter_ok (df out : DataFrame) (start_date end_date : date) :
  window_filter df start_date end_date = Ok out ->
  (count_column df "pickup_datetime" <= 1)%nat
  /\ tz_naive_pickup df
  /\ out = kept df start_date end_date.
Proof.
  intros Hout.
  assert ((count_column df "pickup_datetime" <= 1)%nat /\ tz_naive_pickup df)
    as [Hcount Hcells].
  { unfold window_filter, getitem in Hout. unfold tz_naive_pickup.
    pose proof (positions_length df "pickup_datetime") as Hlen.
    destruct (has_column df "pickup_datetime") eqn:Hc.
    - destruct (positions df "pickup_datetime") as [|i [|j ps]] eqn:Hp;
        simpl in Hlen; try discriminate.
      split; [lia|]. intros i' r [<- | []] Hr.
      cbn in Hout. unfold column_at, Timestamp_of_date in Hout.
      destruct (compare_cells Z.geb _ _) as [mask|] eqn:Hcmp; [|discriminate].
      exact (compare_cells_ok _ _ _ _ _ Hcmp r Hr).
    - apply not_true_iff_false in Hc. rewrite count_column_has in Hc.
      destruct (positions df "pickup_datetime"); [|simpl in Hlen; lia].
      split; [lia|]. intros i' r []. }
  split; [exact Hcount|]. split; [exact Hcells|].
  rewrite (window_filter_naive df start_date end_date Hcount Hcells) in Hout.
  congruence.
Qed.

(** C3, as the code has it: for a normalized table whose [pickup_datetime]
    column, if there is one, is tz-naive, and a window: without a
    [pickup_datetime] column the Window Filter returns the table as it is;
    with one, at position [i], it returns the columns unchanged and, in
    their order, exactly the rows whose cell there is a timestamp of an
    instant [n] with [start <= n < end], so no row whose [pickup_datetime]
    is NaT is kept. *)
Theorem window_filter_keeps_window (df : DataFrame) (start_date end_date : date) :
  normalized df ->
  tz_naive_pickup df ->
  (has_column df "pickup_datetime" = false ->
   window_filter df start_date end_date = Ok df)
  /\ (has_column df "pickup_datetime" = true ->
      exists i out,
        positions df "pickup_datetime" = [i]
        /\ window_filter df start_date end_date = Ok out
        /\ columns out = columns df
        /\ rows out = List.filter (in_window i start_date end_date) (rows df)
        /\ (forall r, In r (rows out)
                      <-> In r (rows df)
                          /\ exists n, cell_at i r = VTimestamp (tz_naive n)
                                       /\ nanos_of_date start_date <= n
                                          < nanos_of_date end_date)
        /\ (forall r t, cell_at i r = VTimestamp t -> instant t = None ->
                        ~ In r (rows out))).
Proof.
  intros [Hcount _] Hnaive.
  rewrite (window_filter_naive df start_date end_date Hcount Hnaive). unfold kept.
  pose proof (positions_length df "pickup_datetime") as Hlen.
  split; intros Hc.
  - apply not_true_iff_false in Hc. rewrite count_column_has in Hc.
    destruct (positions df "pickup_datetime"); [reflexivity | simpl in Hlen; lia].
  - apply count_column_has in Hc.
    destruct (positions df "pickup_datetime") as [|i [|j ps]] eqn:Hp;
      simpl in Hlen; try lia.
    exists i. eexists. split; [reflexivity|]. split; [reflexivity|]. simpl.
    split; [reflexivity|]. split; [reflexivity|].
    assert (forall r, In r (rows df) ->
              (in_window i start_date end_date r = true
               <-> exists n, cell_at i r = VTimestamp (tz_naive n)
                             /\ nanos_of_date start_date <= n
                                < nanos_of_date end_date)) as Hin.
    { intros r Hr. unfold in_window.
      destruct (Hnaive i r) as (t & -> & Htz); [rewrite Hp; left; reflexivity | exact Hr |].
      destruct t as [[n|] z]; simpl in Htz; subst z; simpl.
      - rewrite andb_true_iff, Z.leb_le, Z.ltb_lt. split.
        + intros [? ?]. exists n. auto.
        + intros (n' & Heq & ? & ?). injection Heq as <-. auto.
      - split; [discriminate | intros (n' & Heq & _); discriminate]. }
    split.
    + intros r. rewrite filter_In. split.
      * intros [Hr Hw]. split; [exact Hr|]. apply Hin; assumption.
      * intros [Hr Hw]. split; [exact Hr|]. apply Hin; assumption.
    + intros r t Hcell Hnat Hr. apply filter_In in Hr as [_ Hr].
      unfold in_window in Hr. rewrite Hcell, Hnat in Hr. discriminate.
Qed.

Lemma window_filter_keeps_window_witness :
  normalized Sample.yellow_january_normalized
  /\ tz_naive_pickup Sample.yellow_january_normalized
  /\ has_column Sample.yellow_january_normalized "pickup_datetime" = true
  /\ exists i out,
       positions Sample.yellow_january_normalized "pickup_datetime" = [i]
       /\ window_filter Sample.yellow_january_normalized
            (mkdate 2023 1 1) (mkdate 2023 2 1) = Ok out
       /\ rows out = firstn 1 (rows Sample.yellow_january_normalized).
Proof.
  assert (normalized Sample.yellow_january_normalized) as Hn.
  { split; [vm_compute; lia|].
    intros i r [<- | []] Hr. simpl in Hr.
    destruct Hr as [<- | [<- | [<- | []]]]; vm_compute; eauto. }
  assert (tz_naive_pickup Sample.yellow_january_normalized) as Hz.
  { intros i r [<- | []] Hr. simpl in Hr.
    destruct Hr as [<- | [<- | [<- | []]]]; vm_compute; eauto. }
  assert (has_column Sample.yellow_january_normalized "pickup_datetime" = true) as Hc
    by reflexivity.
  split; [exact Hn|]. split; [exact Hz|]. split; [exact Hc|].
  destruct (proj2 (window_filter_keeps_window _ (mkdate 2023 1 1) (mkdate 2023 2 1) Hn Hz)
              Hc) as (i & out & Hp & Hout & _ & Hrows & _).
  exists i, out. split; [exact Hp|]. split; [exact Hout|].
  rewrite Hrows. injection Hp as <-. reflexivity.
Defined.

(** C3 as stated fails: a table [_standardize_schema] returns may have a
    tz-aware [pickup_datetime] column, which cannot be compared with the
    tz-naive timestamps of the window; the Window Filter raises [TypeError]
    on it and returns nothing. *)
Lemma window_filter_tz_aware :
  _standardize_schema Sample.utc_january "yellow" = Ok Sample.utc_january_normalized
  /\ normalized Sample.utc_january_normalized
  /\ has_column Sample.utc_january_normalized "pickup_datetime" = true
  /\ window_filter Sample.utc_january_normalized (mkdate 2023 1 1) (mkdate 2023 2 1)
     = Raise TypeError
  /\ ~ exists out,
         window_filter Sample.utc_january_normalized (mkdate 2023 1 1) (mkdate 2023 2 1)
         = Ok out.
Proof.
  split; [reflexivity|]. split.
  { split; [vm_compute; lia|].
    intros i r [<- | []] Hr. simpl in Hr.
    destruct Hr as [<- | []]; vm_compute; eauto. }
  split; [reflexivity|]. split; [reflexivity|].
  intros (out & Hout). discriminate Hout.
Qed.

(** ** The Resource Fetcher and the loop body *)

(** Unfolds the monad of [M] in the goal. *)
Ltac unfold_M :=
  unfold mbind, mret, M_bind, M_ret, lift, raise, environ_get, print, utcnow; cbn.

Section Aggregator.

Context `{L : Library}.

Lemma load_unfold (url : string) (w : world) :
  _load_parquet_from_url url w
  = match server w url with
    | NoReply e => (Raise e, sent w [url])
    | Reply status_code content =>
        if negb (status_code =? 200)
        then (Ok empty_frame, printed (sent w [url]) [skip_line url status_code])
        else (read_parquet content, sent w [url])
    end.
Proof.
  unfold _load_parquet_from_url, requests_get. unfold_M.
  destruct (server w url) as [e | status_code content]; [reflexivity|].
  destruct (negb (status_code =? 200)); reflexivity.
Qed.

Lemma month_body_unfold (start_date end_date : date) (taxi_type : string)
    (frames : list DataFrame) (month_start : date) (w : world) :
  month_body start_date end_date taxi_type frames month_start w
  = let url := month_url taxi_type month_start in
    match _load_parquet_from_url url (printed w [fetch_line url]) with
    | (Raise e, w2) => (Raise e, w2)
    | (Ok df, w2) =>
        if empty df then (Ok frames, w2)
        else
          match _standardize_schema df taxi_type with
          | Raise e => (Raise e, w2)
          | Ok df1 =>
              match window_filter df1 start_date end_date with
              | Raise e => (Raise e, w2)
              | Ok df2 =>
                  if empty df2 then (Ok frames, w2)
                  else (Ok (frames
                            ++ [setitem_scalar df2 "extracted_at"
                                  (VTimestamp (clock w2 (ticks w2)))])%list,
                        ticked w2)
              end
          end
    end.
Proof.
  unfold month_body. unfold_M.
  destruct (_load_parquet_from_url _ _) as [[df|e] w2]; [|reflexivity].
  destruct (empty df); [reflexivity|].
  destruct (_standardize_schema df taxi_type) as [df1|e]; [|reflexivity].
  destruct (window_filter df1 start_date end_date) as [df2|e]; [|reflexivity].
  destruct (empty df2); reflexivity.
Qed.

(** What the fetcher leaves of the world, and where its table is from. *)
Lemma load_effect (url : string) (w w' : world) (r : result DataFrame) :
  _load_parquet_from_url url w = (r, w') ->
  clock w' = clock w /\ ticks w' = ticks w
  /\ forall df, r = Ok df ->
       df = empty_frame \/ exists content, read_parquet content = Ok df.
Proof.
  rewrite load_unfold.
  destruct (server w url) as [e | status_code content].
  - intros Heq. injection Heq as <- <-. repeat split. discriminate.
  - destruct (negb (status_code =? 200)); intros Heq; injection Heq as <- <-;
      repeat split; eauto.
    intros df Hdf. injection Hdf as <-. auto.
Qed.

Lemma for_each_cons {A B : Type} (body : B -> A -> M B) (a : A) (l : list A)
    (acc : B) (w : world) :
  for_each body (a :: l) acc w
  = match body acc a w with
    | (Ok acc', w') => for_each body l acc' w'
    | (Raise e, w') => (Raise e, w')
    end.
Proof. reflexivity. Qed.

(** A property of the accumulator and the world that every turn of the body
    keeps holds after the loop. *)
Lemma for_each_invariant {A B : Type} (body : B -> A -> M B) (I : B -> world -> Prop) :
  (forall acc a w acc' w', I acc w -> body acc a w = (Ok acc', w') -> I acc' w') ->
  forall l acc w acc' w',
    I acc w -> for_each body l acc w = (Ok acc', w') -> I acc' w'.
Proof.
  intros Hbody l. induction l as [|a l IH]; intros acc w acc' w' HI Hrun.
  - injection Hrun as <- <-. exact HI.
  - rewrite for_each_cons in Hrun.
    destruct (body acc a w) as [[acc1|e] w1] eqn:Hb; [|discriminate].
    eapply IH; [|exact Hrun]. eapply Hbody; eassumption.
Qed.

Lemma for_gen_invariant {A B : Type} (body : B -> A -> M B) (I : B -> world -> Prop) :
  (forall acc a w acc' w', I acc w -> body acc a w = (Ok acc', w') -> I acc' w') ->
  forall g acc w acc' w',
    I acc w -> for_gen body g acc w = (Ok acc', w') -> I acc' w'.
Proof.
  intros Hbody g acc w acc' w' HI. unfold for_gen. unfold_M.
  destruct (for_each body (yielded g) acc w) as [[acc1|e] w1] eqn:Hrun; [|discriminate].
  destruct (finished g); intros Heq; try discriminate.
  injection Heq as <- <-.
  eapply for_each_invariant; eassumption.
Qed.

End Aggregator.

Lemma setitem_scalar_stamped (df : DataFrame) (c : string) (v : value) :
  well_formed df ->
  forall i r,
    In i (positions (setitem_scalar df c v) c) ->
    In r (rows (setitem_scalar df c v)) ->
    cell_at i r = v.
Proof.
  intros Hwf i r Hi Hr. apply positions_spec in Hi.
  unfold setitem_scalar, columns_with, set_in_row in *. simpl in *.
  apply in_map_iff in Hr as (r0 & <- & Hr0).
  unfold well_formed in Hwf. rewrite List.Forall_forall in Hwf. specialize (Hwf r0 Hr0).
  unfold cell_at. rewrite (fill_well_formed _ _ Hwf).
  destruct (has_column df c) eqn:Hc; simpl.
  - apply set_cells_at; [exact Hi|].
    rewrite Hwf. apply (proj1 (nth_error_Some (columns df) i)). congruence.
  - rewrite nth_error_app in Hi.
    destruct (i <? length (columns df))%nat eqn:Hlt.
    + apply nth_error_In in Hi. apply has_column_false in Hc. contradiction.
    + apply Nat.ltb_ge in Hlt.
      destruct (i - length (columns df))%nat as [|k] eqn:Hk;
        [|destruct k; discriminate].
      rewrite app_nth2 by lia. rewrite Hwf, Hk. reflexivity.
Qed.

Lemma setitem_scalar_has_column (df : DataFrame) (c : string) (v : value) :
  has_column (setitem_scalar df c v) c = true.
Proof.
  apply has_column_In. unfold setitem_scalar. simpl.
  apply columns_with_In. right. reflexivity.
Qed.

Lemma setitem_scalar_not_empty (df : DataFrame) (c : string) (v : value) :
  empty df = false -> empty (setitem_scalar df c v) = false.
Proof.
  unfold empty, setitem_scalar, columns_with. simpl.
  destruct (columns df) as [|x cols]; [discriminate|].
  destruct (rows df) as [|r rs]; [discriminate|]. intros _.
  destruct (has_column _ c); reflexivity.
Qed.

Lemma window_filter_well_formed (df out : DataFrame) (start_date end_date : date) :
  normalized df -> well_formed df ->
  window_filter df start_date end_date = Ok out ->
  well_formed out.
Proof.
  intros _ Hwf Heq. apply window_filter_ok in Heq as (_ & _ & ->). unfold kept.
  destruct (positions df "pickup_datetime") as [|i ps]; [exact Hwf|].
  unfold well_formed in *. simpl.
  rewrite List.Forall_forall in *. intros r Hr. apply filter_In in Hr as [Hr _]. auto.
Qed.

Section AggregatorOk.

Context `{L : Library} {Lok : LibraryOk L}.

(** One turn of the inner loop: the clock is read once when a table is
    appended, and not at all otherwise; an appended table has rows, and
    all of them carry that reading. *)
Lemma month_body_effect (start_date end_date : date) (taxi_type : string)
    (frames frames' : list DataFrame) (month_start : date) (w w' : world) :
  month_body start_date end_date taxi_type frames month_start w = (Ok frames', w') ->
  clock w' = clock w
  /\ ((frames' = frames /\ ticks w' = ticks w)
      \/ exists f, frames' = (frames ++ [f])%list
                   /\ ticks w' = S (ticks w)
                   /\ empty f = false
                   /\ stamped_at (clock w (ticks w)) f).
Proof.
  rewrite month_body_unfold. cbv zeta.
  destruct (_load_parquet_from_url _ _) as [[df|e] w2] eqn:Hload; [|discriminate].
  apply load_effect in Hload as (Hclock & Hticks & Hfrom). simpl in Hclock, Hticks.
  destruct (empty df) eqn:He.
  { intros Heq. injection Heq as <- <-. auto. }
  destruct (_standardize_schema df taxi_type) as [df1|e] eqn:Hstd; [|discriminate].
  destruct (window_filter df1 start_date end_date) as [df2|e] eqn:Hfil; [|discriminate].
  destruct (empty df2) eqn:He2; intros Heq; injection Heq as <- <-; [auto|].
  split; [exact Hclock|]. right. eexists. split; [reflexivity|].
  simpl. rewrite Hticks, Hclock. split; [reflexivity|].
  assert (well_formed df) as Hwf.
  { destruct (Hfrom df eq_refl) as [-> | (content & Hread)].
    - discriminate He.
    - eapply read_parquet_well_formed. exact Hread. }
  destruct (standardize_normalized df df1 taxi_type Hwf He Hstd) as [Hn1 Hwf1].
  pose proof (window_filter_well_formed df1 df2 _ _ Hn1 Hwf1 Hfil) as Hwf2.
  split; [apply setitem_scalar_not_empty; exact He2|].
  split; [apply setitem_scalar_has_column|].
  apply setitem_scalar_stamped. exact Hwf2.
Qed.

Lemma month_body_stamps (clk : nat -> timestamp) (t0 : nat)
    (start_date end_date : date) (taxi_type : string)
    (frames : list DataFrame) (month_start : date) (w : world)
    (frames' : list DataFrame) (w' : world) :
  stamps_in_order clk t0 frames w ->
  month_body start_date end_date taxi_type frames month_start w = (Ok frames', w') ->
  stamps_in_order clk t0 frames' w'.
Proof.
  intros (Hclk & Hticks & Hframes) Hbody.
  apply month_body_effect in Hbody
    as (Hclock & [[-> Ht] | (f & -> & Ht & Hne & Hst)]).
  - split; [congruence|]. split; [congruence | exact Hframes].
  - split; [congruence|]. split; [rewrite length_app; simpl; lia|].
    intros k g Hk.
    destruct (Nat.lt_ge_cases k (length frames)) as [Hlt | Hge].
    + rewrite nth_error_app1 in Hk by exact Hlt. apply Hframes. exact Hk.
    + rewrite nth_error_app2 in Hk by exact Hge.
      destruct (k - length frames)%nat as [|j] eqn:Hj; [|destruct j; discriminate].
      injection Hk as <-.
      replace (t0 + k)%nat with (ticks w) by lia.
      rewrite <- Hclk. auto.
Qed.

Lemma collect_stamps (start_date end_date : date) (taxi_types : list string)
    (w : world) (frames : list DataFrame) (w' : world) :
  collect start_date end_date taxi_types w = (Ok frames, w') ->
  stamps_in_order (clock w) (ticks w) frames w'.
Proof.
  unfold collect. apply for_each_invariant.
  - intros acc taxi_type w1 acc' w1' HI. unfold type_body.
    apply for_gen_invariant; [|exact HI].
    intros acc2 month_start w2 acc2' w2'. apply month_body_stamps.
  - split; [reflexivity|]. split; [simpl; lia|].
    intros k f Hk. destruct k; discriminate.
Qed.

End AggregatorOk.

(** ** The claims on the Resource Fetcher and the Aggregator *)

(** C5: for every subtype and month-start, when the reply to the month's URL
    has a status other than 200, [_load_parquet_from_url] prints the
    skip line and returns the empty table without raising; the loop body of
    [materialize] then returns the accumulated tables as they were (the month
    contributes nothing), having printed the fetch line and the skip line,
    and the loop goes on with the months that are left. *)
Theorem not_ok_status_is_skipped `{L : Library} (taxi_type : string)
    (month_start : date) (w : world) (status_code : Z) (content : string) :
  server w (month_url taxi_type month_start) = Reply status_code content ->
  status_code <> 200 ->
  _load_parquet_from_url (month_url taxi_type month_start) w
  = (Ok empty_frame,
     printed (sent w [month_url taxi_type month_start])
       [skip_line (month_url taxi_type month_start) status_code])
  /\ rows empty_frame = []
  /\ forall (start_date end_date : date) (frames : list DataFrame),
       let w' := printed (sent (printed w [fetch_line (month_url taxi_type month_start)])
                            [month_url taxi_type month_start])
                   [skip_line (month_url taxi_type month_start) status_code] in
       month_body start_date end_date taxi_type frames month_start w = (Ok frames, w')
       /\ forall months,
            for_each (month_body start_date end_date taxi_type)
              (month_start :: months) frames w
            = for_each (month_body start_date end_date taxi_type) months frames w'.
Proof.
  intros Hreply Hstatus.
  assert (negb (status_code =? 200) = true) as Hneq
    by (apply negb_true_iff, Z.eqb_neq; exact Hstatus).
  split; [|split; [reflexivity|]].
  - rewrite load_unfold, Hreply, Hneq. reflexivity.
  - intros start_date end_date frames w'.
    assert (month_body start_date end_date taxi_type frames month_start w
            = (Ok frames, w')) as Hbody.
    { rewrite month_body_unfold. cbv zeta. rewrite load_unfold. simpl server.
      rewrite Hreply, Hneq. reflexivity. }
    split; [exact Hbody|].
    intros months. rewrite for_each_cons, Hbody. reflexivity.
Qed.

Lemma not_ok_status_is_skipped_witness :
  server (Sample.world_of ∅ Sample.bare_server) (month_url "yellow" (mkdate 2023 2 1))
  = Reply 404 ""
  /\ 404 <> 200
  /\ _load_parquet_from_url (month_url "yellow" (mkdate 2023 2 1))
       (Sample.world_of ∅ Sample.bare_server)
     = (Ok empty_frame,
        printed (sent (Sample.world_of ∅ Sample.bare_server)
                   [month_url "yellow" (mkdate 2023 2 1)])
          [skip_line (month_url "yellow" (mkdate 2023 2 1)) 404]).
Proof.
  assert (server (Sample.world_of ∅ Sample.bare_server)
            (month_url "yellow" (mkdate 2023 2 1)) = Reply 404 "") as Hreply
    by reflexivity.
  assert (404 <> 200) as Hstatus by lia.
  split; [exact Hreply | split; [exact Hstatus|]].
  exact (proj1 (not_ok_status_is_skipped "yellow" (mkdate 2023 2 1) _ 404 "" Hreply Hstatus)).
Defined.

Lemma materialize_configured `{L : Library} (w : world)
    (start_date_str end_date_str : string) (start_date end_date : date)
    (vars : option (list string)) :
  environ w !! "BRUIN_START_DATE" = Some start_date_str ->
  environ w !! "BRUIN_END_DATE" = Some end_date_str ->
  start_date_str <> "" -> end_date_str <> "" ->
  fromisoformat start_date_str = Some start_date ->
  fromisoformat end_date_str = Some end_date ->
  json_taxi_types (default "{}" (environ w !! "BRUIN_VARS")) = Ok vars ->
  materialize w
  = match collect start_date end_date (default ["yellow"] vars) w with
    | (Ok frames, w') => assemble frames w'
    | (Raise e, w') => (Raise e, w')
    end.
Proof.
  intros Hs He Hsne Hene Hds Hde Hvars.
  unfold materialize, _parse_date. unfold_M.
  rewrite Hs, He. simpl.
  rewrite !bool_decide_eq_false_2 by assumption. simpl.
  rewrite Hds, Hde. rewrite Hvars. reflexivity.
Qed.

(** C6: in a run of [materialize] that gets through its configuration, if
    the two loops end without a row in any accumulated table (no subtype and
    month contributed a row), the result is the table without rows whose
    columns are the eleven canonical ones in their order. *)
Theorem no_rows_gives_canonical_empty `{L : Library} {Lok : LibraryOk L} (w : world)
    (start_date_str end_date_str : string) (start_date end_date : date)
    (vars : option (list string)) (frames : list DataFrame) (w' : world) :
  environ w !! "BRUIN_START_DATE" = Some start_date_str ->
  environ w !! "BRUIN_END_DATE" = Some end_date_str ->
  start_date_str <> "" -> end_date_str <> "" ->
  fromisoformat start_date_str = Some start_date ->
  fromisoformat end_date_str = Some end_date ->
  json_taxi_types (default "{}" (environ w !! "BRUIN_VARS")) = Ok vars ->
  collect start_date end_date (default ["yellow"] vars) w = (Ok frames, w') ->
  Forall (fun f => rows f = []) frames ->
  materialize w
  = (Ok (mkdf [ "taxi_type"; "pickup_datetime"; "dropoff_datetime";
                "pickup_location_id"; "dropoff_location_id"; "passenger_count";
                "trip_distance"; "fare_amount"; "total_amount"; "payment_type";
                "extracted_at" ] []),
     w').
Proof.
  intros Hs He Hsne Hene Hds Hde Hvars Hcollect Hnone.
  rewrite (materialize_configured w _ _ _ _ _ Hs He Hsne Hene Hds Hde Hvars), Hcollect.
  apply collect_stamps in Hcollect as (_ & _ & Hframes).
  destruct frames as [|f frames]; [reflexivity|].
  exfalso. destruct (Hframes 0%nat f eq_refl) as [Hne _].
  inversion Hnone as [|? ? Hf _]; subst.
  unfold empty in Hne. rewrite Hf in Hne. destruct (columns f); discriminate.
Qed.

(** C8: when the start date or the end date is unset (or empty) in the
    environment, [materialize] raises [RuntimeError] and leaves the world as
    it was: no URL was requested and no line was printed. *)
Theorem missing_window_is_fatal `{L : Library} (w : world) :
  falsy (environ w !! "BRUIN_START_DATE") = true
  \/ falsy (environ w !! "BRUIN_END_DATE") = true ->
  materialize w = (Raise RuntimeError, w)
  /\ requested (snd (materialize w)) = requested w
  /\ stdout (snd (materialize w)) = stdout w.
Proof.
  intros Hmissing.
  assert (materialize w = (Raise RuntimeError, w)) as Hraise.
  { unfold materialize. unfold_M.
    assert (falsy (environ w !! "BRUIN_START_DATE")
            || falsy (environ w !! "BRUIN_END_DATE") = true) as ->
      by (apply orb_true_iff; exact Hmissing).
    reflexivity. }
  rewrite Hraise. auto.
Qed.

Lemma missing_window_is_fatal_witness :
  (falsy (environ (Sample.world_of (<["BRUIN_START_DATE" := "2023-01-01"]> ∅)
                     Sample.server) !! "BRUIN_START_DATE") = true
   \/ falsy (environ (Sample.world_of (<["BRUIN_START_DATE" := "2023-01-01"]> ∅)
                        Sample.server) !! "BRUIN_END_DATE") = true)
  /\ materialize (Sample.world_of (<["BRUIN_START_DATE" := "2023-01-01"]> ∅) Sample.server)
     = (Raise RuntimeError,
        Sample.world_of (<["BRUIN_START_DATE" := "2023-01-01"]> ∅) Sample.server).
Proof.
  assert (falsy (environ (Sample.world_of (<["BRUIN_START_DATE" := "2023-01-01"]> ∅)
                            Sample.server) !! "BRUIN_START_DATE") = true
          \/ falsy (environ (Sample.world_of (<["BRUIN_START_DATE" := "2023-01-01"]> ∅)
                               Sample.server) !! "BRUIN_END_DATE") = true) as Hmissing
    by (right; reflexivity).
  split; [exact Hmissing|].
  exact (proj1 (missing_window_is_fatal _ Hmissing)).
Defined.

Lemma new_valid (y m d : Z) (x : date) : Date.new y m d = Some x -> valid x.
Proof.
  unfold Date.new, valid. destruct (check_date_fields y m d) eqn:Hc; [|discriminate].
  intros Heq. injection Heq as <-. exact Hc.
Qed.

Lemma iso_date_valid (s : string) (d : date) : Sample.iso_date s = Some d -> valid d.
Proof.
  unfold Sample.iso_date.
  destruct (list_ascii_of_string s) as [|y1 [|y2 [|y3 [|y4 [|s1 [|m1 [|m2 [|s2 [|d1 [|d2 [|x l]]]]]]]]]]];
    try discriminate.
  destruct (_ && _); [|discriminate].
  destruct (Sample.number [y1; y2; y3; y4]) as [y|]; [|discriminate].
  destruct (Sample.number [m1; m2]) as [m|]; [|discriminate].
  destruct (Sample.number [d1; d2]) as [dd|]; [|discriminate].
  apply new_valid.
Qed.

Lemma sample_parquet_well_formed (s : string) (df : DataFrame) :
  Sample.parquet s = Ok df -> well_formed df.
Proof.
  unfold Sample.parquet.
  destruct (String.eqb s "yellow-2023-01"); [intros Heq; injection Heq as <-; repeat constructor|].
  destruct (String.eqb s "yellow-2023-02"); [intros Heq; injection Heq as <-; repeat constructor|].
  discriminate.
Qed.

#[global] Instance sample_library_ok : LibraryOk Sample.library.
Proof.
  split; [exact iso_date_valid | exact sample_parquet_well_formed].
Defined.

Lemma no_rows_gives_canonical_empty_witness :
  materialize (Sample.world_of (Sample.window_env "2023-01-01" "2023-03-01")
                 Sample.bare_server)
  = (Ok (mkdf [ "taxi_type"; "pickup_datetime"; "dropoff_datetime";
                "pickup_location_id"; "dropoff_location_id"; "passenger_count";
                "trip_distance"; "fare_amount"; "total_amount"; "payment_type";
                "extracted_at" ] []),
     snd (collect (mkdate 2023 1 1) (mkdate 2023 3 1) ["yellow"]
            (Sample.world_of (Sample.window_env "2023-01-01" "2023-03-01")
               Sample.bare_server))).
Proof.
  refine (no_rows_gives_canonical_empty
            (Sample.world_of (Sample.window_env "2023-01-01" "2023-03-01")
               Sample.bare_server)
            "2023-01-01" "2023-03-01" (mkdate 2023 1 1) (mkdate 2023 3 1) None [] _
            _ _ _ _ _ _ _ _ _);
    try reflexivity; try discriminate.
  constructor.
Defined.

(** C7, as the code has it: a table is stamped inside the loop, when it is
    appended. The clock is read once for each accumulated table and not
    after the loops; all rows of the k-th accumulated table carry the k-th
    reading of the run under [extracted_at], so rows of one (subtype, month)
    share a value and rows of different ones need not. *)
Theorem rows_stamped_when_appended `{L : Library} {Lok : LibraryOk L}
    (start_date end_date : date) (taxi_types : list string)
    (w : world) (frames : list DataFrame) (w' : world) :
  collect start_date end_date taxi_types w = (Ok frames, w') ->
  ticks w' = (ticks w + length frames)%nat
  /\ (forall k f, nth_error frames k = Some f ->
                  stamped_at (clock w (ticks w + k)%nat) f)
  /\ snd (assemble frames w') = w'.
Proof.
  intros Hcollect.
  apply collect_stamps in Hcollect as (_ & Hticks & Hframes).
  split; [exact Hticks|]. split.
  - intros k f Hk. apply (Hframes k f Hk).
  - destruct frames; reflexivity.
Qed.

Lemma rows_stamped_when_appended_witness :
  collect (mkdate 2023 1 1) (mkdate 2023 3 1) ["yellow"] (Sample.world_of ∅ Sample.server)
  = (Ok [Sample.january_stamped; Sample.february_stamped],
     snd (collect (mkdate 2023 1 1) (mkdate 2023 3 1) ["yellow"]
            (Sample.world_of ∅ Sample.server)))
  /\ ticks (snd (collect (mkdate 2023 1 1) (mkdate 2023 3 1) ["yellow"]
                   (Sample.world_of ∅ Sample.server))) = 2%nat
  /\ stamped_at (Sample.clock 1) Sample.february_stamped.
Proof.
  assert (fst (collect (mkdate 2023 1 1) (mkdate 2023 3 1) ["yellow"]
                 (Sample.world_of ∅ Sample.server))
          = Ok [Sample.january_stamped; Sample.february_stamped])
    as Hfst by (vm_compute; reflexivity).
  assert (collect (mkdate 2023 1 1) (mkdate 2023 3 1) ["yellow"]
            (Sample.world_of ∅ Sample.server)
          = (Ok [Sample.january_stamped; Sample.february_stamped],
             snd (collect (mkdate 2023 1 1) (mkdate 2023 3 1) ["yellow"]
                    (Sample.world_of ∅ Sample.server))))
    as Hcollect by (rewrite <- Hfst; apply surjective_pairing).
  split; [exact Hcollect|].
  pose proof (rows_stamped_when_appended _ _ _ _ _ _ Hcollect) as (Hticks & Hframes & _).
  split; [exact Hticks|].
  exact (Hframes 1%nat Sample.february_stamped eq_refl).
Defined.

(** C7 as stated fails: in a run over January and February 2023 in which both
    months have rows, the rows of January carry the first reading of the
    clock and the row of February the second, so the rows of the output do
    not share one timestamp. *)
Lemma stamps_differ_between_months :
  fst (materialize (Sample.world_of (Sample.window_env "2023-01-01" "2023-03-01")
                      Sample.server))
  = Ok Sample.two_months
  /\ ~ exists now, forall r, In r (rows Sample.two_months) ->
                             lookup_cell Sample.two_months r "extracted_at"
                             = VTimestamp now.
Proof.
  split; [vm_compute; reflexivity|].
  intros (now & Hall).
  pose proof (Hall (nth 0 (rows Sample.two_months) (mkrow 0 []))
                (or_introl eq_refl)) as H0.
  pose proof (Hall (nth 2 (rows Sample.two_months) (mkrow 0 []))
                (or_intror (or_intror (or_introl eq_refl)))) as H2.
  vm_compute in H0, H2. congruence.
Qed.

(** In a run of [materialize] the generator of the months is never cut off:
    the dates it is started with come from [fromisoformat]. *)
Lemma materialize_months_finish `{L : Library} {Lok : LibraryOk L}
    (start_date_str end_date_str : string) (start_date end_date : date) :
  fromisoformat start_date_str = Some start_date ->
  fromisoformat end_date_str = Some end_date ->
  finished (_month_starts start_date end_date) <> Unfinished.
Proof.
  intros Hs He. apply month_starts_finishes; eapply fromisoformat_valid; eassumption.
Qed.

(** ** The scenarios of the specification, run *)

(** Scenario A: the window from 2023-01-01 to 2023-03-01 with the default
    subtype: two fetches are attempted, for January and for February. *)
Example scenario_two_fetches :
  requested (snd (materialize
                    (Sample.world_of (Sample.window_env "2023-01-01" "2023-03-01")
                       Sample.bare_server)))
  = [ month_url "yellow" (mkdate 2023 1 1); month_url "yellow" (mkdate 2023 2 1) ].
Proof. vm_compute. reflexivity. Qed.

(** Scenario B: the file of February is answered with 404: the run returns
    the rows of the January file, and the skip line is printed. *)
Example scenario_missing_month :
  fst (materialize (Sample.world_of (Sample.window_env "2023-01-01" "2023-03-01")
                      Sample.january_server))
  = Ok Sample.january_only
  /\ stdout (snd (materialize
                    (Sample.world_of (Sample.window_env "2023-01-01" "2023-03-01")
                       Sample.january_server)))
     = [ fetch_line (month_url "yellow" (mkdate 2023 1 1));
         fetch_line (month_url "yellow" (mkdate 2023 2 1));
         skip_line (month_url "yellow" (mkdate 2023 2 1)) 404 ].
Proof. split; vm_compute; reflexivity. Qed.

(** Scenario C: [tpep_pickup_datetime] and [PULocationID] become
    [pickup_datetime] and [pickup_location_id]. *)
Example scenario_renamed_columns :
  _standardize_schema Sample.yellow_january "yellow"
  = Ok Sample.yellow_january_normalized.
Proof. reflexivity. Qed.

(** Scenario E: a window inside one month with two subtypes: one fetch for
    each subtype. *)
Example scenario_two_subtypes :
  requested (snd (materialize
                    (Sample.world_of
                       (<["BRUIN_VARS" := Sample.two_types]>
                          (Sample.window_env "2023-01-10" "2023-01-20"))
                       Sample.bare_server)))
  = [ month_url "yellow" (mkdate 2023 1 1); month_url "green" (mkdate 2023 1 1) ].
Proof. vm_compute. reflexivity. Qed.

(** * Further properties of the asset *)

(** ** The Window Enumerator *)

(** How many months a finished run yields from a state. *)
Lemma month_starts_run_length (end_ : date) fuel : forall s,
  valid end_ -> ms_ok s ->
  finished (month_starts_run fuel end_ s) <> Unfinished ->
  length (yielded (month_starts_run fuel end_ s))
  = Z.to_nat (month_index (year end_) (month end_) - ms_index s
              + (if day end_ =? 1 then 0 else 1)).
Proof.
  induction fuel as [|fuel IH]; intros s He Hs Hfin; simpl in *; [congruence|].
  pose proof (valid_bounds _ He) as Hb.
  assert (0 <= (if day end_ =? 1 then 0 else 1) <= 1) as Hd
    by (destruct (day end_ =? 1); lia).
  destruct (month_starts_step_cases end_ s Hs)
    as [[Hy Hst] | [(Hv & Hle & Hst) | (Hv & Hlt & s' & Hst & Hs' & _ & Hidx)]];
    rewrite Hst in *; simpl in *.
  - unfold ms_index, month_index, ms_ok in *. lia.
  - unfold ms_index, month_index, ms_ok, ms_date, Date.le, Date.lt in *. simpl in *.
    destruct (day end_ =? 1) eqn:E; [|apply Z.eqb_neq in E]; lia.
  - rewrite (IH s' He Hs' Hfin), Hidx.
    unfold ms_index, month_index, ms_ok, ms_date, Date.lt in *. simpl in *.
    destruct (day end_ =? 1) eqn:E; [apply Z.eqb_eq in E | apply Z.eqb_neq in E]; lia.
Qed.

(** X1: for dates [start < end_], [_month_starts] yields the first day of
    exactly the months that overlap the window: a month-start is yielded if
    and only if some day [d] of its month has [start <= d < end_]. *)
Theorem month_starts_overlap (start end_ : date) :
  valid start -> valid end_ -> Date.lt start end_ ->
  forall m, In m (yielded (_month_starts start end_))
            <-> is_month_start m
                /\ exists d, valid d /\ first_of_month d = m
                             /\ Date.le start d /\ Date.lt d end_.
Proof.
  intros Hs He Hlt m.
  pose proof (valid_bounds _ Hs) as Hbs.
  unfold _month_starts.
  rewrite month_starts_run_elements
    by (auto using start_state_ok; apply month_starts_run_finishes;
        auto using start_state_ok).
  unfold ms_date. simpl. split.
  - intros (Hm & Hle & Hlt'). split; [exact Hm|].
    destruct Hm as [Hv Hday].
    destruct (Date.eqb (mkdate (year start) (month start) 1) m) eqn:E.
    + unfold Date.eqb in E. cbn [year month day] in E.
      rewrite !andb_true_iff, !Z.eqb_eq in E.
      exists start. repeat split; auto.
      * unfold first_of_month. destruct m; simpl in *. f_equal; lia.
      * unfold Date.le. tauto.
    + apply not_true_iff_false in E. unfold Date.eqb in E.
      cbn [year month day] in E.
      rewrite !andb_true_iff, !Z.eqb_eq in E.
      exists m. repeat split; auto.
      * unfold first_of_month. destruct m; simpl in *. f_equal; lia.
      * unfold Date.le, Date.lt in *. simpl in *. lia.
  - intros (Hm & d & Hd & <- & Hle & Hlt'). split; [exact Hm|].
    pose proof (valid_bounds _ Hd) as Hbd.
    unfold first_of_month, Date.le, Date.lt in *. simpl in *. lia.
Qed.

Lemma month_starts_overlap_witness :
  valid (mkdate 2023 1 20) /\ valid (mkdate 2023 3 10)
  /\ Date.lt (mkdate 2023 1 20) (mkdate 2023 3 10)
  /\ (In (mkdate 2023 3 1) (yielded (_month_starts (mkdate 2023 1 20) (mkdate 2023 3 10)))
      <-> is_month_start (mkdate 2023 3 1)
          /\ exists d, valid d /\ first_of_month d = mkdate 2023 3 1
                       /\ Date.le (mkdate 2023 1 20) d /\ Date.lt d (mkdate 2023 3 10)).
Proof.
  assert (valid (mkdate 2023 1 20)) as Hs by reflexivity.
  assert (valid (mkdate 2023 3 10)) as He by reflexivity.
  assert (Date.lt (mkdate 2023 1 20) (mkdate 2023 3 10)) as Hlt
    by (unfold Date.lt; simpl; lia).
  split; [exact Hs | split; [exact He | split; [exact Hlt |]]].
  exact (month_starts_overlap _ _ Hs He Hlt (mkdate 2023 3 1)).
Defined.

(** X2: for all dates, in either order, the number of months
    [_month_starts] yields is the distance in months from the month of
    [start] to the month of [end_], plus one when [end_] is not a first of
    the month, and zero when that is negative. *)
Theorem month_starts_count (start end_ : date) :
  valid start -> valid end_ ->
  length (yielded (_month_starts start end_))
  = Z.to_nat (month_index (year end_) (month end_)
              - month_index (year start) (month start)
              + (if day end_ =? 1 then 0 else 1)).
Proof.
  intros Hs He. unfold _month_starts.
  rewrite month_starts_run_length
    by (auto using start_state_ok; apply month_starts_run_finishes;
        auto using start_state_ok).
  reflexivity.
Qed.

Lemma month_starts_count_witness :
  valid (mkdate 2022 11 15) /\ valid (mkdate 2023 3 10)
  /\ length (yielded (_month_starts (mkdate 2022 11 15) (mkdate 2023 3 10))) = 5%nat.
Proof.
  assert (valid (mkdate 2022 11 15)) as Hs by reflexivity.
  assert (valid (mkdate 2023 3 10)) as He by reflexivity.
  split; [exact Hs | split; [exact He |]].
  exact (month_starts_count _ _ Hs He).
Defined.

Lemma month_starts_length_one (start end_ : date) :
  valid start -> valid end_ -> Date.lt start end_ ->
  year start = year end_ -> month start = month end_ ->
  length (yielded (_month_starts start end_)) = 1%nat.
Proof.
  intros Hs He Hlt Hy Hm.
  pose proof (valid_bounds _ Hs) as Hbs.
  unfold _month_starts.
  rewrite month_starts_run_length
    by (auto using start_state_ok; apply month_starts_run_finishes;
        auto using start_state_ok).
  unfold ms_index. simpl. rewrite Hy, Hm.
  unfold Date.lt in Hlt.
  destruct (day end_ =? 1) eqn:E; [apply Z.eqb_eq in E; lia | lia].
Qed.

(** A run that yields one month yields the candidate of its first state. *)
Lemma month_starts_one_yield (start end_ : date) :
  length (yielded (_month_starts start end_)) = 1%nat ->
  yielded (_month_starts start end_) = [first_of_month start].
Proof.
  unfold _month_starts. intros Hlen.
  pose proof (month_starts_run_head end_
                (month_starts_fuel end_ (mkms (year start) (month start)))
                (mkms (year start) (month start))) as Hhead.
  destruct (yielded _) as [|d [|d' l]]; simpl in Hlen; try lia.
  rewrite Hhead. reflexivity.
Qed.

(** X3: a window that lies inside one month, [start < end_] with the same
    year and month, yields that month's first day and nothing else. *)
Theorem month_starts_single_month (start end_ : date) :
  valid start -> valid end_ -> Date.lt start end_ ->
  year start = year end_ -> month start = month end_ ->
  yielded (_month_starts start end_) = [first_of_month start].
Proof.
  intros Hs He Hlt Hy Hm.
  apply month_starts_one_yield.
  apply month_starts_length_one; assumption.
Qed.

Lemma month_starts_single_month_witness :
  valid (mkdate 2023 1 10) /\ valid (mkdate 2023 1 20)
  /\ Date.lt (mkdate 2023 1 10) (mkdate 2023 1 20)
  /\ yielded (_month_starts (mkdate 2023 1 10) (mkdate 2023 1 20))
     = [first_of_month (mkdate 2023 1 10)].
Proof.
  assert (valid (mkdate 2023 1 10)) as Hs by reflexivity.
  assert (valid (mkdate 2023 1 20)) as He by reflexivity.
  assert (Date.lt (mkdate 2023 1 10) (mkdate 2023 1 20)) as Hlt
    by (unfold Date.lt; simpl; lia).
  split; [exact Hs | split; [exact He | split; [exact Hlt |]]].
  exact (month_starts_single_month _ _ Hs He Hlt eq_refl eq_refl).
Defined.

(** A [for] loop over a generator completes only when the generator is
    exhausted. *)
Lemma for_gen_completes {A B : Type} (body : B -> A -> M B) (g : gen_run A)
    (acc acc' : B) (w w' : world) :
  for_gen body g acc w = (Ok acc', w') ->
  finished g = Exhausted /\ for_each body (yielded g) acc w = (Ok acc', w').
Proof.
  unfold for_gen. unfold_M.
  destruct (for_each body (yielded g) acc w) as [[acc1|e] w1]; [|discriminate].
  destruct (finished g); intros Heq; try discriminate.
  injection Heq as <- <-. auto.
Qed.

(** X4: for all dates the generator ends by the [ValueError] of
    [date(10000, 1, 1)] exactly when [end_] is after 9999-12-01, and by its
    [break] otherwise; so with such an [end_] the loop over the months of a
    subtype never completes, whatever the fetches return. *)
Theorem month_starts_overflow `{L : Library} (start end_ : date) :
  valid start -> valid end_ ->
  (finished (_month_starts start end_) = Raised ValueError
   <-> Date.lt (mkdate 9999 12 1) end_)
  /\ (finished (_month_starts start end_) = Exhausted
      <-> Date.le end_ (mkdate 9999 12 1))
  /\ (Date.lt (mkdate 9999 12 1) end_ ->
      forall taxi_type frames w frames' w',
        type_body start end_ frames taxi_type w <> (Ok frames', w')).
Proof.
  intros Hs He.
  assert (Date.lt (mkdate 9999 12 1) end_ \/ Date.le end_ (mkdate 9999 12 1)) as Hcases
    by (unfold Date.le, Date.lt; cbn [year month day]; lia).
  assert (Date.lt (mkdate 9999 12 1) end_ -> Date.le end_ (mkdate 9999 12 1) -> False)
    as Hexcl by (unfold Date.le, Date.lt; cbn [year month day]; lia).
  pose proof (month_starts_raised start end_ Hs He) as Hr.
  pose proof (month_starts_exhausted start end_ Hs He) as Hx.
  split; [|split].
  - split; [|exact Hr]. intros Hfin.
    destruct Hcases as [|Hle]; [assumption|]. rewrite (Hx Hle) in Hfin. discriminate.
  - split; [|exact Hx]. intros Hfin.
    destruct Hcases as [Hlt|]; [|assumption]. rewrite (Hr Hlt) in Hfin. discriminate.
  - intros Hlt taxi_type frames w frames' w' Hrun. unfold type_body in Hrun.
    apply for_gen_completes in Hrun as [Hfin _].
    rewrite (Hr Hlt) in Hfin. discriminate.
Qed.

Lemma month_starts_overflow_witness :
  valid (mkdate 9999 11 15) /\ valid (mkdate 9999 12 31)
  /\ (finished (_month_starts (mkdate 9999 11 15) (mkdate 9999 12 31)) = Raised ValueError
      <-> Date.lt (mkdate 9999 12 1) (mkdate 9999 12 31)).
Proof.
  assert (valid (mkdate 9999 11 15)) as Hs by reflexivity.
  assert (valid (mkdate 9999 12 31)) as He by reflexivity.
  split; [exact Hs | split; [exact He |]].
  exact (proj1 (@month_starts_overflow Sample.library _ _ Hs He)).
Defined.

(** ** The URL of a month *)

Lemma append_inj_l (p a b : string) : p ++ a = p ++ b -> a = b.
Proof.
  induction p as [|c p IH]; simpl; [auto|].
  intros Heq. injection Heq as Heq. auto.
Qed.

Lemma split_at_dash (s1 : string) : forall s2 r1 r2,
  no_dash s1 -> no_dash s2 ->
  s1 ++ String "-" r1 = s2 ++ String "-" r2 ->
  s1 = s2 /\ r1 = r2.
Proof.
  induction s1 as [|a s1 IH]; intros [|b s2] r1 r2 H1 H2 Heq; simpl in *.
  - injection Heq as ->. auto.
  - injection Heq as <- _. destruct H2 as [H2 _]. contradiction.
  - injection Heq as -> _. destruct H1 as [H1 _]. contradiction.
  - injection Heq as -> Heq. destruct H1 as [_ H1]. destruct H2 as [_ H2].
    destruct (IH s2 r1 r2 H1 H2 Heq) as [-> ->]. auto.
Qed.

Lemma string_of_uint_no_dash (d : Decimal.uint) : no_dash (NilEmpty.string_of_uint d).
Proof. induction d; simpl; auto; split; auto; discriminate. Qed.

Lemma str_of_int_no_dash (n : Z) : 0 <= n -> no_dash (str_of_int n).
Proof.
  intros Hn. unfold str_of_int. destruct n as [|p|p]; [| |lia].
  - simpl. split; [discriminate | exact I].
  - simpl. unfold NilZero.string_of_uint.
    destruct (Pos.to_uint p); try apply string_of_uint_no_dash.
    simpl. split; [discriminate | exact I].
Qed.

(** [str] of an integer can be read back. *)
Lemma str_of_int_inj (a b : Z) : str_of_int a = str_of_int b -> a = b.
Proof.
  unfold str_of_int. intros Heq.
  assert (forall z, NilZero.int_of_string (NilZero.string_of_int (Z.to_int z))
                    = Some (Z.to_int z)) as Hback.
  { intros z. apply NilZero.isi; destruct z as [|p|p]; simpl; try discriminate;
      intros Hnil; injection Hnil as Hnil;
      exact (Unsigned.to_uint_nonnil p Hnil). }
  apply DecimalZ.to_int_inj.
  pose proof (Hback a) as Ha. rewrite Heq, Hback in Ha. congruence.
Qed.

Lemma format_02d_month (m : Z) :
  1 <= m <= 12 ->
  exists a b, format_02d m = String a (String b EmptyString).
Proof.
  intros Hm.
  assert (m = 1 \/ m = 2 \/ m = 3 \/ m = 4 \/ m = 5 \/ m = 6 \/ m = 7 \/ m = 8
          \/ m = 9 \/ m = 10 \/ m = 11 \/ m = 12) as Hcases by lia.
  repeat (destruct Hcases as [-> | Hcases]; [do 2 eexists; reflexivity|]).
  subst m. do 2 eexists. reflexivity.
Qed.

Lemma format_02d_inj (m1 m2 : Z) :
  1 <= m1 <= 12 -> 1 <= m2 <= 12 ->
  format_02d m1 = format_02d m2 -> m1 = m2.
Proof.
  intros H1 H2.
  assert (m1 = 1 \/ m1 = 2 \/ m1 = 3 \/ m1 = 4 \/ m1 = 5 \/ m1 = 6 \/ m1 = 7 \/ m1 = 8
          \/ m1 = 9 \/ m1 = 10 \/ m1 = 11 \/ m1 = 12) as C1 by lia.
  assert (m2 = 1 \/ m2 = 2 \/ m2 = 3 \/ m2 = 4 \/ m2 = 5 \/ m2 = 6 \/ m2 = 7 \/ m2 = 8
          \/ m2 = 9 \/ m2 = 10 \/ m2 = 11 \/ m2 = 12) as C2 by lia.
  repeat (destruct C1 as [-> | C1]);
    repeat (destruct C2 as [-> | C2]);
    subst; vm_compute; first [reflexivity | discriminate].
Qed.

(** X5: for one subtype, the URLs of two dates agree only when the dates lie
    in the same month of the same year: distinct months are fetched from
    distinct URLs. The month is written with two digits. *)
Theorem month_url_injective (taxi_type : string) (d1 d2 : date) :
  valid d1 -> valid d2 ->
  month_url taxi_type d1 = month_url taxi_type d2 ->
  year d1 = year d2 /\ month d1 = month d2.
Proof.
  intros H1 H2 Heq.
  pose proof (valid_bounds _ H1) as B1. pose proof (valid_bounds _ H2) as B2.
  unfold month_url in Heq.
  do 4 apply append_inj_l in Heq.
  change ("-" ++ ?x) with (String "-" x) in Heq.
  apply split_at_dash in Heq as [Hy Hm];
    [| apply str_of_int_no_dash; lia | apply str_of_int_no_dash; lia].
  split; [apply str_of_int_inj; exact Hy|].
  destruct (format_02d_month (month d1)) as (a1 & b1 & E1); [lia|].
  destruct (format_02d_month (month d2)) as (a2 & b2 & E2); [lia|].
  apply format_02d_inj; [lia | lia |].
  rewrite E1, E2 in *. simpl in Hm. injection Hm as -> ->. reflexivity.
Qed.

Lemma month_url_injective_witness :
  valid (mkdate 2023 2 1) /\ valid (mkdate 2023 2 17)
  /\ month_url "green" (mkdate 2023 2 1) = month_url "green" (mkdate 2023 2 17)
  /\ year (mkdate 2023 2 1) = year (mkdate 2023 2 17)
  /\ month (mkdate 2023 2 1) = month (mkdate 2023 2 17).
Proof.
  assert (valid (mkdate 2023 2 1)) as H1 by reflexivity.
  assert (valid (mkdate 2023 2 17)) as H2 by reflexivity.
  assert (month_url "green" (mkdate 2023 2 1) = month_url "green" (mkdate 2023 2 17))
    as Heq by reflexivity.
  split; [exact H1 | split; [exact H2 | split; [exact Heq |]]].
  exact (month_url_injective "green" _ _ H1 H2 Heq).
Defined.

(** ** What a run requests and prints *)

Section Trace.

Context `{L : Library}.

(** One turn of the inner loop, however it ends: one request, for the URL of
    the month, and the lines of [month_log]. *)
Lemma month_body_trace (start_date end_date : date) (taxi_type : string)
    (frames : list DataFrame) (month_start : date) (w w' : world)
    (r : result (list DataFrame)) :
  month_body start_date end_date taxi_type frames month_start w = (r, w') ->
  server w' = server w
  /\ environ w' = environ w
  /\ requested w' = (requested w ++ [month_url taxi_type month_start])%list
  /\ stdout w' = (stdout w ++ month_log (server w) (month_url taxi_type month_start))%list.
Proof.
  rewrite month_body_unfold. cbv zeta. rewrite load_unfold. simpl server.
  unfold month_log.
  destruct (server w (month_url taxi_type month_start)) as [e | status_code content].
  - intros Heq. injection Heq as <- <-. simpl. auto.
  - destruct (negb (status_code =? 200)).
    + simpl. intros Heq. injection Heq as <- <-. simpl.
      rewrite <- app_assoc. auto.
    + destruct (read_parquet content) as [df|e]; [|intros Heq; injection Heq as <- <-; simpl; auto].
      destruct (empty df); [intros Heq; injection Heq as <- <-; simpl; auto|].
      destruct (_standardize_schema df taxi_type) as [df1|e];
        [|intros Heq; injection Heq as <- <-; simpl; auto].
      destruct (window_filter df1 start_date end_date) as [df2|e];
        [|intros Heq; injection Heq as <- <-; simpl; auto].
      destruct (empty df2); intros Heq; injection Heq as <- <-; simpl; auto.
Qed.

(** The inner loop over a list of months: the months it got to are a prefix
    of the list, all of it when the loop completes. *)
Lemma months_trace (start_date end_date : date) (taxi_type : string)
    (months : list date) : forall (frames : list DataFrame) (w w' : world)
    (r : result (list DataFrame)),
  for_each (month_body start_date end_date taxi_type) months frames w = (r, w') ->
  server w' = server w
  /\ exists done rest,
       months = (done ++ rest)%list
       /\ requested w' = (requested w ++ List.map (month_url taxi_type) done)%list
       /\ stdout w'
          = (stdout w
             ++ flat_map (month_log (server w)) (List.map (month_url taxi_type) done))%list
       /\ forall frames', r = Ok frames' -> rest = [].
Proof.
  induction months as [|m months IH]; intros frames w w' r Hrun.
  - injection Hrun as <- <-. split; [reflexivity|].
    exists [], []. simpl. rewrite !app_nil_r. auto.
  - rewrite for_each_cons in Hrun.
    destruct (month_body start_date end_date taxi_type frames m w)
      as [[frames1|e] w1] eqn:Hbody;
      apply month_body_trace in Hbody as (Hsrv & _ & Hreq & Hout).
    + apply IH in Hrun as (Hsrv' & done & rest & -> & Hreq' & Hout' & Hok).
      split; [congruence|].
      exists (m :: done), rest. simpl.
      rewrite Hreq', Hout', Hreq, Hout, Hsrv, <- !app_assoc. auto.
    + injection Hrun as <- <-. split; [exact Hsrv|].
      exists [m], months. simpl. rewrite app_nil_r.
      repeat split; auto. discriminate.
Qed.

Lemma type_body_trace (start_date end_date : date) (taxi_type : string)
    (frames : list DataFrame) (w w' : world) (r : result (list DataFrame)) :
  type_body start_date end_date frames taxi_type w = (r, w') ->
  server w' = server w
  /\ exists done rest,
       List.map (month_url taxi_type) (yielded (_month_starts start_date end_date))
       = (done ++ rest)%list
       /\ requested w' = (requested w ++ done)%list
       /\ stdout w' = (stdout w ++ flat_map (month_log (server w)) done)%list
       /\ forall frames', r = Ok frames' -> rest = [].
Proof.
  unfold type_body, for_gen. unfold_M.
  destruct (for_each _ _ frames w) as [[frames1|e] w1] eqn:Hrun;
    apply months_trace in Hrun as (Hsrv & done & rest & Hsplit & Hreq & Hout & Hok).
  - specialize (Hok frames1 eq_refl). subst rest.
    destruct (finished _); intros Heq; injection Heq as <- <-;
      (split; [exact Hsrv|]);
      exists (List.map (month_url taxi_type) done), [];
      rewrite Hsplit, !app_nil_r; auto.
  - intros Heq. injection Heq as <- <-. split; [exact Hsrv|].
    exists (List.map (month_url taxi_type) done), (List.map (month_url taxi_type) rest).
    rewrite Hsplit, map_app. repeat split; auto. discriminate.
Qed.

Lemma collect_trace (start_date end_date : date) (taxi_types : list string) :
  forall (frames : list DataFrame) (w w' : world) (r : result (list DataFrame)),
  for_each (type_body start_date end_date) taxi_types frames w = (r, w') ->
  server w' = server w
  /\ exists done rest,
       planned_urls start_date end_date taxi_types = (done ++ rest)%list
       /\ requested w' = (requested w ++ done)%list
       /\ stdout w' = (stdout w ++ flat_map (month_log (server w)) done)%list
       /\ forall frames', r = Ok frames' -> rest = [].
Proof.
  induction taxi_types as [|t types IH]; intros frames w w' r Hrun.
  - injection Hrun as <- <-. split; [reflexivity|].
    exists [], []. simpl. rewrite !app_nil_r. auto.
  - rewrite for_each_cons in Hrun. unfold planned_urls. simpl.
    fold (planned_urls start_date end_date types).
    destruct (type_body start_date end_date frames t w) as [[frames1|e] w1] eqn:Hbody;
      apply type_body_trace in Hbody as (Hsrv & done & rest & Hsplit & Hreq & Hout & Hok).
    + specialize (Hok frames1 eq_refl). subst rest. rewrite app_nil_r in Hsplit.
      apply IH in Hrun as (Hsrv' & done' & rest' & Hsplit' & Hreq' & Hout' & Hok').
      split; [congruence|].
      exists (done ++ done')%list, rest'.
      rewrite Hsplit, Hsplit', Hreq', Hout', Hreq, Hout, Hsrv, flat_map_app,
        <- !app_assoc. auto.
    + injection Hrun as <- <-. split; [exact Hsrv|].
      exists done, (rest ++ planned_urls start_date end_date types)%list.
      rewrite Hsplit, <- app_assoc. repeat split; auto. discriminate.
Qed.

End Trace.

(** X6: however the two loops of [materialize] end, the URLs they requested
    are a prefix of the planned ones (subtype by subtype, the months of the
    window in their order), and what they printed is, for each requested
    URL in turn, its fetch line, followed by its skip line when the reply
    was not 200; when the loops complete, the whole plan was requested. *)
Theorem run_requests_the_plan `{L : Library} (start_date end_date : date)
    (taxi_types : list string) (w w' : world) (r : result (list DataFrame)) :
  collect start_date end_date taxi_types w = (r, w') ->
  exists done rest,
    planned_urls start_date end_date taxi_types = (done ++ rest)%list
    /\ requested w' = (requested w ++ done)%list
    /\ stdout w' = (stdout w ++ flat_map (month_log (server w)) done)%list
    /\ forall frames, r = Ok frames -> rest = [].
Proof.
  unfold collect. intros Hrun. apply collect_trace in Hrun as [_ H]. exact H.
Qed.

Lemma run_requests_the_plan_witness :
  exists done rest,
    planned_urls (mkdate 2023 1 1) (mkdate 2023 3 1) ["yellow"] = (done ++ rest)%list
    /\ requested (snd (collect (mkdate 2023 1 1) (mkdate 2023 3 1) ["yellow"]
                         (Sample.world_of ∅ Sample.january_server)))
       = (requested (Sample.world_of ∅ Sample.january_server) ++ done)%list
    /\ stdout (snd (collect (mkdate 2023 1 1) (mkdate 2023 3 1) ["yellow"]
                      (Sample.world_of ∅ Sample.january_server)))
       = (stdout (Sample.world_of ∅ Sample.january_server)
          ++ flat_map (month_log (server (Sample.world_of ∅ Sample.january_server))) done)%list
    /\ forall frames,
         fst (collect (mkdate 2023 1 1) (mkdate 2023 3 1) ["yellow"]
                (Sample.world_of ∅ Sample.january_server)) = Ok frames ->
         rest = [].
Proof.
  exact (run_requests_the_plan (mkdate 2023 1 1) (mkdate 2023 3 1) ["yellow"]
           (Sample.world_of ∅ Sample.january_server) _ _
           (surjective_pairing _)).
Defined.

(** X7: when the request for a month gets no reply (the call raises), or the
    reply is a 200 whose body cannot be read as a table, the exception
    leaves the loop body after the fetch line and the request, nothing is
    skipped, and the loop raises it without going on to the months that are
    left. *)
Theorem failed_fetch_is_fatal `{L : Library} (start_date end_date : date)
    (taxi_type : string) (frames : list DataFrame) (month_start : date)
    (months : list date) (w : world) (e : exn) :
  server w (month_url taxi_type month_start) = NoReply e
  \/ (exists content,
        server w (month_url taxi_type month_start) = Reply 200 content
        /\ read_parquet content = Raise e) ->
  month_body start_date end_date taxi_type frames month_start w
  = (Raise e,
     sent (printed w [fetch_line (month_url taxi_type month_start)])
       [month_url taxi_type month_start])
  /\ for_each (month_body start_date end_date taxi_type) (month_start :: months) frames w
     = (Raise e,
        sent (printed w [fetch_line (month_url taxi_type month_start)])
          [month_url taxi_type month_start]).
Proof.
  intros Hfail.
  assert (month_body start_date end_date taxi_type frames month_start w
          = (Raise e,
             sent (printed w [fetch_line (month_url taxi_type month_start)])
               [month_url taxi_type month_start])) as Hbody.
  { rewrite month_body_unfold. cbv zeta. rewrite load_unfold. simpl server.
    destruct Hfail as [-> | (content & -> & Hread)]; [reflexivity|].
    simpl. rewrite Hread. reflexivity. }
  split; [exact Hbody|]. rewrite for_each_cons, Hbody. reflexivity.
Qed.

Lemma failed_fetch_is_fatal_witness :
  (server (Sample.world_of ∅ (fun _ => NoReply ConnectionError))
     (month_url "yellow" (mkdate 2023 1 1)) = NoReply ConnectionError
   \/ exists content,
        server (Sample.world_of ∅ (fun _ => NoReply ConnectionError))
          (month_url "yellow" (mkdate 2023 1 1)) = Reply 200 content
        /\ read_parquet content = Raise ConnectionError)
  /\ for_each (month_body (mkdate 2023 1 1) (mkdate 2023 3 1) "yellow")
       [mkdate 2023 1 1; mkdate 2023 2 1] []
       (Sample.world_of ∅ (fun _ => NoReply ConnectionError))
     = (Raise ConnectionError,
        sent (printed (Sample.world_of ∅ (fun _ => NoReply ConnectionError))
                [fetch_line (month_url "yellow" (mkdate 2023 1 1))])
          [month_url "yellow" (mkdate 2023 1 1)]).
Proof.
  assert (server (Sample.world_of ∅ (fun _ => NoReply ConnectionError))
            (month_url "yellow" (mkdate 2023 1 1)) = NoReply ConnectionError
          \/ exists content,
               server (Sample.world_of ∅ (fun _ => NoReply ConnectionError))
                 (month_url "yellow" (mkdate 2023 1 1)) = Reply 200 content
               /\ read_parquet content = Raise ConnectionError) as Hfail
    by (left; reflexivity).
  split; [exact Hfail|].
  exact (proj2 (failed_fetch_is_fatal (mkdate 2023 1 1) (mkdate 2023 3 1) "yellow" []
                  (mkdate 2023 1 1) [mkdate 2023 2 1] _ ConnectionError Hfail)).
Defined.

(** ** More on the Schema Normalizer *)

(** Setting a column leaves the cells under another label where they were. *)
Lemma setitem_scalar_other_cells (df : DataFrame) (c c' : string) (v : value)
    (i : nat) (r' : row) :
  well_formed df -> c' <> c ->
  In i (positions (setitem_scalar df c v) c') ->
  In r' (rows (setitem_scalar df c v)) ->
  In i (positions df c')
  /\ exists r, In r (rows df) /\ cell_at i r' = cell_at i r.
Proof.
  intros Hwf Hne Hi Hr.
  assert (nth_error (columns df) i = Some c') as Hi0.
  { apply positions_spec in Hi. unfold setitem_scalar, columns_with in Hi. simpl in Hi.
    destruct (has_column df c); [exact Hi|].
    rewrite nth_error_app in Hi.
    destruct (i <? length (columns df))%nat; [exact Hi|].
    destruct (i - length (columns df))%nat as [|[|k]]; simpl in Hi;
      [congruence | discriminate | discriminate]. }
  split; [apply positions_spec; exact Hi0|].
  destruct (Forall2_In_r _ _ _ _ (setitem_scalar_kept df c v Hwf) Hr)
    as (r & Hr0 & _ & Hk).
  exists r. split; [exact Hr0|]. apply (Hk i c' Hi0).
  simpl. intros [Heq | []]. congruence.
Qed.

Lemma positions_from_app (l1 l2 : list string) (c : string) : forall k,
  positions_from k (l1 ++ l2) c
  = (positions_from k l1 c ++ positions_from (k + length l1) l2 c)%list.
Proof.
  induction l1 as [|x l1 IH]; intros k; simpl.
  - rewrite Nat.add_0_r. reflexivity.
  - rewrite IH. replace (S k + length l1)%nat with (k + S (length l1))%nat by lia.
    destruct (String.eqb x c); reflexivity.
Qed.

(** Setting a column leaves the positions of another label where they
    were. *)
Lemma setitem_scalar_positions (df : DataFrame) (c c' : string) (v : value) :
  c' <> c -> positions (setitem_scalar df c v) c' = positions df c'.
Proof.
  intros Hne. unfold positions, setitem_scalar, columns_with. simpl.
  destruct (has_column df c); [reflexivity|].
  rewrite positions_from_app. simpl.
  destruct (String.eqb_spec c c'); [congruence|]. apply app_nil_r.
Qed.

Section NormalizerMore.

Context `{L : Library}.

Lemma ensure_datetime_rows_length (df out : DataFrame) (c : string) :
  ensure_datetime df c = Ok out -> length (rows out) = length (rows df).
Proof.
  intros Hout. apply ensure_datetime_kept in Hout as (_ & _ & Hk).
  symmetry. eapply Forall2_length. exact Hk.
Qed.

(** The steps of the normalizer on a table that is not empty. *)
Lemma standardize_steps (df out : DataFrame) (taxi_type : string) :
  empty df = false ->
  _standardize_schema df taxi_type = Ok out ->
  exists df1 df2,
    ensure_datetime (renamed df) "pickup_datetime" = Ok df1
    /\ ensure_datetime df1 "dropoff_datetime" = Ok df2
    /\ out = setitem_scalar df2 "taxi_type" (VStr taxi_type).
Proof.
  intros He. rewrite standardize_unfold, He.
  destruct (ensure_datetime (renamed df) "pickup_datetime") as [df1|] eqn:H1;
    [|discriminate]. cbn.
  destruct (ensure_datetime df1 "dropoff_datetime") as [df2|] eqn:H2;
    [|discriminate]. cbn.
  intros Heq. injection Heq as <-. eauto.
Qed.

Lemma renamed_well_formed (df : DataFrame) : well_formed df -> well_formed (renamed df).
Proof. unfold well_formed, renamed. simpl. rewrite length_map. auto. Qed.

Lemma standardize_tagged (df out : DataFrame) (taxi_type : string) :
  well_formed df -> empty df = false ->
  _standardize_schema df taxi_type = Ok out ->
  column_is "taxi_type" (VStr taxi_type) out.
Proof.
  intros Hwf He Hout.
  destruct (standardize_steps df out taxi_type He Hout) as (df1 & df2 & H1 & H2 & ->).
  apply ensure_datetime_kept in H1 as (_ & Hw1 & _).
  apply ensure_datetime_kept in H2 as (_ & Hw2 & _).
  split; [apply setitem_scalar_has_column|].
  apply setitem_scalar_stamped. auto using renamed_well_formed.
Qed.

Lemma empty_false (df : DataFrame) :
  empty df = false <-> (0 < length (columns df))%nat /\ (0 < length (rows df))%nat.
Proof.
  unfold empty. destruct (columns df), (rows df); simpl; split;
    try discriminate; try lia; intros _; try split; lia.
Qed.

Lemma standardize_not_empty (df out : DataFrame) (taxi_type : string) :
  empty df = false ->
  _standardize_schema df taxi_type = Ok out ->
  empty out = false /\ length (rows out) = length (rows df).
Proof.
  intros He Hout.
  destruct (standardize_steps df out taxi_type He Hout) as (df1 & df2 & H1 & H2 & ->).
  pose proof (ensure_datetime_rows_length _ _ _ H1) as Hl1.
  pose proof (ensure_datetime_rows_length _ _ _ H2) as Hl2.
  apply ensure_datetime_kept in H1 as (Hc1 & _).
  apply ensure_datetime_kept in H2 as (Hc2 & _).
  simpl in Hl1.
  apply empty_false in He as [Hcols Hrows].
  split.
  - apply setitem_scalar_not_empty. apply empty_false.
    rewrite Hc2, Hc1, Hl2, Hl1. unfold renamed. simpl. rewrite length_map. lia.
  - unfold setitem_scalar. simpl. rewrite length_map. congruence.
Qed.

Lemma standardize_dropoff_datetime (df out : DataFrame) (taxi_type : string) :
  well_formed df -> empty df = false ->
  _standardize_schema df taxi_type = Ok out ->
  datetime_column "dropoff_datetime" out.
Proof.
  intros Hwf He Hout i r Hi Hr.
  destruct (standardize_steps df out taxi_type He Hout) as (df1 & df2 & H1 & H2 & ->).
  apply ensure_datetime_kept in H1 as (_ & Hw1 & _).
  pose proof (Hw1 (renamed_well_formed df Hwf)) as Hwf1.
  pose proof (ensure_datetime_cells df1 df2 _ Hwf1 H2) as Hcells.
  apply ensure_datetime_kept in H2 as (Hc2 & Hw2 & _).
  destruct (setitem_scalar_other_cells df2 "taxi_type" "dropoff_datetime" _ i r
              (Hw2 Hwf1) ltac:(discriminate) Hi Hr) as (Hi2 & r2 & Hr2 & ->).
  apply Hcells; [|exact Hr2].
  apply positions_spec. rewrite <- Hc2. apply positions_spec. exact Hi2.
Qed.

End NormalizerMore.

(** X8: the table [_standardize_schema] returns for a table that is not
    empty has as many rows, is not empty, has a [taxi_type] column, and has
    the subtype label in every row under it. *)
Theorem standardize_tags_every_row `{L : Library} (df out : DataFrame)
    (taxi_type : string) :
  well_formed df -> empty df = false ->
  _standardize_schema df taxi_type = Ok out ->
  empty out = false
  /\ length (rows out) = length (rows df)
  /\ has_column out "taxi_type" = true
  /\ forall i r, In i (positions out "taxi_type") -> In r (rows out) ->
                 cell_at i r = VStr taxi_type.
Proof.
  intros Hwf He Hout.
  destruct (standardize_not_empty df out taxi_type He Hout) as [Hne Hlen].
  destruct (standardize_tagged df out taxi_type Hwf He Hout) as [Hhas Hcells].
  auto.
Qed.

Lemma standardize_tags_every_row_witness :
  well_formed Sample.yellow_january /\ empty Sample.yellow_january = false
  /\ _standardize_schema Sample.yellow_january "yellow"
     = Ok Sample.yellow_january_normalized
  /\ forall i r, In i (positions Sample.yellow_january_normalized "taxi_type") ->
                 In r (rows Sample.yellow_january_normalized) ->
                 cell_at i r = VStr "yellow".
Proof.
  assert (well_formed Sample.yellow_january) as Hwf by (repeat constructor).
  assert (empty Sample.yellow_january = false) as He by reflexivity.
  assert (_standardize_schema Sample.yellow_january "yellow"
          = Ok Sample.yellow_january_normalized) as Hout by reflexivity.
  split; [exact Hwf | split; [exact He | split; [exact Hout |]]].
  exact (proj2 (proj2 (proj2 (standardize_tags_every_row _ _ _ Hwf He Hout)))).
Defined.

(** X9: in the table [_standardize_schema] returns for a table that is not
    empty, the cells under [pickup_datetime] and under [dropoff_datetime]
    are timestamps or null (whatever could not be read as a time is null),
    and at most one column has each of the two labels. *)
Theorem standardize_datetime_columns `{L : Library} (df out : DataFrame)
    (taxi_type : string) :
  well_formed df -> empty df = false ->
  _standardize_schema df taxi_type = Ok out ->
  datetime_column "pickup_datetime" out
  /\ datetime_column "dropoff_datetime" out
  /\ (count_column out "pickup_datetime" <= 1)%nat
  /\ (count_column out "dropoff_datetime" <= 1)%nat.
Proof.
  intros Hwf He Hout.
  destruct (standardize_normalized df out taxi_type Hwf He Hout) as [[Hcount Hpick] _].
  split; [exact Hpick|].
  split; [exact (standardize_dropoff_datetime df out taxi_type Hwf He Hout)|].
  split; [exact Hcount|].
  pose proof (standardize_columns df out taxi_type He Hout) as Hcols.
  destruct (standardize_steps df out taxi_type He Hout) as (df1 & df2 & H1 & H2 & _).
  apply ensure_datetime_kept in H1 as (Hc1 & _).
  unfold count_column at 1. rewrite Hcols.
  rewrite columns_with_count by discriminate.
  destruct (ensure_datetime_cases df1 "dropoff_datetime")
    as [[Hc _] | [(i & _ & Hone & _) | [_ Heq]]].
  - apply not_true_iff_false in Hc. rewrite count_column_has in Hc.
    unfold count_column in *. rewrite <- Hc1. lia.
  - unfold count_column in *. rewrite <- Hc1. lia.
  - congruence.
Qed.

Lemma standardize_datetime_columns_witness :
  well_formed Sample.yellow_january /\ empty Sample.yellow_january = false
  /\ _standardize_schema Sample.yellow_january "yellow"
     = Ok Sample.yellow_january_normalized
  /\ datetime_column "pickup_datetime" Sample.yellow_january_normalized
  /\ datetime_column "dropoff_datetime" Sample.yellow_january_normalized.
Proof.
  assert (well_formed Sample.yellow_january) as Hwf by (repeat constructor).
  assert (empty Sample.yellow_january = false) as He by reflexivity.
  assert (_standardize_schema Sample.yellow_january "yellow"
          = Ok Sample.yellow_january_normalized) as Hout by reflexivity.
  split; [exact Hwf | split; [exact He | split; [exact Hout |]]].
  pose proof (standardize_datetime_columns _ _ _ Hwf He Hout) as (Hp & Hd & _).
  exact (conj Hp Hd).
Defined.

(** The time zones of a column and [datetime_tz]. *)
Lemma zones_In (vals : list value) (t : timestamp) :
  In (VTimestamp t) vals -> In (tz t) (zones vals).
Proof.
  intros Hin. unfold zones. apply in_flat_map. exists (VTimestamp t).
  split; [exact Hin | left; reflexivity].
Qed.

Lemma zones_In_inv (vals : list value) (z : option string) :
  In z (zones vals) -> exists t, In (VTimestamp t) vals /\ tz t = z.
Proof.
  unfold zones. intros Hin. apply in_flat_map in Hin as (v & Hv & Hz).
  destruct v as [| | | |t]; simpl in Hz; try contradiction.
  destruct Hz as [<- | []]. eauto.
Qed.

Lemma datetime_tz_In (vals : list value) (z : option string) (t : timestamp) :
  datetime_tz vals = Some z -> In (VTimestamp t) vals -> tz t = z.
Proof.
  unfold datetime_tz. intros Hdt Hin. apply zones_In in Hin.
  destruct (forallb _ vals); [|discriminate].
  destruct (zones vals) as [|z0 zs]; [destruct Hin|].
  destruct (forallb _ zs) eqn:Hall; [|discriminate]. injection Hdt as <-.
  destruct Hin as [<- | Hin]; [reflexivity|].
  rewrite List.forallb_forall in Hall. specialize (Hall _ Hin).
  apply bool_decide_eq_true in Hall. exact Hall.
Qed.

(** A column of timestamps of one time zone and missing values is made a
    datetime column as it is. *)
Lemma datetime_tz_uniform (vals : list value) (z0 : option string) :
  (forall v, In v vals -> v = VNull \/ exists t, v = VTimestamp t /\ tz t = z0) ->
  exists z, datetime_tz vals = Some z.
Proof.
  intros Hall. unfold datetime_tz.
  match goal with
  | |- context [forallb ?p vals] => assert (forallb p vals = true) as ->
  end.
  { apply List.forallb_forall. intros v Hv.
    destruct (Hall v Hv) as [-> | (t & -> & _)]; reflexivity. }
  assert (forall y, In y (zones vals) -> y = z0) as Hz0.
  { intros y Hy. apply zones_In_inv in Hy as (t & Ht & <-).
    destruct (Hall _ Ht) as [Heq | (t' & Heq & Htz)]; [discriminate|].
    injection Heq as <-. exact Htz. }
  destruct (zones vals) as [|z zs]; [eauto|].
  assert (forallb (fun z' => bool_decide (z' = z)) zs = true) as ->; [|eauto].
  apply List.forallb_forall. intros z' Hz'. apply bool_decide_eq_true.
  rewrite (Hz0 z'), (Hz0 z); [reflexivity | left; reflexivity | right; exact Hz'].
Qed.

Section Accepted.

Context `{L : Library}.

(** The timestamps [pd.to_datetime] makes of a column are of one time
    zone. *)
Lemma coerce_cell_tz (vals : list value) :
  exists z0, forall v, In v vals ->
    exists t, coerce_cell vals v = VTimestamp t /\ tz t = z0.
Proof.
  unfold coerce_cell. destruct (datetime_tz vals) as [z|] eqn:Hdt.
  - exists z. intros v Hv.
    destruct v as [| | | |t]; try (eexists; split; reflexivity).
    exists t. split; [reflexivity|]. exact (datetime_tz_In _ _ _ Hdt Hv).
  - exists (to_datetime_tz vals). intros v _. eexists; split; reflexivity.
Qed.

Lemma coerce_column_datetime_tz (df : DataFrame) (c : string) (i : nat) :
  nth_error (columns df) i = Some c ->
  exists z, datetime_tz (column_at (coerce_column df c i) i) = Some z.
Proof.
  intros Hi. destruct (coerce_cell_tz (column_at df i)) as [z0 Hz0].
  apply (datetime_tz_uniform _ z0). intros v Hv.
  unfold column_at at 1, coerce_column in Hv. simpl in Hv. rewrite map_map in Hv.
  apply in_map_iff in Hv as (r & <- & Hr). unfold cell_at at 1. simpl.
  destruct (Nat.lt_ge_cases i (length (cells r))) as [Hlt | Hge].
  - right. destruct (Hz0 (cell_at i r)) as (t & Ht & Htz);
      [unfold column_at; apply in_map; exact Hr|].
    exists t. split; [|exact Htz].
    rewrite <- Ht. apply set_cells_at; assumption.
  - left. apply nth_overflow. rewrite set_cells_length. exact Hge.
Qed.

Lemma ensure_datetime_datetime_tz (df out : DataFrame) (c : string) (i : nat) :
  ensure_datetime df c = Ok out ->
  nth_error (columns df) i = Some c ->
  exists z, datetime_tz (column_at out i) = Some z.
Proof.
  intros Hout Hi.
  destruct (ensure_datetime_ok df out c Hout) as [[Hc _] | (i' & Hp & _ & _ & ->)].
  - apply nth_error_In, has_column_In in Hi. congruence.
  - assert (In i (positions df c)) as Hin by (apply positions_spec; exact Hi).
    rewrite Hp in Hin. destruct Hin as [<- | []].
    apply coerce_column_datetime_tz. exact Hi.
Qed.

(** [pd.to_datetime] does not raise on the datetime columns of a table the
    normalizer returned. *)
Lemma standardize_accepted (df out : DataFrame) (taxi_type c : string) (i : nat) :
  empty df = false ->
  _standardize_schema df taxi_type = Ok out ->
  c = "pickup_datetime" \/ c = "dropoff_datetime" ->
  nth_error (columns out) i = Some c ->
  to_datetime_raises (column_at out i) = None.
Proof.
  intros He Hout Hc Hi.
  assert (c <> "taxi_type") as Hne by (destruct Hc as [-> | ->]; discriminate).
  pose proof (standardize_columns df out taxi_type He Hout) as Hcols.
  assert (nth_error (columns (renamed df)) i = Some c) as Hi0.
  { rewrite Hcols in Hi. unfold columns_with in Hi.
    destruct (has_column (renamed df) "taxi_type"); [exact Hi|].
    rewrite nth_error_app in Hi.
    destruct (i <? length (columns (renamed df)))%nat; [exact Hi|].
    destruct (i - length (columns (renamed df)))%nat as [|[|k]]; simpl in Hi;
      [congruence | discriminate | discriminate]. }
  destruct (standardize_steps df out taxi_type He Hout) as (df1 & df2 & H1 & H2 & ->).
  pose proof (ensure_datetime_kept _ _ _ H1) as (Hc1 & _ & _).
  pose proof (ensure_datetime_kept _ _ _ H2) as (Hc2 & _ & Hk2).
  assert (exists z, datetime_tz (column_at df2 i) = Some z) as [z Hz].
  { destruct Hc as [-> | ->].
    - destruct (ensure_datetime_datetime_tz _ _ _ i H1 Hi0) as [z Hz].
      exists z. rewrite <- Hz. unfold column_at. f_equal.
      apply (row_kept_column _ _ _ _ i "pickup_datetime" Hk2);
        [rewrite Hc1; exact Hi0|].
      simpl. intros [Heq | []]. discriminate.
    - apply (ensure_datetime_datetime_tz df1 df2 "dropoff_datetime" i H2).
      rewrite Hc1. exact Hi0. }
  unfold to_datetime_raises.
  replace (column_at (setitem_scalar df2 "taxi_type" (VStr taxi_type)) i)
    with (column_at df2 i); [rewrite Hz; reflexivity|].
  symmetry. unfold column_at.
  apply (row_kept_column _ _ _ _ i c (setitem_scalar_kept_any df2 "taxi_type" _)).
  - rewrite Hc2, Hc1. exact Hi0.
  - simpl. intros [Heq | []]. congruence.
Qed.

End Accepted.

Lemma normalized_name_idem (x : string) :
  normalized_name (normalized_name x) = normalized_name x.
Proof.
  unfold normalized_name. pose proof (lower_idem x) as Hidem. revert Hidem.
  generalize (lower x). intros y Hidem. unfold canonical_name at 2.
  repeat match goal with
  | |- context [String.eqb y ?k] => destruct (String.eqb_spec y k) as [->|?]
  end; try reflexivity.
  rewrite Hidem. unfold canonical_name.
  repeat match goal with
  | |- context [String.eqb y ?k] =>
      destruct (String.eqb_spec y k) as [?|?]; [contradiction|]
  end.
  reflexivity.
Qed.

Lemma renamed_fixed (df : DataFrame) :
  Forall (fun c => normalized_name c = c) (columns df) -> renamed df = df.
Proof.
  intros Hfix. unfold renamed. destruct df as [cols rs]. simpl in *. f_equal.
  induction Hfix as [|c cols Hc _ IH]; simpl; [reflexivity|].
  rewrite Hc, IH. reflexivity.
Qed.

(** X10: normalizing is idempotent on the labels. A table
    [_standardize_schema] returned for a table that is not empty is accepted
    again, under any subtype label, and keeps its column labels: they are
    already lower-case and canonical, and [taxi_type] is there. *)
Theorem standardize_labels_idempotent `{L : Library} (df out : DataFrame)
    (taxi_type taxi_type' : string) :
  empty df = false ->
  _standardize_schema df taxi_type = Ok out ->
  exists out',
    _standardize_schema out taxi_type' = Ok out'
    /\ columns out' = columns out.
Proof.
  intros He Hout.
  pose proof (standardize_columns df out taxi_type He Hout) as Hcols.
  destruct (standardize_not_empty df out taxi_type He Hout) as [Hne _].
  assert (Forall (fun c => normalized_name c = c) (columns out)) as Hfix.
  { apply List.Forall_forall. intros c Hc. rewrite Hcols in Hc.
    apply columns_with_In in Hc as [Hc | ->]; [|reflexivity].
    unfold renamed in Hc. simpl in Hc. apply in_map_iff in Hc as (c0 & <- & _).
    apply normalized_name_idem. }
  pose proof (renamed_fixed out Hfix) as Hren.
  assert (forall c, count_normalized out c = count_column out c) as Hcount
    by (intros c; rewrite <- count_renamed, Hren; reflexivity).
  destruct (standardize_steps df out taxi_type He Hout) as (df1 & df2 & H1 & H2 & Heq).
  assert (count_column out "pickup_datetime" <= 1
          /\ count_column out "dropoff_datetime" <= 1)%nat as [Hp Hd].
  { unfold count_column at 1 2. rewrite Hcols, !columns_with_count by discriminate.
    pose proof H1 as H1'. apply ensure_datetime_kept in H1' as (Hc1 & _).
    split.
    - destruct (ensure_datetime_ok _ _ _ H1) as [[Hc _] | (i & _ & Hone & _)]; [|lia].
      apply not_true_iff_false in Hc. rewrite count_column_has in Hc. lia.
    - destruct (ensure_datetime_ok _ _ _ H2) as [[Hc _] | (i & _ & Hone & _)].
      + apply not_true_iff_false in Hc. rewrite count_column_has in Hc.
        unfold count_column in *. rewrite <- Hc1. lia.
      + unfold count_column in *. rewrite <- Hc1. lia. }
  assert (forall c, c = "pickup_datetime" \/ c = "dropoff_datetime" -> readable out c)
    as Hread.
  { intros c Hc i Hi. change (nth_error (columns (renamed out)) i = Some c) in Hi.
    rewrite Hren in Hi. exact (standardize_accepted df out taxi_type c i He Hout Hc Hi). }
  destruct (standardize_returns out taxi_type') as [out' Hout'];
    [rewrite Hcount; exact Hp | rewrite Hcount; exact Hd | auto | auto |].
  exists out'. split; [exact Hout'|].
  rewrite (standardize_columns out out' taxi_type' Hne Hout'), Hren.
  unfold columns_with.
  assert (has_column out "taxi_type" = true) as ->; [|reflexivity].
  apply has_column_In. rewrite Hcols. apply columns_with_In. auto.
Qed.

Lemma standardize_labels_idempotent_witness :
  empty Sample.yellow_january = false
  /\ _standardize_schema Sample.yellow_january "yellow"
     = Ok Sample.yellow_january_normalized
  /\ exists out',
       _standardize_schema Sample.yellow_january_normalized "green" = Ok out'
       /\ columns out' = columns Sample.yellow_january_normalized.
Proof.
  assert (empty Sample.yellow_january = false) as He by reflexivity.
  assert (_standardize_schema Sample.yellow_january "yellow"
          = Ok Sample.yellow_january_normalized) as Hout by reflexivity.
  split; [exact He | split; [exact Hout |]].
  exact (standardize_labels_idempotent _ _ "yellow" "green" He Hout).
Defined.

(** ** Dates as timestamps *)

Lemma days_before_month_table (y m : Z) :
  1 <= m <= 12 ->
  days_before_month y m
  = match m with
    | 1 => 0 | 2 => 31 | 3 => 59 | 4 => 90 | 5 => 120 | 6 => 151 | 7 => 181
    | 8 => 212 | 9 => 243 | 10 => 273 | 11 => 304 | _ => 334
    end
    + (if is_leap y && (2 <? m) then 1 else 0).
Proof.
  intros Hm.
  assert (m = 1 \/ m = 2 \/ m = 3 \/ m = 4 \/ m = 5 \/ m = 6 \/ m = 7 \/ m = 8
          \/ m = 9 \/ m = 10 \/ m = 11 \/ m = 12) as Hcases by lia.
  unfold days_before_month.
  repeat (destruct Hcases as [-> | Hcases]); subst;
    cbv -[is_leap]; destruct (is_leap y); reflexivity.
Qed.

Lemma days_before_year_step (y : Z) :
  days_before_year (y + 1) = days_before_year y + 365 + (if is_leap y then 1 else 0).
Proof.
  unfold days_before_year, is_leap. cbv zeta.
  replace (y + 1 - 1) with y by lia.
  destruct (y mod 4 =? 0) eqn:E4; destruct (y mod 100 =? 0) eqn:E100;
    destruct (y mod 400 =? 0) eqn:E400; simpl;
    rewrite ?Z.eqb_eq, ?Z.eqb_neq in *; Z.to_euclidean_division_equations; lia.
Qed.

Lemma days_before_year_mono (y y' : Z) :
  y <= y' -> days_before_year y <= days_before_year y'.
Proof.
  unfold days_before_year. cbv zeta. intros Hle.
  Z.to_euclidean_division_equations. lia.
Qed.

(** The day of the year of a date is between 1 and the length of its year. *)
Lemma day_of_year_bounds (d : date) :
  valid d ->
  1 <= days_before_month (year d) (month d) + day d
    <= 365 + (if is_leap (year d) then 1 else 0).
Proof.
  intros Hv. pose proof (valid_bounds _ Hv) as Hb.
  unfold valid, check_date_fields in Hv. rewrite !andb_true_iff, !Z.leb_le in Hv.
  destruct Hv as (_ & Hdim).
  rewrite days_before_month_table by lia.
  assert (month d = 1 \/ month d = 2 \/ month d = 3 \/ month d = 4 \/ month d = 5
          \/ month d = 6 \/ month d = 7 \/ month d = 8 \/ month d = 9
          \/ month d = 10 \/ month d = 11 \/ month d = 12) as Hcases by lia.
  repeat (destruct Hcases as [Hm | Hcases]); try rename Hcases into Hm;
    rewrite Hm in *; unfold days_in_month in Hdim; cbn in Hdim |- *;
    destruct (is_leap (year d)); cbn in *; lia.
Qed.

(** [toordinal] keeps the order of dates. *)
Lemma toordinal_lt (a b : date) :
  valid a -> valid b -> Date.lt a b -> toordinal a < toordinal b.
Proof.
  intros Ha Hb Hlt.
  pose proof (valid_bounds _ Ha) as Ba. pose proof (valid_bounds _ Hb) as Bb.
  pose proof (day_of_year_bounds a Ha) as Da.
  pose proof (day_of_year_bounds b Hb) as Db.
  unfold toordinal.
  destruct (Z_lt_dec (year a) (year b)) as [Hy | Hy].
  - pose proof (days_before_year_step (year a)) as Hstep.
    pose proof (days_before_year_mono (year a + 1) (year b) ltac:(lia)) as Hmono.
    lia.
  - assert (year a = year b) as Hyeq by (unfold Date.lt in Hlt; lia).
    rewrite Hyeq in *.
    destruct (Z.eq_dec (month a) (month b)) as [Hm | Hm].
    + rewrite Hm. unfold Date.lt in Hlt. lia.
    + assert (month a < month b) as Hmlt by (unfold Date.lt in Hlt; lia).
      unfold valid, check_date_fields in Ha.
      rewrite !andb_true_iff, !Z.leb_le in Ha. destruct Ha as (_ & Hdim).
      rewrite Hyeq in Hdim.
      rewrite !days_before_month_table by lia.
      assert (month a = 1 \/ month a = 2 \/ month a = 3 \/ month a = 4 \/ month a = 5
              \/ month a = 6 \/ month a = 7 \/ month a = 8 \/ month a = 9
              \/ month a = 10 \/ month a = 11) as Ca by lia.
      assert (month b = 2 \/ month b = 3 \/ month b = 4 \/ month b = 5
              \/ month b = 6 \/ month b = 7 \/ month b = 8 \/ month b = 9
              \/ month b = 10 \/ month b = 11 \/ month b = 12) as Cb by lia.
      repeat (destruct Ca as [Ea | Ca]); try rename Ca into Ea;
        rewrite Ea in *; unfold days_in_month in Hdim; cbn in Hdim;
        repeat (destruct Cb as [Eb | Cb]); try rename Cb into Eb;
        rewrite Eb in *; try lia;
        cbn; destruct (is_leap (year b)); cbn in *; lia.
Qed.

Lemma nanos_of_date_le (a b : date) :
  valid a -> valid b -> Date.le a b -> nanos_of_date a <= nanos_of_date b.
Proof.
  intros Ha Hb Hle. unfold nanos_of_date, NANOS_PER_DAY.
  apply le_eq in Hle as [Hlt | ->]; [|lia].
  pose proof (toordinal_lt a b Ha Hb Hlt). lia.
Qed.

(** ** More on the Window Filter *)

Lemma filter_idem {A : Type} (p : A -> bool) (l : list A) :
  List.filter p (List.filter p l) = List.filter p l.
Proof.
  induction l as [|a l IH]; simpl; [reflexivity|].
  destruct (p a) eqn:E; simpl; rewrite ?E, IH; reflexivity.
Qed.

(** The table the filter returns is normalized as the one it was given. *)
Lemma window_filter_keeps_normalized (df out : DataFrame) (start_date end_date : date) :
  normalized df ->
  window_filter df start_date end_date = Ok out ->
  normalized out /\ columns out = columns df
  /\ forall r, In r (rows out) -> In r (rows df).
Proof.
  intros Hn Heq. apply window_filter_ok in Heq as (_ & _ & ->). unfold kept.
  destruct (positions df "pickup_datetime") as [|i ps] eqn:Hp; [auto|].
  destruct Hn as [Hcount Hcells]. simpl.
  split; [|split; [reflexivity|]].
  - split; [exact Hcount|].
    intros j r Hj Hr. apply filter_In in Hr as [Hr _].
    apply Hcells; [|exact Hr]. exact Hj.
  - intros r Hr. apply filter_In in Hr as [Hr _]. exact Hr.
Qed.

(** X11: the Window Filter is idempotent on normalized tables: filtering
    what it returned, with the same window, returns the same table. *)
Theorem window_filter_idempotent (df out : DataFrame) (start_date end_date : date) :
  normalized df ->
  window_filter df start_date end_date = Ok out ->
  window_filter out start_date end_date = Ok out.
Proof.
  intros Hn Hout.
  destruct (window_filter_keeps_normalized df out _ _ Hn Hout) as ([Hcount' _] & Hcols & Hin).
  apply window_filter_ok in Hout as (_ & Hnaive & ->).
  rewrite window_filter_naive.
  - f_equal. unfold kept.
    destruct (positions df "pickup_datetime") as [|i ps] eqn:Hp.
    + rewrite Hp. reflexivity.
    + unfold positions in *. simpl. rewrite Hp. rewrite filter_idem. reflexivity.
  - exact Hcount'.
  - intros i r Hi Hr. apply Hnaive; [|apply Hin; exact Hr].
    unfold positions in *. rewrite <- Hcols. exact Hi.
Qed.

Lemma window_filter_idempotent_witness :
  normalized Sample.yellow_january_normalized
  /\ window_filter Sample.yellow_january_normalized (mkdate 2023 1 1) (mkdate 2023 2 1)
     = Ok (mkdf (columns Sample.yellow_january_normalized)
             (firstn 1 (rows Sample.yellow_january_normalized)))
  /\ window_filter (mkdf (columns Sample.yellow_january_normalized)
                      (firstn 1 (rows Sample.yellow_january_normalized)))
       (mkdate 2023 1 1) (mkdate 2023 2 1)
     = Ok (mkdf (columns Sample.yellow_january_normalized)
             (firstn 1 (rows Sample.yellow_january_normalized))).
Proof.
  assert (normalized Sample.yellow_january_normalized) as Hn.
  { split; [vm_compute; lia|].
    intros i r [<- | []] Hr. simpl in Hr.
    destruct Hr as [<- | [<- | [<- | []]]]; vm_compute; eauto. }
  assert (window_filter Sample.yellow_january_normalized (mkdate 2023 1 1) (mkdate 2023 2 1)
          = Ok (mkdf (columns Sample.yellow_january_normalized)
                  (firstn 1 (rows Sample.yellow_january_normalized)))) as Hout
    by reflexivity.
  split; [exact Hn | split; [exact Hout |]].
  exact (window_filter_idempotent _ _ _ _ Hn Hout).
Defined.

(** X12: with a window whose end is not after its start, the Window Filter
    keeps no row of a normalized table that has a [pickup_datetime] column,
    so the table it returns is empty. *)
Theorem window_filter_empty_window (df out : DataFrame) (start_date end_date : date) :
  valid start_date -> valid end_date -> Date.le end_date start_date ->
  normalized df ->
  has_column df "pickup_datetime" = true ->
  window_filter df start_date end_date = Ok out ->
  rows out = [] /\ empty out = true.
Proof.
  intros Hs He Hle Hn Hc Heq.
  apply window_filter_ok in Heq as (_ & _ & ->). unfold kept.
  pose proof (positions_length df "pickup_datetime") as Hlen.
  apply count_column_has in Hc.
  destruct (positions df "pickup_datetime") as [|i ps]; [simpl in Hlen; lia|].
  simpl.
  pose proof (nanos_of_date_le end_date start_date He Hs Hle) as Hts.
  assert (List.filter (in_window i start_date end_date) (rows df) = []) as ->.
  { induction (rows df) as [|r rs IH]; simpl; [reflexivity|].
    assert (in_window i start_date end_date r = false) as ->; [|exact IH].
    unfold in_window. destruct (cell_at i r) as [| | | |t]; try reflexivity.
    destruct (instant t) as [n|]; [|reflexivity].
    apply andb_false_iff.
    destruct (Z.leb_spec (nanos_of_date start_date) n); [right | left; reflexivity].
    apply Z.ltb_ge. lia. }
  split; [reflexivity|]. unfold empty. simpl. destruct (columns df); reflexivity.
Qed.

Lemma window_filter_empty_window_witness :
  valid (mkdate 2023 1 15) /\ Date.le (mkdate 2023 1 15) (mkdate 2023 1 15)
  /\ normalized Sample.yellow_january_normalized
  /\ has_column Sample.yellow_january_normalized "pickup_datetime" = true
  /\ window_filter Sample.yellow_january_normalized (mkdate 2023 1 15) (mkdate 2023 1 15)
     = Ok (mkdf (columns Sample.yellow_january_normalized) [])
  /\ rows (mkdf (columns Sample.yellow_january_normalized) []) = [].
Proof.
  assert (valid (mkdate 2023 1 15)) as Hv by reflexivity.
  assert (Date.le (mkdate 2023 1 15) (mkdate 2023 1 15)) as Hle
    by (unfold Date.le; simpl; lia).
  assert (normalized Sample.yellow_january_normalized) as Hn.
  { split; [vm_compute; lia|].
    intros i r [<- | []] Hr. simpl in Hr.
    destruct Hr as [<- | [<- | [<- | []]]]; vm_compute; eauto. }
  assert (has_column Sample.yellow_january_normalized "pickup_datetime" = true) as Hc
    by reflexivity.
  assert (window_filter Sample.yellow_january_normalized (mkdate 2023 1 15) (mkdate 2023 1 15)
          = Ok (mkdf (columns Sample.yellow_january_normalized) [])) as Hout
    by reflexivity.
  split; [exact Hv | split; [exact Hle | split; [exact Hn | split; [exact Hc |
    split; [exact Hout |]]]]].
  exact (proj1 (window_filter_empty_window _ _ _ _ Hv Hv Hle Hn Hc Hout)).
Defined.

(** ** More on the Aggregator *)

Lemma for_each_invariant_In {A B : Type} (body : B -> A -> M B) (I : B -> world -> Prop)
    (l : list A) :
  (forall acc a w acc' w', In a l -> I acc w -> body acc a w = (Ok acc', w') -> I acc' w') ->
  forall acc w acc' w',
    I acc w -> for_each body l acc w = (Ok acc', w') -> I acc' w'.
Proof.
  induction l as [|a l IH]; intros Hbody acc w acc' w' HI Hrun.
  - injection Hrun as <- <-. exact HI.
  - rewrite for_each_cons in Hrun.
    destruct (body acc a w) as [[acc1|e] w1] eqn:Hb; [|discriminate].
    eapply IH; [| |exact Hrun].
    + intros acc0 a0 w0 acc0' w0' Hin. apply Hbody. right. exact Hin.
    + eapply Hbody; [left; reflexivity | exact HI | exact Hb].
Qed.

Section AggregatorMore.

Context `{L : Library} {Lok : LibraryOk L}.

(** When a turn of the inner loop appends a table, it is made in these
    steps. *)
Lemma month_body_appends (start_date end_date : date) (taxi_type : string)
    (frames frames' : list DataFrame) (month_start : date) (w w' : world) :
  month_body start_date end_date taxi_type frames month_start w = (Ok frames', w') ->
  frames' = frames
  \/ exists df df1 df2 now,
       well_formed df /\ empty df = false
       /\ _standardize_schema df taxi_type = Ok df1
       /\ window_filter df1 start_date end_date = Ok df2
       /\ empty df2 = false
       /\ frames' = (frames ++ [setitem_scalar df2 "extracted_at" (VTimestamp now)])%list.
Proof.
  rewrite month_body_unfold. cbv zeta.
  destruct (_load_parquet_from_url _ _) as [[df|e] w2] eqn:Hload; [|discriminate].
  apply load_effect in Hload as (_ & _ & Hfrom).
  destruct (empty df) eqn:He.
  { intros Heq. injection Heq as <- <-. auto. }
  destruct (_standardize_schema df taxi_type) as [df1|e] eqn:Hstd; [|discriminate].
  destruct (window_filter df1 start_date end_date) as [df2|e] eqn:Hfil; [|discriminate].
  destruct (empty df2) eqn:He2; intros Heq; injection Heq as <- <-; [auto|].
  right. exists df, df1, df2, (clock w2 (ticks w2)).
  repeat split; auto.
  destruct (Hfrom df eq_refl) as [-> | (content & Hread)]; [discriminate He|].
  eapply read_parquet_well_formed. exact Hread.
Qed.

(** An appended table has its subtype label on every row and, when it has
    a [pickup_datetime] column, only rows of the window. *)
Lemma month_body_appended_rows (start_date end_date : date) (taxi_type : string)
    (frames frames' : list DataFrame) (month_start : date) (w w' : world) :
  month_body start_date end_date taxi_type frames month_start w = (Ok frames', w') ->
  frames' = frames
  \/ exists f, frames' = (frames ++ [f])%list
               /\ column_is "taxi_type" (VStr taxi_type) f
               /\ (has_column f "pickup_datetime" = true ->
                   rows_in_window start_date end_date f).
Proof.
  intros Hbody.
  apply month_body_appends in Hbody
    as [-> | (df & df1 & df2 & now & Hwf & He & Hstd & Hfil & He2 & ->)]; [auto|].
  right. eexists. split; [reflexivity|].
  destruct (standardize_normalized df df1 taxi_type Hwf He Hstd) as [Hn1 Hwf1].
  destruct (standardize_tagged df df1 taxi_type Hwf He Hstd) as [Hhas Htag].
  pose proof (window_filter_well_formed df1 df2 _ _ Hn1 Hwf1 Hfil) as Hwf2.
  destruct (window_filter_keeps_normalized df1 df2 _ _ Hn1 Hfil) as (Hn2 & Hcols & Hsub).
  assert (forall c, positions df2 c = positions df1 c) as Hpos
    by (intros c; unfold positions; rewrite Hcols; reflexivity).
  split; [split|].
  - apply has_column_In. unfold setitem_scalar. simpl.
    apply columns_with_In. left. rewrite Hcols. apply has_column_In. exact Hhas.
  - intros i r Hi Hr.
    destruct (setitem_scalar_other_cells df2 "extracted_at" "taxi_type" _ i r
                Hwf2 ltac:(discriminate) Hi Hr) as (Hi2 & r2 & Hr2 & ->).
    apply Htag; [rewrite <- Hpos; exact Hi2 | apply Hsub; exact Hr2].
  - intros Hc.
    apply window_filter_ok in Hfil as (Hcount & Hnaive & Hkept).
    assert (positions (setitem_scalar df2 "extracted_at" (VTimestamp now))
              "pickup_datetime" = positions df1 "pickup_datetime") as Hpf
      by (rewrite setitem_scalar_positions by discriminate; apply Hpos).
    apply count_column_has in Hc. rewrite <- positions_length, Hpf in Hc.
    pose proof (positions_length df1 "pickup_datetime") as Hl.
    destruct (positions df1 "pickup_datetime") as [|i [|j ps]] eqn:Hp;
      simpl in Hc, Hl; try lia.
    exists i. split; [exact Hpf|]. intros r Hr.
    destruct (setitem_scalar_other_cells df2 "extracted_at" "pickup_datetime"
                (VTimestamp now) i r Hwf2 ltac:(discriminate))
      as (_ & r2 & Hr2 & ->); [rewrite Hpf; left; reflexivity | exact Hr |].
    unfold kept in Hkept. rewrite Hp in Hkept. rewrite Hkept in Hr2. simpl in Hr2.
    apply filter_In in Hr2 as [Hr1 Hin].
    destruct (Hnaive i r2) as (t & Hcell & Htz); [rewrite Hp; left; reflexivity | exact Hr1 |].
    unfold in_window in Hin. rewrite Hcell in Hin. rewrite Hcell.
    destruct t as [[n|] z]; simpl in Htz, Hin; subst z; [|discriminate].
    apply andb_true_iff in Hin as [H1 H2]. apply Z.leb_le in H1. apply Z.ltb_lt in H2.
    exists n. auto.
Qed.

End AggregatorMore.

(** X13: when the two loops of [materialize] complete, every accumulated
    table has the label of one of the requested subtypes in every row under
    [taxi_type]; and every accumulated table that has a [pickup_datetime]
    column has one such column, a tz-naive one, with a timestamp of an
    instant [n] with [start <= n < end] in every row. Nothing is said of
    the rows of a table without a [pickup_datetime] column, which the loop
    does not filter. *)
Theorem accumulated_rows_tagged_in_window `{L : Library} {Lok : LibraryOk L}
    (start_date end_date : date) (taxi_types : list string)
    (w w' : world) (frames : list DataFrame) :
  collect start_date end_date taxi_types w = (Ok frames, w') ->
  forall f, In f frames ->
    (has_column f "pickup_datetime" = true -> rows_in_window start_date end_date f)
    /\ exists taxi_type, In taxi_type taxi_types
                         /\ column_is "taxi_type" (VStr taxi_type) f.
Proof.
  unfold collect. intros Hrun.
  refine (for_each_invariant_In (type_body start_date end_date)
            (fun frames _ => forall f, In f frames ->
               (has_column f "pickup_datetime" = true ->
                rows_in_window start_date end_date f)
               /\ exists taxi_type, In taxi_type taxi_types
                                    /\ column_is "taxi_type" (VStr taxi_type) f)
            taxi_types _ [] w frames w' _ Hrun).
  - intros acc taxi_type w1 acc' w1' Hin HI Hgen. unfold type_body in Hgen.
    refine (for_gen_invariant (month_body start_date end_date taxi_type)
              (fun frames _ => forall f, In f frames ->
                 (has_column f "pickup_datetime" = true ->
                  rows_in_window start_date end_date f)
                 /\ exists taxi_type, In taxi_type taxi_types
                                      /\ column_is "taxi_type" (VStr taxi_type) f)
              _ _ acc w1 acc' w1' HI Hgen).
    intros acc2 month_start w2 acc2' w2' HI2 Hbody.
    apply month_body_appended_rows in Hbody as [-> | (f & -> & Htag & Hwin)];
      [exact HI2|].
    intros g Hg. apply in_app_iff in Hg as [Hg | [<- | []]]; [auto|].
    split; [exact Hwin | eauto].
  - intros f [].
Qed.

Lemma accumulated_rows_tagged_in_window_witness :
  collect (mkdate 2023 1 1) (mkdate 2023 3 1) ["yellow"] (Sample.world_of ∅ Sample.server)
  = (Ok [Sample.january_stamped; Sample.february_stamped],
     snd (collect (mkdate 2023 1 1) (mkdate 2023 3 1) ["yellow"]
            (Sample.world_of ∅ Sample.server)))
  /\ has_column Sample.february_stamped "pickup_datetime" = true
  /\ rows_in_window (mkdate 2023 1 1) (mkdate 2023 3 1) Sample.february_stamped.
Proof.
  assert (fst (collect (mkdate 2023 1 1) (mkdate 2023 3 1) ["yellow"]
                 (Sample.world_of ∅ Sample.server))
          = Ok [Sample.january_stamped; Sample.february_stamped])
    as Hfst by (vm_compute; reflexivity).
  assert (collect (mkdate 2023 1 1) (mkdate 2023 3 1) ["yellow"]
            (Sample.world_of ∅ Sample.server)
          = (Ok [Sample.january_stamped; Sample.february_stamped],
             snd (collect (mkdate 2023 1 1) (mkdate 2023 3 1) ["yellow"]
                    (Sample.world_of ∅ Sample.server))))
    as Hcollect by (rewrite <- Hfst; apply surjective_pairing).
  split; [exact Hcollect|]. split; [reflexivity|].
  exact (proj1 (accumulated_rows_tagged_in_window _ _ _ _ _ _ Hcollect
                  Sample.february_stamped (or_intror (or_introl eq_refl)))
           eq_refl).
Defined.

(** X14: with both dates set, a start date or an end date that
    [date.fromisoformat] refuses makes [materialize] raise [ValueError], and
    an unreadable [BRUIN_VARS] makes it raise the error of the reading; in
    each case before anything is printed or requested. *)
Theorem unreadable_configuration_is_fatal `{L : Library} (w : world)
    (start_date_str end_date_str : string) :
  environ w !! "BRUIN_START_DATE" = Some start_date_str ->
  environ w !! "BRUIN_END_DATE" = Some end_date_str ->
  start_date_str <> "" -> end_date_str <> "" ->
  (fromisoformat start_date_str = None -> materialize w = (Raise ValueError, w))
  /\ (forall start_date,
        fromisoformat start_date_str = Some start_date ->
        fromisoformat end_date_str = None ->
        materialize w = (Raise ValueError, w))
  /\ (forall start_date end_date e,
        fromisoformat start_date_str = Some start_date ->
        fromisoformat end_date_str = Some end_date ->
        json_taxi_types (default "{}" (environ w !! "BRUIN_VARS")) = Raise e ->
        materialize w = (Raise e, w)).
Proof.
  intros Hs He Hsne Hene.
  split; [|split].
  - intros Hds. unfold materialize, _parse_date. unfold_M.
    rewrite Hs, He. simpl. rewrite !bool_decide_eq_false_2 by assumption. simpl.
    rewrite Hds. reflexivity.
  - intros start_date Hds Hde. unfold materialize, _parse_date. unfold_M.
    rewrite Hs, He. simpl. rewrite !bool_decide_eq_false_2 by assumption. simpl.
    rewrite Hds, Hde. reflexivity.
  - intros start_date end_date e Hds Hde Hvars.
    unfold materialize, _parse_date. unfold_M.
    rewrite Hs, He. simpl. rewrite !bool_decide_eq_false_2 by assumption. simpl.
    rewrite Hds, Hde, Hvars. reflexivity.
Qed.

Lemma unreadable_configuration_is_fatal_witness :
  materialize (Sample.world_of (Sample.window_env "2023-01-01" "next month")
                 Sample.server)
  = (Raise ValueError,
     Sample.world_of (Sample.window_env "2023-01-01" "next month") Sample.server).
Proof.
  refine (proj1 (proj2 (unreadable_configuration_is_fatal
                          (Sample.world_of (Sample.window_env "2023-01-01" "next month")
                             Sample.server)
                          "2023-01-01" "next month" _ _ _ _))
            (mkdate 2023 1 1) _ _);
    first [reflexivity | discriminate].
Defined.

Lemma month_starts_empty (start end_ : date) :
  valid start -> Date.le end_ (first_of_month start) ->
  _month_starts start end_ = mkrun [] Exhausted.
Proof.
  intros Hs Hle. unfold _month_starts, month_starts_fuel. simpl.
  unfold month_starts_step, Date.new. simpl.
  pose proof (valid_bounds _ Hs) as Hb.
  assert (check_date_fields (year start) (month start) 1 = true) as ->
    by (apply check_first; lia).
  apply geb_le in Hle. unfold first_of_month in Hle. rewrite Hle. reflexivity.
Qed.

(** X15: a run with nothing to fetch - an empty list of subtypes, or an end
    date on or before the first day of the start date's month - requests
    nothing, prints nothing, and returns the table without rows that has the
    eleven canonical columns. *)
Theorem nothing_to_fetch `{L : Library} {Lok : LibraryOk L} (w : world)
    (start_date_str end_date_str : string) (start_date end_date : date)
    (vars : option (list string)) :
  environ w !! "BRUIN_START_DATE" = Some start_date_str ->
  environ w !! "BRUIN_END_DATE" = Some end_date_str ->
  start_date_str <> "" -> end_date_str <> "" ->
  fromisoformat start_date_str = Some start_date ->
  fromisoformat end_date_str = Some end_date ->
  json_taxi_types (default "{}" (environ w !! "BRUIN_VARS")) = Ok vars ->
  vars = Some [] \/ Date.le end_date (first_of_month start_date) ->
  materialize w = (Ok (frame_of_columns CANONICAL_COLUMNS), w).
Proof.
  intros Hs He Hsne Hene Hds Hde Hvars Hnothing.
  rewrite (materialize_configured w _ _ _ _ _ Hs He Hsne Hene Hds Hde Hvars).
  assert (collect start_date end_date (default ["yellow"] vars) w = (Ok [], w)) as ->;
    [|reflexivity].
  destruct Hnothing as [-> | Hle]; [reflexivity|].
  pose proof (fromisoformat_valid _ _ Hds) as Hvalid.
  unfold collect.
  induction (default ["yellow"] vars) as [|t types IH]; [reflexivity|].
  rewrite for_each_cons. unfold type_body at 1.
  rewrite (month_starts_empty start_date end_date Hvalid Hle). exact IH.
Qed.

Lemma nothing_to_fetch_witness :
  materialize (Sample.world_of (Sample.window_env "2023-05-20" "2023-03-10")
                 Sample.server)
  = (Ok (frame_of_columns CANONICAL_COLUMNS),
     Sample.world_of (Sample.window_env "2023-05-20" "2023-03-10") Sample.server).
Proof.
  refine (nothing_to_fetch
            (Sample.world_of (Sample.window_env "2023-05-20" "2023-03-10") Sample.server)
            "2023-05-20" "2023-03-10" (mkdate 2023 5 20) (mkdate 2023 3 10) None
            _ _ _ _ _ _ _ _);
    first [reflexivity | discriminate | idtac].
  right. unfold Date.le, Date.lt. simpl. lia.
Defined.

(** X17: in a run of [materialize] that completes, the URLs requested are
    exactly the planned ones, each once: for each subtype of the list in
    turn - the single subtype yellow when [BRUIN_VARS] names no list - the
    months of the window in their order. *)
Theorem completed_run_requests `{L : Library} (w w' : world)
    (start_date_str end_date_str : string) (start_date end_date : date)
    (vars : option (list string)) (out : DataFrame) :
  environ w !! "BRUIN_START_DATE" = Some start_date_str ->
  environ w !! "BRUIN_END_DATE" = Some end_date_str ->
  start_date_str <> "" -> end_date_str <> "" ->
  fromisoformat start_date_str = Some start_date ->
  fromisoformat end_date_str = Some end_date ->
  json_taxi_types (default "{}" (environ w !! "BRUIN_VARS")) = Ok vars ->
  materialize w = (Ok out, w') ->
  requested w'
  = (requested w
     ++ planned_urls start_date end_date (default ["yellow"] vars))%list
  /\ (vars = None ->
      requested w'
      = (requested w
         ++ List.map (month_url "yellow")
              (yielded (_month_starts start_date end_date)))%list).
Proof.
  intros Hs He Hsne Hene Hds Hde Hvars.
  rewrite (materialize_configured w _ _ _ _ _ Hs He Hsne Hene Hds Hde Hvars).
  destruct (collect start_date end_date (default ["yellow"] vars) w)
    as [[frames|e] w1] eqn:Hcollect; [|discriminate].
  intros Hasm.
  assert (w' = w1) as ->.
  { unfold assemble in Hasm. destruct frames; [injection Hasm as _ <-; reflexivity|].
    unfold lift in Hasm. injection Hasm as _ <-. reflexivity. }
  unfold collect in Hcollect.
  apply collect_trace in Hcollect as (_ & done & rest & Hplan & Hreq & _ & Hok).
  rewrite (Hok frames eq_refl), app_nil_r in Hplan.
  split; [rewrite Hplan; exact Hreq|].
  intros ->. rewrite Hreq, <- Hplan. unfold planned_urls. simpl.
  rewrite app_nil_r. reflexivity.
Qed.

Lemma completed_run_requests_witness :
  fst (materialize (Sample.world_of (Sample.window_env "2023-01-01" "2023-03-01")
                      Sample.server))
  = Ok Sample.two_months
  /\ requested (snd (materialize
                       (Sample.world_of (Sample.window_env "2023-01-01" "2023-03-01")
                          Sample.server)))
     = (requested (Sample.world_of (Sample.window_env "2023-01-01" "2023-03-01")
                     Sample.server)
        ++ planned_urls (mkdate 2023 1 1) (mkdate 2023 3 1) (default ["yellow"] None))%list.
Proof.
  assert (fst (materialize (Sample.world_of (Sample.window_env "2023-01-01" "2023-03-01")
                              Sample.server))
          = Ok Sample.two_months) as Hfst by (vm_compute; reflexivity).
  assert (materialize (Sample.world_of (Sample.window_env "2023-01-01" "2023-03-01")
                         Sample.server)
          = (Ok Sample.two_months,
             snd (materialize
                    (Sample.world_of (Sample.window_env "2023-01-01" "2023-03-01")
                       Sample.server)))) as Hrun
    by (rewrite <- Hfst; apply surjective_pairing).
  assert ("2023-01-01" <> "") as Hs by discriminate.
  assert ("2023-03-01" <> "") as He by discriminate.
  split; [exact Hfst|].
  exact (proj1 (completed_run_requests
                  (Sample.world_of (Sample.window_env "2023-01-01" "2023-03-01")
                     Sample.server) _
                  "2023-01-01" "2023-03-01" (mkdate 2023 1 1) (mkdate 2023 3 1)
                  None Sample.two_months eq_refl eq_refl Hs He eq_refl eq_refl eq_refl
                  Hrun)).
Defined.

(** X18: a month whose file is read (status 200) but has no rows, or whose
    rows all fall outside the window, adds no table: the loop body returns
    the accumulated tables as they were after the fetch line and the
    request, without a skip line and without reading the clock. *)
Theorem month_without_rows_is_skipped `{L : Library} (start_date end_date : date)
    (taxi_type : string) (frames : list DataFrame) (month_start : date)
    (w : world) (content : string) (df : DataFrame) :
  server w (month_url taxi_type month_start) = Reply 200 content ->
  read_parquet content = Ok df ->
  empty df = true
  \/ (exists df1 df2,
        _standardize_schema df taxi_type = Ok df1
        /\ window_filter df1 start_date end_date = Ok df2
        /\ empty df2 = true) ->
  month_body start_date end_date taxi_type frames month_start w
  = (Ok frames,
     sent (printed w [fetch_line (month_url taxi_type month_start)])
       [month_url taxi_type month_start])
  /\ ticks (snd (month_body start_date end_date taxi_type frames month_start w))
     = ticks w
  /\ stdout (snd (month_body start_date end_date taxi_type frames month_start w))
     = (stdout w ++ [fetch_line (month_url taxi_type month_start)])%list.
Proof.
  intros Hreply Hread Hnone.
  assert (month_body start_date end_date taxi_type frames month_start w
          = (Ok frames,
             sent (printed w [fetch_line (month_url taxi_type month_start)])
               [month_url taxi_type month_start])) as Hbody.
  { rewrite month_body_unfold. cbv zeta. rewrite load_unfold. simpl server.
    rewrite Hreply. simpl. rewrite Hread.
    destruct (empty df) eqn:He; [reflexivity|].
    destruct Hnone as [Hn | (df1 & df2 & -> & -> & ->)]; [discriminate | reflexivity]. }
  rewrite Hbody. auto.
Qed.

Lemma month_without_rows_is_skipped_witness :
  server (Sample.world_of ∅ Sample.january_server) (month_url "yellow" (mkdate 2023 1 1))
  = Reply 200 "yellow-2023-01"
  /\ read_parquet "yellow-2023-01" = Ok Sample.yellow_january
  /\ month_body (mkdate 2023 3 1) (mkdate 2023 4 1) "yellow" [] (mkdate 2023 1 1)
       (Sample.world_of ∅ Sample.january_server)
     = (Ok [],
        sent (printed (Sample.world_of ∅ Sample.january_server)
                [fetch_line (month_url "yellow" (mkdate 2023 1 1))])
          [month_url "yellow" (mkdate 2023 1 1)]).
Proof.
  assert (server (Sample.world_of ∅ Sample.january_server)
            (month_url "yellow" (mkdate 2023 1 1))
          = Reply 200 "yellow-2023-01") as Hreply by reflexivity.
  assert (read_parquet "yellow-2023-01" = Ok Sample.yellow_january) as Hread
    by reflexivity.
  split; [exact Hreply | split; [exact Hread |]].
  refine (proj1 (month_without_rows_is_skipped (mkdate 2023 3 1) (mkdate 2023 4 1)
                   "yellow" [] (mkdate 2023 1 1) _ _ _ Hreply Hread _)).
  right. exists Sample.yellow_january_normalized.
  exists (mkdf (columns Sample.yellow_january_normalized) []).
  repeat split; reflexivity.
Defined.

(** X19: the normalizer matches labels without regard to letter case: two
    tables with the same rows whose labels agree once lower-cased are
    normalized to the same result, when they are not empty. *)
Theorem standardize_ignores_case `{L : Library} (df df' : DataFrame) (taxi_type : string) :
  empty df = false ->
  rows df' = rows df ->
  List.map lower (columns df') = List.map lower (columns df) ->
  _standardize_schema df' taxi_type = _standardize_schema df taxi_type.
Proof.
  intros He Hrows Hcols.
  assert (renamed df' = renamed df) as Hren.
  { unfold renamed. rewrite Hrows. f_equal.
    unfold normalized_name.
    rewrite <- (map_map lower canonical_name (columns df')),
      <- (map_map lower canonical_name (columns df)), Hcols. reflexivity. }
  assert (empty df' = false) as He'.
  { unfold empty in *. rewrite Hrows.
    destruct (columns df) as [|c cols]; [discriminate|].
    destruct (columns df') as [|c' cols']; [discriminate Hcols|]. exact He. }
  rewrite !standardize_unfold, He, He', Hren. reflexivity.
Qed.

Lemma standardize_ignores_case_witness :
  empty Sample.yellow_january = false
  /\ _standardize_schema
       (mkdf [ "vendorid"; "TPEP_PICKUP_DATETIME"; "Tpep_Dropoff_Datetime";
               "pulocationid"; "DOLOCATIONID"; "Fare_Amount" ]
          (rows Sample.yellow_january)) "yellow"
     = _standardize_schema Sample.yellow_january "yellow".
Proof.
  assert (empty Sample.yellow_january = false) as He by reflexivity.
  split; [exact He|].
  exact (standardize_ignores_case Sample.yellow_january
           (mkdf [ "vendorid"; "TPEP_PICKUP_DATETIME"; "Tpep_Dropoff_Datetime";
                   "pulocationid"; "DOLOCATIONID"; "Fare_Amount" ]
              (rows Sample.yellow_january))
           "yellow" He eq_refl eq_refl).
Defined.

(** X20: with [start] and [end_] the same day [d], the generator yields
    nothing when [d] is the first of its month, and the first of [d]'s month
    when it is not. *)
Theorem month_starts_same_day_yields (d : date) :
  valid d ->
  yielded (_month_starts d d) = if day d =? 1 then [] else [first_of_month d].
Proof.
  intros Hv. pose proof (valid_bounds _ Hv) as Hb.
  assert (length (yielded (_month_starts d d))
          = if day d =? 1 then 0%nat else 1%nat) as Hlen.
  { unfold _month_starts.
    rewrite month_starts_run_length
      by (auto using start_state_ok; apply month_starts_run_finishes;
          auto using start_state_ok).
    unfold ms_index. simpl.
    replace (month_index (year d) (month d) - month_index (year d) (month d)) with 0
      by lia.
    destruct (day d =? 1); reflexivity. }
  destruct (day d =? 1).
  - destruct (yielded (_month_starts d d)); [reflexivity | discriminate].
  - apply month_starts_one_yield. exact Hlen.
Qed.

Lemma month_starts_same_day_yields_witness :
  valid (mkdate 2024 2 29)
  /\ yielded (_month_starts (mkdate 2024 2 29) (mkdate 2024 2 29))
     = [first_of_month (mkdate 2024 2 29)].
Proof.
  assert (valid (mkdate 2024 2 29)) as Hv by reflexivity.
  split; [exact Hv|].
  exact (month_starts_same_day_yields _ Hv).
Defined.

(** What [pd.to_datetime] was given when the normalizer returned: it
    raised on neither datetime column. *)
Lemma standardize_readable `{L : Library} (df out : DataFrame) (taxi_type : string) :
  empty df = false ->
  _standardize_schema df taxi_type = Ok out ->
  readable df "pickup_datetime" /\ readable df "dropoff_datetime".
Proof.
  intros He Hout.
  destruct (standardize_steps df out taxi_type He Hout) as (df1 & df2 & H1 & H2 & _).
  pose proof (ensure_datetime_kept _ _ _ H1) as (Hc1 & _ & Hk1).
  split; intros i Hi.
  - destruct (ensure_datetime_ok _ _ _ H1) as [[Hc _] | (i' & Hp & _ & Hr & _)].
    + apply nth_error_In in Hi.
      change (In "pickup_datetime" (columns (renamed df))) in Hi.
      apply has_column_In in Hi. congruence.
    + assert (In i (positions (renamed df) "pickup_datetime")) as Hin
        by (apply positions_spec; exact Hi).
      rewrite Hp in Hin. destruct Hin as [<- | []]. exact Hr.
  - assert (column_at df1 i = column_at df i) as Hsame.
    { unfold column_at.
      apply (row_kept_column _ _ _ _ i "dropoff_datetime" Hk1); [exact Hi|].
      simpl. intros [Heq | []]. discriminate. }
    destruct (ensure_datetime_ok _ _ _ H2) as [[Hc _] | (i' & Hp & _ & Hr & _)].
    + apply nth_error_In in Hi.
      change (In "dropoff_datetime" (columns (renamed df))) in Hi.
      rewrite <- Hc1 in Hi. apply has_column_In in Hi. congruence.
    + assert (In i (positions df1 "dropoff_datetime")) as Hin
        by (apply positions_spec; rewrite Hc1; exact Hi).
      rewrite Hp in Hin. destruct Hin as [<- | []]. rewrite <- Hsame. exact Hr.
Qed.

(** X21: for a table that is not empty, with labels of ASCII characters,
    [_standardize_schema] returns a table exactly when at most one column
    normalizes to [pickup_datetime], at most one to [dropoff_datetime], and
    [pd.to_datetime] raises on neither of these columns. Two columns that
    end under [pickup_datetime] make it raise [ValueError], and so do two
    that end under [dropoff_datetime] once the pickup column is
    converted. *)
Theorem standardize_raises_on_clash `{L : Library} (df : DataFrame) (taxi_type : string) :
  empty df = false ->
  Forall ascii_label (columns df) ->
  ((exists out, _standardize_schema df taxi_type = Ok out)
   <-> ((count_normalized df "pickup_datetime" <= 1)%nat
        /\ (count_normalized df "dropoff_datetime" <= 1)%nat
        /\ readable df "pickup_datetime"
        /\ readable df "dropoff_datetime"))
  /\ ((2 <= count_normalized df "pickup_datetime")%nat ->
      _standardize_schema df taxi_type = Raise ValueError)
  /\ ((count_normalized df "pickup_datetime" <= 1)%nat ->
      readable df "pickup_datetime" ->
      (2 <= count_normalized df "dropoff_datetime")%nat ->
      _standardize_schema df taxi_type = Raise ValueError).
Proof.
  intros He _.
  assert ((count_normalized df "pickup_datetime" <= 1)%nat ->
          readable df "pickup_datetime" ->
          (2 <= count_normalized df "dropoff_datetime")%nat ->
          _standardize_schema df taxi_type = Raise ValueError) as Hdrop.
  { intros Hp Hrp Hd. rewrite standardize_unfold, He.
    destruct (ensure_datetime_returns (renamed df) "pickup_datetime") as [df1 H1];
      [rewrite count_renamed; exact Hp | exact Hrp |].
    rewrite H1. cbn.
    apply ensure_datetime_kept in H1 as (Hc1 & _).
    rewrite ensure_datetime_raises; [reflexivity|].
    unfold count_column. rewrite Hc1.
    fold (count_column (renamed df) "dropoff_datetime").
    rewrite count_renamed. exact Hd. }
  split; [split|split].
  - intros [out Hout].
    destruct (standardize_readable df out taxi_type He Hout) as [Hrp Hrd].
    destruct (le_lt_dec 2 (count_normalized df "pickup_datetime")) as [Hp | Hp];
      [rewrite standardize_clash_raises in Hout by assumption; discriminate|].
    destruct (le_lt_dec 2 (count_normalized df "dropoff_datetime")) as [Hd | Hd];
      [rewrite Hdrop in Hout by (assumption || lia); discriminate|].
    repeat split; (assumption || lia).
  - intros (Hp & Hd & Hrp & Hrd). apply standardize_returns; assumption.
  - intros Hp. apply standardize_clash_raises; assumption.
  - exact Hdrop.
Qed.

Lemma standardize_raises_on_clash_witness :
  empty Sample.clashing = false
  /\ Forall ascii_label (columns Sample.clashing)
  /\ (2 <= count_normalized Sample.clashing "pickup_datetime")%nat
  /\ _standardize_schema Sample.clashing "yellow" = Raise ValueError.
Proof.
  assert (empty Sample.clashing = false) as He by reflexivity.
  assert (Forall ascii_label (columns Sample.clashing)) as Ha
    by (repeat (constructor; [repeat (constructor; [reflexivity|]); constructor|]);
        constructor).
  assert (2 <= count_normalized Sample.clashing "pickup_datetime")%nat as Hp
    by (vm_compute; lia).
  split; [exact He | split; [exact Ha | split; [exact Hp |]]].
  exact (proj1 (proj2 (standardize_raises_on_clash Sample.clashing "yellow" He Ha)) Hp).
Defined.

Lemma flat_map_single {A B C : Type} (h : A -> C -> B) (c : C) (l : list A) :
  flat_map (fun a => List.map (h a) [c]) l = List.map (fun a => h a c) l.
Proof. induction l as [|a l IH]; simpl in *; congruence. Qed.

(** X22: a run of [materialize] over a window inside one month that
    completes has requested one URL for each subtype, that of the month, in
    the order of the subtypes. *)
Theorem one_month_one_fetch_per_subtype `{L : Library} {Lok : LibraryOk L}
    (w w' : world) (start_date_str end_date_str : string) (start_date end_date : date)
    (vars : option (list string)) (out : DataFrame) :
  environ w !! "BRUIN_START_DATE" = Some start_date_str ->
  environ w !! "BRUIN_END_DATE" = Some end_date_str ->
  start_date_str <> "" -> end_date_str <> "" ->
  fromisoformat start_date_str = Some start_date ->
  fromisoformat end_date_str = Some end_date ->
  json_taxi_types (default "{}" (environ w !! "BRUIN_VARS")) = Ok vars ->
  Date.lt start_date end_date ->
  year start_date = year end_date -> month start_date = month end_date ->
  materialize w = (Ok out, w') ->
  requested w'
  = (requested w
     ++ List.map (fun taxi_type => month_url taxi_type (first_of_month start_date))
          (default ["yellow"] vars))%list.
Proof.
  intros Hs He Hsne Hene Hds Hde Hvars Hlt Hy Hm.
  rewrite (materialize_configured w _ _ _ _ _ Hs He Hsne Hene Hds Hde Hvars).
  destruct (collect start_date end_date (default ["yellow"] vars) w)
    as [[frames|e] w1] eqn:Hcollect; [|discriminate].
  intros Hasm.
  assert (w' = w1) as ->.
  { unfold assemble in Hasm. destruct frames; [injection Hasm as _ <-; reflexivity|].
    unfold lift in Hasm. injection Hasm as _ <-. reflexivity. }
  unfold collect in Hcollect.
  apply collect_trace in Hcollect as (_ & done & rest & Hplan & Hreq & _ & Hok).
  rewrite (Hok frames eq_refl), app_nil_r in Hplan.
  rewrite Hreq, <- Hplan. f_equal. unfold planned_urls.
  rewrite (month_starts_one_yield start_date end_date
             (month_starts_length_one start_date end_date
                (fromisoformat_valid _ _ Hds) (fromisoformat_valid _ _ Hde) Hlt Hy Hm)).
  apply flat_map_single.
Qed.

Lemma one_month_one_fetch_per_subtype_witness :
  requested (snd (materialize
                    (Sample.world_of
                       (<["BRUIN_VARS" := Sample.two_types]>
                          (Sample.window_env "2023-01-10" "2023-01-20"))
                       Sample.bare_server)))
  = (requested (Sample.world_of
                  (<["BRUIN_VARS" := Sample.two_types]>
                     (Sample.window_env "2023-01-10" "2023-01-20"))
                  Sample.bare_server)
     ++ List.map (fun taxi_type => month_url taxi_type (first_of_month (mkdate 2023 1 10)))
          (default ["yellow"] (Some ["yellow"; "green"])))%list.
Proof.
  assert (fst (materialize
                 (Sample.world_of
                    (<["BRUIN_VARS" := Sample.two_types]>
                       (Sample.window_env "2023-01-10" "2023-01-20"))
                    Sample.bare_server))
          = Ok (frame_of_columns CANONICAL_COLUMNS)) as Hfst by (vm_compute; reflexivity).
  assert (materialize
            (Sample.world_of
               (<["BRUIN_VARS" := Sample.two_types]>
                  (Sample.window_env "2023-01-10" "2023-01-20"))
               Sample.bare_server)
          = (Ok (frame_of_columns CANONICAL_COLUMNS),
             snd (materialize
                    (Sample.world_of
                       (<["BRUIN_VARS" := Sample.two_types]>
                          (Sample.window_env "2023-01-10" "2023-01-20"))
                       Sample.bare_server)))) as Hrun
    by (rewrite <- Hfst; apply surjective_pairing).
  assert ("2023-01-10" <> "") as Hs by discriminate.
  assert ("2023-01-20" <> "") as He by discriminate.
  assert (Date.lt (mkdate 2023 1 10) (mkdate 2023 1 20)) as Hlt
    by (unfold Date.lt; simpl; lia).
  exact (one_month_one_fetch_per_subtype
           (Sample.world_of
              (<["BRUIN_VARS" := Sample.two_types]>
                 (Sample.window_env "2023-01-10" "2023-01-20"))
              Sample.bare_server) _
           "2023-01-10" "2023-01-20" (mkdate 2023 1 10) (mkdate 2023 1 20)
           (Some ["yellow"; "green"]) _
           eq_refl eq_refl Hs He eq_refl eq_refl eq_refl Hlt eq_refl eq_refl Hrun).
Defined.
